(** * Top Team Requirements Table: a shallow embedding of the userscript
      [show-top-team-requirements-table.js] and proofs about it.

    JavaScript numbers are IEEE 754 binary64 values; they are modelled by
    the standard library's [spec_float] with precision 53 and maximal
    exponent 1024, so that [/], [-], [*], [<] and [Math.ceil] round exactly
    as they do in the script. *)

From stdpp Require Import gmap strings list pretty.
From Stdlib Require Import Ascii ZArith Lia QArith Qpower Qround Qabs Lqa Floats.SpecFloat.
Open Scope Z_scope.

(** ** JavaScript numbers *)

Module Num.

Definition number := spec_float.

(** The double nearest to the integer [n] (exact below 2^53). *)
Definition Z2SF (n : Z) : number := binary_normalize 53 1024 n 0 false.

Definition js_div : number -> number -> number := SFdiv 53 1024.
Definition js_sub : number -> number -> number := SFsub 53 1024.
Definition js_mul : number -> number -> number := SFmul 53 1024.
Definition js_lt : number -> number -> bool := SFltb.
Definition js_eq : number -> number -> bool := SFeqb.

(** [Math.ceil]: the least integral double not below [x]; the sign of a
    zero result is the sign of [x]. *)
Definition Math_ceil (x : number) : number :=
  match x with
  | S754_finite s m e =>
      if 0 <=? e then x
      else
        let q := Zpos m / 2 ^ (- e) in
        let r := Zpos m mod 2 ^ (- e) in
        if s then (if q =? 0 then S754_zero true else Z2SF (- q))
        else Z2SF (if r =? 0 then q else q + 1)
  | _ => x
  end.

(** Real value of a double, as a rational. *)
Definition pow2 (e : Z) : Q := (2 ^ e)%Q.
Definition F2Q (m e : Z) : Q := (inject_Z m * pow2 e)%Q.
Definition SF2Q (x : number) : Q :=
  match x with
  | S754_finite s m e => if s then (- F2Q (Zpos m) e)%Q else F2Q (Zpos m) e
  | _ => 0%Q
  end.

(** Ceiling of the exact quotient [a / b] of integers. *)
Definition ceil_div (a b : Z) : Z := - ((- a) / b).

(** *** Auxiliary notions used to reason about rounding *)

(** Position of an exact value [N / d] between two consecutive integers. *)
Definition loc_frac (r d : Z) : location :=
  if r =? 0 then loc_Exact else loc_Inexact (2 * r ?= d).

Definition frac_record (N d : Z) : shr_record :=
  shr_record_of_loc (N / d) (loc_frac (N mod d) d).

(** [N / d] rounded to the nearest integer, ties to even. *)
Definition rne (N d : Z) : Z :=
  round_nearest_even (N / d) (loc_frac (N mod d) d).

Definition normal_result (s : bool) (m e : Z) : number :=
  if m <? 2 ^ 53 then S754_finite s (Z.to_pos m) e
  else S754_finite s (Z.to_pos (2 ^ 52)) (e + 1).

(** Canonical binary64 form of a positive integer below 2^53. *)
Definition cexp (n : Z) : Z := Zdigits2 n - 53.
Definition cman (n : Z) : Z := n * 2 ^ (53 - Zdigits2 n).
Definition canon (s : bool) (n : Z) : number :=
  S754_finite s (Z.to_pos (cman n)) (cexp n).

(** [z] is a double nearest to the exact value [x]: no value [M * 2^e] with a
    53-bit mantissa is closer. *)
Definition nearest (z x : Q) : Prop :=
  forall M e, Z.abs M <= 2 ^ 53 -> (Qabs (z - x) <= Qabs (F2Q M e - x))%Q.

End Num.
Export Num.

(** ** JavaScript values *)

(** A string is either literal characters or the JSON text of a value.
    [Json v] stands for the text that [JSON.stringify] produces for [v];
    the script only ever parses such texts back. *)
#[local] Unset Elimination Schemes.
Inductive value :=
  | VUndefined
  | VNull
  | VBool (b : bool)
  | VNum (x : number)
  | VStr (t : jstring)
  | VArr (items : list value)
  | VObj (fields : list (string * value))
with jstring :=
  | Raw (s : string)
  | Json (v : value).
#[local] Set Elimination Schemes.

Inductive error :=
  | TypeError
  | SyntaxError
  | Error (message : string)
  | FetchFailed
  | NotFoundError.

(** Result of evaluating a piece of the script: a value, a thrown exception,
    or [Unmodelled] when the evaluation needs a coercion this embedding
    does not define (the number that literal text stands for, the value of
    literal JSON text, the text of an array). *)
Inductive outcome (A : Type) :=
  | Ok (a : A)
  | Throw (e : error)
  | Unmodelled.
Arguments Ok {A} a.
Arguments Throw {A} e.
Arguments Unmodelled {A}.

Definition obind {A B} (m : outcome A) (k : A -> outcome B) : outcome B :=
  match m with
  | Ok a => k a
  | Throw e => Throw e
  | Unmodelled => Unmodelled
  end.

Fixpoint omapM {A B} (f : A -> outcome B) (l : list A) : outcome (list B) :=
  match l with
  | [] => Ok []
  | a :: r => obind (f a) (fun b => obind (omapM f r) (fun bs => Ok (b :: bs)))
  end.

Declare Scope js_scope.
Delimit Scope js_scope with js.
Notation "'let*' x ':=' m 'in' k" := (obind m (fun x => k))
  (at level 10, x name, m at level 100, k at level 200) : js_scope.
Open Scope js_scope.

(** Own-property lookup in an object literal. *)
Fixpoint lookup_field (k : string) (fs : list (string * value)) : value :=
  match fs with
  | [] => VUndefined
  | (k', v) :: r => if String.eqb k k' then v else lookup_field k r
  end.

(** [o.k = v] on the property list: replaces in place, or appends. *)
Fixpoint update_field (k : string) (v : value) (fs : list (string * value))
  : list (string * value) :=
  match fs with
  | [] => [(k, v)]
  | (k', v') :: r =>
      if String.eqb k k' then (k, v) :: r else (k', v') :: update_field k v r
  end.

(** Property read [v.k], for the data property names this script uses
    (none of them is inherited from a prototype). *)
Definition get_field (v : value) (k : string) : outcome value :=
  match v with
  | VUndefined | VNull => Throw TypeError
  | VObj fs => Ok (lookup_field k fs)
  | _ => Ok VUndefined
  end.

(** Property write [v.k = x] in strict mode. *)
Definition set_field (v : value) (k : string) (x : value) : outcome value :=
  match v with
  | VObj fs => Ok (VObj (update_field k x fs))
  | VArr _ => Unmodelled
  | _ => Throw TypeError
  end.

Definition char_at (s : string) (i : nat) : value :=
  match String.get i s with
  | Some c => VStr (Raw (String c EmptyString))
  | None => VUndefined
  end.

(** Indexed read [v[i]]. *)
Definition get_index (v : value) (i : nat) : outcome value :=
  match v with
  | VUndefined | VNull => Throw TypeError
  | VArr l => Ok (nth i l VUndefined)
  | VObj fs => Ok (lookup_field (pretty i) fs)
  | VStr (Raw s) => Ok (char_at s i)
  | VStr (Json _) => Unmodelled
  | VBool _ | VNum _ => Ok VUndefined
  end.

Definition is_nan_or_zero (x : number) : bool :=
  match x with
  | S754_nan | S754_zero _ => true
  | _ => false
  end.

(** ToBoolean. *)
Definition truthy (v : value) : bool :=
  match v with
  | VUndefined | VNull => false
  | VBool b => b
  | VNum x => negb (is_nan_or_zero x)
  | VStr (Raw s) => negb (String.eqb s EmptyString)
  | VStr (Json _) => true
  | VArr _ | VObj _ => true
  end.

(** Own-property test on an object literal. *)
Fixpoint has_key (k : string) (fs : list (string * value)) : bool :=
  match fs with
  | [] => false
  | (k', _) :: r => String.eqb k k' || has_key k r
  end.

(** ToNumber.  An object is first converted to a primitive: the inherited
    [valueOf] gives the object back, so [toString] decides.  The inherited
    one prints [[object Object]], which is [NaN] as a number; an own property
    of that name in parsed JSON is never a function, and then the conversion
    throws.  Strings and arrays go through StringToNumber, which is not
    modelled. *)
Definition to_number (v : value) : outcome number :=
  match v with
  | VUndefined => Ok S754_nan
  | VNull => Ok (S754_zero false)
  | VBool b => Ok (if b then Z2SF 1 else S754_zero false)
  | VNum x => Ok x
  | VObj fs => if has_key "toString" fs then Throw TypeError else Ok S754_nan
  | VStr _ | VArr _ => Unmodelled
  end.

(** First characters a JSON text can start with (white space included). *)
Definition json_start (c : ascii) : bool :=
  let n := nat_of_ascii c in
  (n =? 123)%nat || (n =? 91)%nat || (n =? 34)%nat || (n =? 45)%nat ||
  ((48 <=? n)%nat && (n <=? 57)%nat) ||
  (n =? 116)%nat || (n =? 102)%nat || (n =? 110)%nat ||
  (n =? 32)%nat || (n =? 9)%nat || (n =? 10)%nat || (n =? 13)%nat.

(** Literal text that certainly is not JSON: it is empty or starts with a
    character no JSON text starts with. *)
Definition not_json (s : string) : bool :=
  match s with
  | EmptyString => true
  | String c _ => negb (json_start c)
  end.

(** What [JSON.stringify] keeps of a value: [undefined] properties are
    dropped, [undefined] array items and non-finite numbers become [null],
    negative zero becomes zero. *)
Fixpoint json_norm (v : value) : value :=
  match v with
  | VNum x =>
      match x with
      | S754_nan | S754_infinity _ => VNull
      | S754_zero _ => VNum (S754_zero false)
      | S754_finite _ _ _ => VNum x
      end
  | VArr l =>
      VArr (List.map (fun x => match x with
                               | VUndefined => VNull
                               | _ => json_norm x
                               end) l)
  | VObj fs =>
      VObj ((fix go (fs : list (string * value)) : list (string * value) :=
               match fs with
               | [] => []
               | (k, x) :: r =>
                   match x with
                   | VUndefined => go r
                   | _ => (k, json_norm x) :: go r
                   end
               end) fs)
  | _ => v
  end.

(** [JSON.stringify(v)] for a value [v] other than [undefined]; the script
    only stringifies object literals. *)
Definition JSON_stringify (v : value) : jstring := Json (json_norm v).

(** *** The JSON grammar

    [JSON.parse] accepts exactly the texts of the JSON grammar.  The
    recognizer below reads a text from left to right, one character at a
    time, with the stack of the arrays and objects that are open. *)

Inductive nesting := InArray | InObject.

Inductive scanning :=
  | BeforeValue                          (** a value must come *)
  | ArrayOpened                          (** after [[]: a value or []] *)
  | ObjectOpened                         (** after [{]: a key or [}] *)
  | BeforeKey                            (** after [,] in an object: a key *)
  | BeforeColon                          (** after a key *)
  | AfterValue                           (** a value is complete *)
  | InString (key : bool)                (** inside a string *)
  | AfterBackslash (key : bool)
  | InUnicodeEscape (key : bool) (digits : nat)   (** hex digits still to come *)
  | InLiteral (rest : string)            (** inside [true], [false] or [null] *)
  | AfterMinus
  | AfterZero                            (** integer part [0] *)
  | InInteger                            (** integer part starting with 1-9 *)
  | AfterPoint
  | InFraction
  | AfterExponentMark
  | AfterExponentSign
  | InExponent.

(** Space, tab, line feed, carriage return. *)
Definition json_white (c : ascii) : bool :=
  let n := nat_of_ascii c in
  (n =? 32)%nat || (n =? 9)%nat || (n =? 10)%nat || (n =? 13)%nat.

Definition json_digit (c : ascii) : bool :=
  let n := nat_of_ascii c in (48 <=? n)%nat && (n <=? 57)%nat.

Definition json_hex_digit (c : ascii) : bool :=
  let n := nat_of_ascii c in
  ((48 <=? n)%nat && (n <=? 57)%nat) || ((65 <=? n)%nat && (n <=? 70)%nat) ||
  ((97 <=? n)%nat && (n <=? 102)%nat).

(** The character after a backslash: one of the quote, the backslash, [/],
    [b], [f], [n], [r], [t]. *)
Definition json_escape (c : ascii) : bool :=
  let n := nat_of_ascii c in
  (n =? 34)%nat || (n =? 92)%nat || (n =? 47)%nat || (n =? 98)%nat ||
  (n =? 102)%nat || (n =? 110)%nat || (n =? 114)%nat || (n =? 116)%nat.

(** First character of a value. *)
Definition begin_value (c : ascii) (open : list nesting)
  : option (scanning * list nesting) :=
  let n := nat_of_ascii c in
  if (n =? 123)%nat then Some (ObjectOpened, InObject :: open)
  else if (n =? 91)%nat then Some (ArrayOpened, InArray :: open)
  else if (n =? 34)%nat then Some (InString false, open)
  else if (n =? 45)%nat then Some (AfterMinus, open)
  else if (n =? 48)%nat then Some (AfterZero, open)
  else if json_digit c then Some (InInteger, open)
  else if (n =? 116)%nat then Some (InLiteral "rue", open)
  else if (n =? 102)%nat then Some (InLiteral "alse", open)
  else if (n =? 110)%nat then Some (InLiteral "ull", open)
  else None.

(** A character after a complete value: white space, or what the innermost
    open array or object allows. *)
Definition after_value (c : ascii) (open : list nesting)
  : option (scanning * list nesting) :=
  let n := nat_of_ascii c in
  if json_white c then Some (AfterValue, open)
  else
    match open with
    | InArray :: outer =>
        if (n =? 44)%nat then Some (BeforeValue, open)
        else if (n =? 93)%nat then Some (AfterValue, outer)
        else None
    | InObject :: outer =>
        if (n =? 44)%nat then Some (BeforeKey, open)
        else if (n =? 125)%nat then Some (AfterValue, outer)
        else None
    | [] => None
    end.

Definition is_exponent_mark (c : ascii) : bool :=
  let n := nat_of_ascii c in (n =? 101)%nat || (n =? 69)%nat.

Definition scan_step (st : scanning) (open : list nesting) (c : ascii)
  : option (scanning * list nesting) :=
  let n := nat_of_ascii c in
  match st with
  | BeforeValue =>
      if json_white c then Some (BeforeValue, open) else begin_value c open
  | ArrayOpened =>
      if json_white c then Some (ArrayOpened, open)
      else if (n =? 93)%nat then Some (AfterValue, tl open)
      else begin_value c open
  | ObjectOpened =>
      if json_white c then Some (ObjectOpened, open)
      else if (n =? 125)%nat then Some (AfterValue, tl open)
      else if (n =? 34)%nat then Some (InString true, open)
      else None
  | BeforeKey =>
      if json_white c then Some (BeforeKey, open)
      else if (n =? 34)%nat then Some (InString true, open)
      else None
  | BeforeColon =>
      if json_white c then Some (BeforeColon, open)
      else if (n =? 58)%nat then Some (BeforeValue, open)
      else None
  | AfterValue => after_value c open
  | InString key =>
      if (n =? 34)%nat then Some (if key then BeforeColon else AfterValue, open)
      else if (n =? 92)%nat then Some (AfterBackslash key, open)
      else if (n <? 32)%nat then None
      else Some (InString key, open)
  | AfterBackslash key =>
      if json_escape c then Some (InString key, open)
      else if (n =? 117)%nat then Some (InUnicodeEscape key 4, open)
      else None
  | InUnicodeEscape key digits =>
      if json_hex_digit c then
        match digits with
        | S (S d) => Some (InUnicodeEscape key (S d), open)
        | _ => Some (InString key, open)
        end
      else None
  | InLiteral rest =>
      match rest with
      | String x EmptyString => if Ascii.eqb c x then Some (AfterValue, open) else None
      | String x more => if Ascii.eqb c x then Some (InLiteral more, open) else None
      | EmptyString => None
      end
  | AfterMinus =>
      if (n =? 48)%nat then Some (AfterZero, open)
      else if json_digit c then Some (InInteger, open)
      else None
  | AfterZero =>
      if (n =? 46)%nat then Some (AfterPoint, open)
      else if is_exponent_mark c then Some (AfterExponentMark, open)
      else after_value c open
  | InInteger =>
      if json_digit c then Some (InInteger, open)
      else if (n =? 46)%nat then Some (AfterPoint, open)
      else if is_exponent_mark c then Some (AfterExponentMark, open)
      else after_value c open
  | AfterPoint =>
      if json_digit c then Some (InFraction, open) else None
  | InFraction =>
      if json_digit c then Some (InFraction, open)
      else if is_exponent_mark c then Some (AfterExponentMark, open)
      else after_value c open
  | AfterExponentMark =>
      if (n =? 43)%nat || (n =? 45)%nat then Some (AfterExponentSign, open)
      else if json_digit c then Some (InExponent, open)
      else None
  | AfterExponentSign =>
      if json_digit c then Some (InExponent, open) else None
  | InExponent =>
      if json_digit c then Some (InExponent, open) else after_value c open
  end.

(** At the end of the text: one value is complete and nothing is open. *)
Definition scan_end (st : scanning) (open : list nesting) : bool :=
  match open, st with
  | [], (AfterValue | AfterZero | InInteger | InFraction | InExponent) => true
  | _, _ => false
  end.

Fixpoint scan (st : scanning) (open : list nesting) (s : string) : bool :=
  match s with
  | EmptyString => scan_end st open
  | String c r =>
      match scan_step st open c with
      | Some (st', open') => scan st' open' r
      | None => false
      end
  end.

(** The text is a JSON text. *)
Definition valid_json (s : string) : bool := scan BeforeValue [] s.

(** [JSON.parse] of a text.  [Json VUndefined] stands for no text at all.
    Literal text that is not a JSON text makes it throw; the value of
    literal text that is one is not modelled. *)
Definition parse_text (t : jstring) : outcome value :=
  match t with
  | Json VUndefined => Unmodelled
  | Json v => Ok (json_norm v)
  | Raw s => if valid_json s then Unmodelled else Throw SyntaxError
  end.

(** [JSON.parse(v)]: the argument is converted to a string and parsed.  An
    object prints as [[object Object]], which is no JSON text, unless it has
    an own [toString], with which the conversion throws. *)
Definition JSON_parse (v : value) : outcome value :=
  match v with
  | VStr t => parse_text t
  | VNull => Ok VNull
  | VBool b => Ok (VBool b)
  | VNum x =>
      match x with
      | S754_nan | S754_infinity _ => Throw SyntaxError
      | S754_zero _ => Ok (VNum (S754_zero false))
      | S754_finite _ _ _ => Ok (VNum x)
      end
  | VUndefined => Throw SyntaxError
  | VObj fs => if has_key "toString" fs then Throw TypeError else Throw SyntaxError
  | VArr _ => Unmodelled
  end.

(** Strict equality [a === b].  Two strings of which one is a JSON text are
    compared only when the other cannot be JSON; object identity is not
    modelled. *)
Definition strict_eq (a b : value) : outcome bool :=
  match a, b with
  | VUndefined, VUndefined | VNull, VNull => Ok true
  | VBool x, VBool y => Ok (Bool.eqb x y)
  | VNum x, VNum y => Ok (js_eq x y)
  | VStr (Raw s), VStr (Raw t) => Ok (String.eqb s t)
  | VStr (Raw s), VStr (Json _) | VStr (Json _), VStr (Raw s) =>
      if not_json s then Ok false else Unmodelled
  | VStr (Json _), VStr (Json _) => Unmodelled
  | VArr _, VArr _ | VObj _, VObj _ => Unmodelled
  | _, _ => Ok false
  end.

(** ** The rendered widget *)

(** Text of a table cell: what [toLocaleString] prints for a value. *)
Inductive cell :=
  | Localized (v : value).

Record row := {
  rank : string;
  races : cell;
  experience : cell;
  daily : cell
}.

Definition tbody := list row.

(** The footnote under the table, a template string over the team data. *)
Inductive footnote :=
  | ForMembers (memberCount : value)
      (** [* Calculated for ${memberCount} members.] *)
  | ForMembersAndSeason (memberCount seasonRaces : value)
      (** [* Calculated for ${memberCount} members and ${seasonRaces} season races.] *).

(** The parts of the widget that the script computes: the class lists of the
    two toggle buttons, the table body and the footnote. *)
Record widget := {
  weeklyButton : list string;
  seasonButton : list string;
  tableBody : tbody;
  footerSpan : footnote
}.

(** ** The browser: storage, clock, network, console *)

Record response := {
  status : N;               (** HTTP status code *)
  body : option value;      (** parsed JSON body; [None] if it is not JSON *)
  received : Z              (** clock reading once the body has been read *)
}.

Inductive netresult :=
  | NetFail
  | NetResp (r : response).

(** The remote side, one answer per URL. *)
Definition network := string -> netresult.

Inductive event :=
  | EFetch (url : string)                  (** a network request *)
  | ELog (prefix : string) (e : error)     (** [console.error] of an exception *)
  | ELogText (message : string)            (** [console.error] of a text *)
  | EInsert (w : widget).                  (** the widget is put into the page *)

Record world := {
  storage : gmap string jstring;   (** [localStorage] *)
  clock : Z                        (** milliseconds since the epoch *)
}.

Record run (A : Type) := {
  res : outcome A;
  final : world;
  trace : list event
}.
Arguments res {A} r.
Arguments final {A} r.
Arguments trace {A} r.
Arguments Build_run {A} res final trace.

Definition M (A : Type) := world -> run A.

Definition ret {A} (a : A) : M A := fun w => Build_run (Ok a) w [].
Definition lift {A} (o : outcome A) : M A := fun w => Build_run o w [].
Definition throw {A} (e : error) : M A := fun w => Build_run (Throw e) w [].

(** Extends a run by the events that came before it. *)
Definition after {A} (tr : list event) (r : run A) : run A :=
  let '(Build_run o w tr') := r in Build_run o w (tr ++ tr').

Definition bind {A B} (m : M A) (k : A -> M B) : M B :=
  fun w =>
    let '(Build_run o w' tr) := m w in
    match o with
    | Ok a => after tr (k a w')
    | Throw e => Build_run (Throw e) w' tr
    | Unmodelled => Build_run Unmodelled w' tr
    end.

(** [try { m } catch (error) { h error }] *)
Definition try_catch {A} (m : M A) (h : error -> M A) : M A :=
  fun w =>
    let '(Build_run o w' tr) := m w in
    match o with
    | Throw e => after tr (h e w')
    | _ => Build_run o w' tr
    end.

Notation "'do' x '<-' m ';' k" := (bind m (fun x => k))
  (at level 10, x name, m at level 100, k at level 200) : js_scope.
Notation "m ';;' k" := (bind m (fun _ => k))
  (at level 100, k at level 200, right associativity) : js_scope.

Definition getItem (k : string) : M value :=
  fun w => Build_run (Ok (match storage w !! k with
                          | Some t => VStr t
                          | None => VNull
                          end)) w [].

Definition setItem (k : string) (t : jstring) : M unit :=
  fun w => Build_run (Ok tt)
             {| storage := <[k := t]> (storage w); clock := clock w |} [].

Definition Date_now : M number :=
  fun w => Build_run (Ok (Z2SF (clock w))) w [].

Definition console_error (prefix : string) (e : error) : M unit :=
  fun w => Build_run (Ok tt) w [ELog prefix e].

Definition console_error_text (message : string) : M unit :=
  fun w => Build_run (Ok tt) w [ELogText message].

(** [await fetch(url)] *)
Definition fetch (net : network) (url : string) : M response :=
  fun w =>
    match net url with
    | NetFail => Build_run (Throw FetchFailed) w [EFetch url]
    | NetResp r => Build_run (Ok r) w [EFetch url]
    end.

(** [response.ok] *)
Definition ok (r : response) : bool :=
  ((200 <=? status r) && (status r <=? 299))%N.

(** [await response.json()] *)
Definition response_json (r : response) : M value :=
  fun w =>
    Build_run (match body r with
               | Some v => Ok v
               | None => Throw SyntaxError
               end)
      {| storage := storage w; clock := received r |} [].

(** [20 * 60 * 1000] *)
Definition TTL : number := js_mul (js_mul (Z2SF 20) (Z2SF 60)) (Z2SF 1000).

(** [x && Date.now() - x.timestamp < 20 * 60 * 1000] as a condition. *)
Definition is_fresh (x : value) : M bool :=
  if truthy x then
    do now <- Date_now;
    do ts <- lift (get_field x "timestamp");
    do n <- lift (to_number ts);
    ret (js_lt (js_sub now n) TTL)
  else ret false.

(** ** The three fetch operations *)

Definition team_url (teamPageTag : value) : outcome string :=
  match teamPageTag with
  | VStr (Raw s) => Ok ("https://www.nitrotype.com/api/v2/teams/" +:+ s)
  | VUndefined => Ok "https://www.nitrotype.com/api/v2/teams/undefined"
  | _ => Unmodelled
  end.

Definition fetchTeamStats (net : network) (teamPageTag : value) : M value :=
  try_catch
    (do item <- getItem "teamStats";
     do teamStats <- lift (JSON_parse item);
     do fresh <- is_fresh teamStats;
     if fresh then
       lift (get_field teamStats "data")
     else
       do url <- lift (team_url teamPageTag);
       do response <- fetch net url;
       if negb (ok response) then
         throw (Error ("Failed to fetch team stats: " +:+ pretty (status response)))
       else
         do data <- response_json response;
         do now <- Date_now;
         setItem "teamStats"
           (JSON_stringify (VObj [("data", data); ("timestamp", VNum now)]));;
         ret data)
    (fun error =>
       console_error "Error fetching team stats: " error;;
       throw error).

Definition getSeasonLeaderBoardInfoStats (net : network) : M value :=
  try_catch
    (do item <- getItem "seasonLeaderboardInfo";
     do leaderboardInfo <- lift (JSON_parse item);
     do fresh <- is_fresh leaderboardInfo;
     if fresh then
       lift (get_field leaderboardInfo "seasonLeaderboardInfo")
     else
       do response <- fetch net "https://www.nitrotype.com/api/v2/leaderboards?time=season";
       if negb (ok response) then
         throw (Error ("Failed to fetch season leaderboard: " +:+ pretty (status response)))
       else
         do json <- response_json response;
         do results <- lift (get_field json "results");
         do scores <- lift (get_field results "scores");
         do now <- Date_now;
         setItem "seasonLeaderboardInfo"
           (JSON_stringify (VObj [("seasonLeaderboardInfo", scores);
                                  ("timestamp", VNum now)]));;
         ret scores)
    (fun error =>
       console_error "Error fetching season leaderboard: " error;;
       throw error).

Definition getWeeklyLeaderBoardInfoStats (net : network) : M value :=
  try_catch
    (do item <- getItem "weeklyLeaderboardInfo";
     do leaderboardInfo <- lift (JSON_parse item);
     do fresh <- is_fresh leaderboardInfo;
     if fresh then
       lift (get_field leaderboardInfo "weeklyLeaderboardInfo")
     else
       do response <- fetch net "https://www.nitrotype.com/api/v2/leaderboards?time=weekly";
       if negb (ok response) then
         throw (Error ("Failed to fetch weekly leaderboard: " +:+ pretty (status response)))
       else
         do json <- response_json response;
         do results <- lift (get_field json "results");
         do scores <- lift (get_field results "scores");
         do now <- Date_now;
         setItem "weeklyLeaderboardInfo"
           (JSON_stringify (VObj [("weeklyLeaderboardInfo", scores);
                                  ("timestamp", VNum now)]));;
         ret scores)
    (fun error =>
       console_error "Error fetching season leaderboard: " error;;
       throw error).

(** ** Userscript entry point *)

(** [s.split("/")] *)
Fixpoint split_slash (s : string) : list string :=
  match s with
  | EmptyString => [EmptyString]
  | String c r =>
      if Ascii.eqb c "/" then EmptyString :: split_slash r
      else match split_slash r with
           | [] => [String c EmptyString]
           | h :: t => String c h :: t
           end
  end.

(** [window.location.href.split("/")[4]] *)
Definition teamPageTag_of (href : string) : value :=
  match nth_error (split_slash href) 4 with
  | Some s => VStr (Raw s)
  | None => VUndefined
  end.

(** [JSON.parse(JSON.parse(localStorage.getItem("persist:nt")).user).tag] *)
Definition userTeamTAG : M value :=
  do item <- getItem "persist:nt";
  do nt <- lift (JSON_parse item);
  do user <- lift (get_field nt "user");
  do u <- lift (JSON_parse user);
  lift (get_field u "tag").

(** [stats.find((stat) => stat.board === "season")] on the items of an
    array. *)
Fixpoint find_season (l : list value) : outcome value :=
  match l with
  | [] => Ok VUndefined
  | stat :: r =>
      let* board := get_field stat "board" in
      let* same := strict_eq board (VStr (Raw "season")) in
      if same then Ok stat else find_season r
  end.

(** [results.stats.find(...)?.played] *)
Definition season_played (results : value) : outcome value :=
  let* stats := get_field results "stats" in
  match stats with
  | VArr l =>
      let* found := find_season l in
      match found with
      | VUndefined | VNull => Ok VUndefined
      | _ => get_field found "played"
      end
  | _ => Throw TypeError
  end.

(** The first [try] block.  [memberCount] and [seasonRaces] are assigned one
    after the other, so an exception in the second assignment leaves the
    first in place; the nested handlers stand for the single [catch]. *)
Definition load_team (net : network) (teamPageTag : value) : M (value * value) :=
  try_catch
    (do stats <- fetchTeamStats net teamPageTag;
     do results <- lift (get_field stats "results");
     do info <- lift (get_field results "info");
     do memberCount <- lift (get_field info "members");
     try_catch
       (do seasonRaces <- lift (season_played results);
        ret (memberCount, seasonRaces))
       (fun error =>
          console_error "Error retrieving team stats: " error;;
          ret (memberCount, VUndefined)))
    (fun error =>
       console_error "Error retrieving team stats: " error;;
       ret (VUndefined, VUndefined)).

(** [({ played, points }) => ({ played, points })] *)
Definition project (entry : value) : outcome value :=
  let* played := get_field entry "played" in
  let* points := get_field entry "points" in
  Ok (VObj [("played", played); ("points", points)]).

(** [v.map(f)]: only arrays have [map]. *)
Definition array_map (f : value -> outcome value) (v : value) : outcome value :=
  match v with
  | VArr l => let* l' := omapM f l in Ok (VArr l')
  | _ => Throw TypeError
  end.

(** The second [try] block, with its four assignments in order. *)
Definition load_leaderboards (net : network) : M (value * value) :=
  try_catch
    (do weekly0 <- getWeeklyLeaderBoardInfoStats net;
     try_catch
       (do weekly <- lift (array_map project weekly0);
        try_catch
          (do season0 <- getSeasonLeaderBoardInfoStats net;
           try_catch
             (do season <- lift (array_map project season0);
              ret (weekly, season))
             (fun error =>
                console_error "Error retrieving leaderboard info: " error;;
                ret (weekly, season0)))
          (fun error =>
             console_error "Error retrieving leaderboard info: " error;;
             ret (weekly, VUndefined)))
       (fun error =>
          console_error "Error retrieving leaderboard info: " error;;
          ret (weekly0, VUndefined)))
    (fun error =>
       console_error "Error retrieving leaderboard info: " error;;
       ret (VUndefined, VUndefined)).

(** ** Requirement calculator *)

(** An object literal with the keys [top1] ... [top100], in insertion
    order. *)
Definition topinfo := list (string * value).

Definition milestones : list (string * nat) :=
  [("top1", 0%nat); ("top3", 2%nat); ("top10", 9%nat);
   ("top50", 49%nat); ("top100", 99%nat)].

(** [{ top1: board[0], top3: board[2], top10: board[9], top50: board[49],
      top100: board[99] }] *)
Definition top_info (board : value) : outcome topinfo :=
  omapM (fun '(key, i) => let* v := get_index board i in Ok (key, v)) milestones.

(** [Math.ceil(value.played / 7 / memberCount)] *)
Definition weekly_daily (value memberCount : value) : outcome number :=
  let* played := get_field value "played" in
  let* p := to_number played in
  let* m := to_number memberCount in
  Ok (Math_ceil (js_div (js_div p (Z2SF 7)) m)).

(** [Math.ceil((value.played - seasonRaces) / memberCount)] *)
Definition season_daily (value seasonRaces memberCount : value) : outcome number :=
  let* played := get_field value "played" in
  let* p := to_number played in
  let* s := to_number seasonRaces in
  let* m := to_number memberCount in
  Ok (Math_ceil (js_div (js_sub p s) m)).

(** [for (const [key, value] of Object.entries(info))
      info[key].dailyMemberRaces = daily(value);]
    The five values are distinct objects, so a write to one is not seen
    through another. *)
Definition assign_daily (daily : value -> outcome number) (info : topinfo)
  : outcome topinfo :=
  omapM (fun '(key, value) =>
           let* d := daily value in
           let* value' := set_field value "dailyMemberRaces" (VNum d) in
           Ok (key, value')) info.

Definition calculate (weekly season memberCount seasonRaces : value)
  : outcome (topinfo * topinfo) :=
  let* weeklyTopInfo := top_info weekly in
  let* seasonTopInfo := top_info season in
  let* weeklyTopInfo := assign_daily (fun v => weekly_daily v memberCount) weeklyTopInfo in
  let* seasonTopInfo :=
    assign_daily (fun v => season_daily v seasonRaces memberCount) seasonTopInfo in
  Ok (weeklyTopInfo, seasonTopInfo).

(** ** Widget renderer *)

(** Whether [v.toLocaleString()] returns.  An own property in parsed JSON is
    never a function: an object with an own [toLocaleString] cannot be
    printed, nor one with an own [toString], which the inherited
    [toLocaleString] calls.  An array prints its items, skipping [undefined]
    and [null]. *)
Fixpoint localizable (v : value) : bool :=
  match v with
  | VUndefined | VNull => false
  | VObj fs => negb (has_key "toLocaleString" fs || has_key "toString" fs)
  | VArr l =>
      forallb (fun x => match x with
                        | VUndefined | VNull => true
                        | _ => localizable x
                        end) l
  | _ => true
  end.

(** [v.toLocaleString()] *)
Definition toLocaleString (v : value) : outcome cell :=
  if localizable v then Ok (Localized v) else Throw TypeError.

(** [s.replace(pat, rep)] with string arguments: the first occurrence. *)
Fixpoint replace_first (pat rep s : string) : string :=
  if String.prefix pat s then rep +:+ String.substring (String.length pat)
                                        (String.length s - String.length pat) s
  else match s with
       | EmptyString => EmptyString
       | String c r => String c (replace_first pat rep r)
       end.

Definition createTopTeamRequirementsTableBody (topInfo : topinfo) : outcome tbody :=
  omapM (fun '(key, value) =>
           let* played := get_field value "played" in
           let* racesText := toLocaleString played in
           let* points := get_field value "points" in
           let* pointsText := toLocaleString points in
           let* dailyMemberRaces := get_field value "dailyMemberRaces" in
           let* dailyText := toLocaleString dailyMemberRaces in
           Ok {| rank := replace_first "top" EmptyString key;
                 races := racesText;
                 experience := pointsText;
                 daily := dailyText |}) topInfo.

(** [createTableTooltip()]: the class lists of the weekly and of the season
    button as they are created. *)
Definition createTableTooltip : list string * list string :=
  (["link"; "link--s"; "link--i"], ["link"; "link--s"; "link--h"]).

(** [createTopTeamRequirementsTable(topInfo)]: the table body and the
    footnote; header and footer frame are fixed markup. *)
Definition createTopTeamRequirementsTable (topInfo : topinfo) (memberCount : value)
  : outcome (tbody * footnote) :=
  let* body := createTopTeamRequirementsTableBody topInfo in
  Ok (body, ForMembers memberCount).

(** [createTopTeamRequirementsWidget(topInfo)]: the table is built first,
    then the tool tip with the two buttons. *)
Definition createTopTeamRequirementsWidget (topInfo : topinfo) (memberCount : value)
  : outcome widget :=
  let* table := createTopTeamRequirementsTable topInfo memberCount in
  let buttons := createTableTooltip in
  Ok {| weeklyButton := fst buttons;
        seasonButton := snd buttons;
        tableBody := fst table;
        footerSpan := snd table |}.

(** The page as the click handlers see it: the two buttons they hold, and
    what [document.querySelector] finds for the table body and for the
    footnote. *)
Record document := {
  weeklyClasses : list string;
  seasonClasses : list string;
  bodyElement : option tbody;
  footnoteElement : option footnote
}.

Definition document_of (w : widget) : document :=
  {| weeklyClasses := weeklyButton w;
     seasonClasses := seasonButton w;
     bodyElement := Some (tableBody w);
     footnoteElement := Some (footerSpan w) |}.

(** [classList.toggle(token)] *)
Definition toggle (token : string) (classes : list string) : list string :=
  if existsb (String.eqb token) classes
  then List.filter (fun c => negb (String.eqb token c)) classes
  else classes ++ [token].

Definition swap_styles (d : document) : document :=
  {| weeklyClasses := toggle "link--i" (toggle "link--h" (weeklyClasses d));
     seasonClasses := toggle "link--i" (toggle "link--h" (seasonClasses d));
     bodyElement := bodyElement d;
     footnoteElement := footnoteElement d |}.

(** Body of both click listeners, after the four [classList.toggle] calls:
    replace the table body if there is one, then rewrite the footnote if
    there is one.  An exception ends the listener where it is raised. *)
Definition rerender (topInfo : topinfo) (note : footnote) (d : document)
  : document * outcome unit :=
  match bodyElement d with
  | Some _ =>
      match createTopTeamRequirementsTableBody topInfo with
      | Ok body =>
          ({| weeklyClasses := weeklyClasses d;
              seasonClasses := seasonClasses d;
              bodyElement := Some body;
              footnoteElement := match footnoteElement d with
                                 | Some _ => Some note
                                 | None => None
                                 end |}, Ok tt)
      | Throw e => (d, Throw e)
      | Unmodelled => (d, Unmodelled)
      end
  | None =>
      ({| weeklyClasses := weeklyClasses d;
          seasonClasses := seasonClasses d;
          bodyElement := None;
          footnoteElement := match footnoteElement d with
                             | Some _ => Some note
                             | None => None
                             end |}, Ok tt)
  end.

(** What the closures of the listeners capture. *)
Record context := {
  weeklyTopInfo : topinfo;
  seasonTopInfo : topinfo;
  memberCount : value;
  seasonRaces : value
}.

(** Click listener of the season button. *)
Definition click_season (c : context) (d : document) : document * outcome unit :=
  rerender (seasonTopInfo c) (ForMembersAndSeason (memberCount c) (seasonRaces c))
    (swap_styles d).

(** Click listener of the weekly button. *)
Definition click_weekly (c : context) (d : document) : document * outcome unit :=
  rerender (weeklyTopInfo c) (ForMembers (memberCount c)) (swap_styles d).

Inductive mode := Weekly | Season.

Definition click (m : mode) : context -> document -> document * outcome unit :=
  match m with
  | Weekly => click_weekly
  | Season => click_season
  end.

(** ** Page integration *)

(** [leaderboardTableDiv.nextSibling], the reference node of the insertion. *)
Inductive sibling :=
  | NoNextSibling       (** [null]: the widget becomes the last child of the container *)
  | InContainer         (** a child of the container: the widget goes before it *)
  | OutsideContainer.   (** a node whose parent is not the container *)

Record page := {
  container_appears : bool;   (** the wait for [.well--p.well--l_p] resolves *)
  leaderboard_parent : bool;  (** [.table--leaderboard] exists and has a parent element *)
  next_sibling : sibling      (** the next sibling of that parent element *)
}.

(** How the asynchronous entry function ends: it returns, or it stays
    suspended in [waitForElm] for ever. *)
Inductive completion :=
  | Returned
  | Suspended.

(** [tablesContainerDiv.insertBefore(w, reference)]: a reference node that
    is not a child of the container makes it throw. *)
Definition insertBefore (w : widget) (reference : sibling) : M unit :=
  fun st =>
    match reference with
    | OutsideContainer => Build_run (Throw NotFoundError) st []
    | _ => Build_run (Ok tt) st [EInsert w]
    end.

Definition main (net : network) (href : string) (pg : page) : M completion :=
  let teamPageTag := teamPageTag_of href in
  do userTag <- userTeamTAG;
  do same <- lift (strict_eq userTag teamPageTag);
  if negb same then ret Returned
  else
    do team <- load_team net teamPageTag;
    do boards <- load_leaderboards net;
    do infos <- lift (calculate (fst boards) (snd boards) (fst team) (snd team));
    if negb (container_appears pg) then ret Suspended
    else if leaderboard_parent pg then
      do w <- lift (createTopTeamRequirementsWidget (fst infos) (fst team));
      insertBefore w (next_sibling pg);;
      ret Returned
    else
      console_error_text "Could not find the container div or leaderboard table div.";;
      ret Returned.

(** ** Vocabulary of the specification *)

(** A non-negative integer that a double holds exactly. *)
Definition safe (n : Z) : Prop := 0 <= n < 2 ^ 53.

(** Weekly mode: [ceil(racesPlayed / 7 / memberCount)], over the rationals. *)
Definition spec_weekly (racesPlayed memberCount : Z) : Z :=
  Qceiling (inject_Z racesPlayed / 7 / inject_Z memberCount).

(** Season mode: [ceil((racesPlayed - seasonRacesPlayed) / memberCount)],
    over the rationals. *)
Definition spec_season (racesPlayed seasonRacesPlayed memberCount : Z) : Z :=
  Qceiling ((inject_Z racesPlayed - inject_Z seasonRacesPlayed) / inject_Z memberCount).

(** A leaderboard entry as the entry point leaves it after projection. *)
Definition entry (e : Z * Z) : value :=
  VObj [("played", VNum (Z2SF (fst e))); ("points", VNum (Z2SF (snd e)))].

(** A [TopRequirement]: the entry with its [dailyMemberRaces]. *)
Definition requirement (e : Z * Z) (dailyMemberRaces : number) : value :=
  VObj [("played", VNum (Z2SF (fst e))); ("points", VNum (Z2SF (snd e)));
        ("dailyMemberRaces", VNum dailyMemberRaces)].

(** The weekly and the season half of [calculate]. *)
Definition weekly_requirements (weekly memberCount : value) : outcome topinfo :=
  let* info := top_info weekly in
  assign_daily (fun v => weekly_daily v memberCount) info.

Definition season_requirements (season seasonRaces memberCount : value)
  : outcome topinfo :=
  let* info := top_info season in
  assign_daily (fun v => season_daily v seasonRaces memberCount) info.

(** The double that season mode yields for integer inputs: the ceiling, with
    the sign of the quotient when the ceiling is zero. *)
Definition season_double (racesPlayed seasonRacesPlayed memberCount : Z) : number :=
  let c := spec_season racesPlayed seasonRacesPlayed memberCount in
  if (racesPlayed <? seasonRacesPlayed) && (c =? 0) then S754_zero true else Z2SF c.

(** A payload that [JSON.stringify] and [JSON.parse] give back unchanged. *)
Definition serializable (v : value) : Prop :=
  v <> VUndefined /\ json_norm v = v.

(** Number of network requests in a trace. *)
Definition requests (tr : list event) : nat :=
  length (List.filter (fun e => match e with EFetch _ => true | _ => false end) tr).

Definition inserts (tr : list event) : nat :=
  length (List.filter (fun e => match e with EInsert _ => true | _ => false end) tr).

(** The three fetch operations with their cache keys and payload fields. *)
Inductive operation := TeamStats | WeeklyLeaderboard | SeasonLeaderboard.

Definition cache_key (op : operation) : string :=
  match op with
  | TeamStats => "teamStats"
  | WeeklyLeaderboard => "weeklyLeaderboardInfo"
  | SeasonLeaderboard => "seasonLeaderboardInfo"
  end.

Definition payload_field (op : operation) : string :=
  match op with
  | TeamStats => "data"
  | WeeklyLeaderboard => "weeklyLeaderboardInfo"
  | SeasonLeaderboard => "seasonLeaderboardInfo"
  end.

Definition log_prefix (op : operation) : string :=
  match op with
  | TeamStats => "Error fetching team stats: "
  | WeeklyLeaderboard => "Error fetching season leaderboard: "
  | SeasonLeaderboard => "Error fetching season leaderboard: "
  end.

Definition failure_prefix (op : operation) : string :=
  match op with
  | TeamStats => "Failed to fetch team stats: "
  | WeeklyLeaderboard => "Failed to fetch weekly leaderboard: "
  | SeasonLeaderboard => "Failed to fetch season leaderboard: "
  end.

(** The URL an operation requests, for the team tag [tag] of the page. *)
Definition request_url (op : operation) (tag : string) : string :=
  match op with
  | TeamStats => "https://www.nitrotype.com/api/v2/teams/" +:+ tag
  | WeeklyLeaderboard => "https://www.nitrotype.com/api/v2/leaderboards?time=weekly"
  | SeasonLeaderboard => "https://www.nitrotype.com/api/v2/leaderboards?time=season"
  end.

Definition perform (op : operation) (net : network) (tag : string) : M value :=
  match op with
  | TeamStats => fetchTeamStats net (VStr (Raw tag))
  | WeeklyLeaderboard => getWeeklyLeaderBoardInfoStats net
  | SeasonLeaderboard => getSeasonLeaderBoardInfoStats net
  end.

(** The payload an operation takes out of a response body. *)
Definition payload_of (op : operation) (json : value) : outcome value :=
  match op with
  | TeamStats => Ok json
  | _ => let* results := get_field json "results" in get_field results "scores"
  end.

(** The cache entry an operation writes for [payload] at time [t]. *)
Definition cache_entry (op : operation) (payload : value) (t : Z) : jstring :=
  JSON_stringify (VObj [(payload_field op, payload); ("timestamp", VNum (Z2SF t))]).

(** The cache lookup at the head of every operation: the parsed entry and
    whether it is fresh. *)
Definition cache_lookup (op : operation) : M (value * bool) :=
  do item <- getItem (cache_key op);
  do x <- lift (JSON_parse item);
  do fresh <- is_fresh x;
  ret (x, fresh).

(** Twenty minutes, in milliseconds. *)
Definition twenty_minutes : Z := 20 * 60 * 1000.

(** Documents in which mode [m] is on display: its table body and footnote
    are shown, and one of the two buttons carries the active style. *)
Definition info_of (m : mode) (c : context) : topinfo :=
  match m with
  | Weekly => weeklyTopInfo c
  | Season => seasonTopInfo c
  end.

Definition note_of (m : mode) (c : context) : footnote :=
  match m with
  | Weekly => ForMembers (memberCount c)
  | Season => ForMembersAndSeason (memberCount c) (seasonRaces c)
  end.

Definition other (m : mode) : mode :=
  match m with
  | Weekly => Season
  | Season => Weekly
  end.

Definition style_i : list string := ["link"; "link--s"; "link--i"].
Definition style_h : list string := ["link"; "link--s"; "link--h"].

Definition shows (c : context) (m : mode) (d : document) : Prop :=
  exists body,
    createTopTeamRequirementsTableBody (info_of m c) = Ok body /\
    bodyElement d = Some body /\
    footnoteElement d = Some (note_of m c) /\
    ((weeklyClasses d = style_i /\ seasonClasses d = style_h) \/
     (weeklyClasses d = style_h /\ seasonClasses d = style_i)).

(** The network branch common to the three operations: one request, a
    [Failed to fetch ...] error on a non-success status, write-through on
    success. *)
Definition network_branch (op : operation) (net : network) (tag : string) : M value :=
  do response <- fetch net (request_url op tag);
  if negb (ok response) then
    throw (Error (failure_prefix op +:+ pretty (status response)))
  else
    do json <- response_json response;
    do payload <- lift (payload_of op json);
    do now <- Date_now;
    setItem (cache_key op)
      (JSON_stringify (VObj [(payload_field op, payload); ("timestamp", VNum now)]));;
    ret payload.

Definition rethrow (op : operation) (error : error) : M value :=
  console_error (log_prefix op) error;;
  throw error.

(** The shape the three operations share. *)
Definition cached_fetch (op : operation) (net : network) (tag : string) : M value :=
  try_catch
    (do item <- getItem (cache_key op);
     do x <- lift (JSON_parse item);
     do fresh <- is_fresh x;
     if fresh then lift (get_field x (payload_field op))
     else network_branch op net tag)
    (rethrow op).

(** The freshness condition as a function of the clock reading. *)
Definition freshness (x : value) (now : Z) : outcome bool :=
  if truthy x then
    let* ts := get_field x "timestamp" in
    let* n := to_number ts in
    Ok (js_lt (js_sub (Z2SF now) n) TTL)
  else Ok false.

(** A cache miss: the entry is absent, or it parses and is not fresh. *)
Definition cache_miss (op : operation) (w : world) : Prop :=
  exists x,
    JSON_parse (match storage w !! cache_key op with
                | Some t => VStr t
                | None => VNull
                end) = Ok x /\
    freshness x (clock w) = Ok false.

Definition not_nullish (v : value) : Prop := v <> VUndefined /\ v <> VNull.

(** [{ played: entry.played, points: entry.points }] for an entry that is
    neither [undefined] nor [null]. *)
Definition projection (entry : value) : value :=
  match entry with
  | VObj fs => VObj [("played", lookup_field "played" fs);
                     ("points", lookup_field "points" fs)]
  | _ => VObj [("played", VUndefined); ("points", VUndefined)]
  end.

(** What the network branch of an operation, inside its [try], amounts
    to. *)
Definition network_run (op : operation) (net : network) (tag : string) (w : world)
  : run value :=
  let url := request_url op tag in
  match net url with
  | NetFail =>
      Build_run (Throw FetchFailed) w [EFetch url; ELog (log_prefix op) FetchFailed]
  | NetResp r =>
      let w' := {| storage := storage w; clock := received r |} in
      if ok r then
        match body r with
        | Some json =>
            match payload_of op json with
            | Ok payload =>
                Build_run (Ok payload)
                  {| storage := <[cache_key op := cache_entry op payload (received r)]>
                                  (storage w);
                     clock := received r |}
                  [EFetch url]
            | Throw e => Build_run (Throw e) w' [EFetch url; ELog (log_prefix op) e]
            | Unmodelled => Build_run Unmodelled w' [EFetch url]
            end
        | None =>
            Build_run (Throw SyntaxError) w' [EFetch url; ELog (log_prefix op) SyntaxError]
        end
      else
        let e := Error (failure_prefix op +:+ pretty (status r)) in
        Build_run (Throw e) w [EFetch url; ELog (log_prefix op) e]
  end.

(** The team tag of the persisted session, as [userTeamTAG] reads it. *)
Definition session_tag (w : world) : outcome value :=
  let* nt := JSON_parse (match storage w !! "persist:nt" with
                         | Some t => VStr t
                         | None => VNull
                         end) in
  let* user := get_field nt "user" in
  let* u := JSON_parse user in
  get_field u "tag".

(** Values whose conversion to a number is modelled. *)
Definition numeric (v : value) : Prop := exists x, to_number v = Ok x.

(** A computation that never puts the widget into the page. *)
Definition quiet {A} (m : M A) : Prop := forall w, inserts (trace (m w)) = 0%nat.

(** ** Sample data *)

(** A remote leaderboard entry, with fields the script does not use. *)
Definition remote_entry (played points : Z) : value :=
  VObj [("teamID", VNum (Z2SF 1)); ("played", VNum (Z2SF played));
        ("points", VNum (Z2SF points)); ("tag", VStr (Raw "NT"))].

Definition remote_board (n : nat) : value :=
  VArr (List.map (fun i => remote_entry (7000 - Z.of_nat i) 50000) (seq 0 n)).

Definition leaderboard_body (n : nat) : value :=
  VObj [("results", VObj [("scores", remote_board n)])].

Definition team_body : value :=
  VObj [("results",
         VObj [("info", VObj [("members", VNum (Z2SF 10))]);
               ("stats", VArr [VObj [("board", VStr (Raw "daily"));
                                     ("played", VNum (Z2SF 40))];
                               VObj [("board", VStr (Raw "season"));
                                     ("played", VNum (Z2SF 3000))]])])].

(** A remote side that answers every request; its leaderboards have [n]
    entries. *)
Definition sample_net (n : nat) : network :=
  fun url =>
    if String.eqb url "https://www.nitrotype.com/api/v2/teams/XYZ" then
      NetResp {| status := 200; body := Some team_body; received := 1700000001000 |}
    else
      NetResp {| status := 200; body := Some (leaderboard_body n);
                 received := 1700000002000 |}.

(** A remote side that answers every request with status 404. *)
Definition failing_net : network :=
  fun _ => NetResp {| status := 404; body := None; received := 1700000001000 |}.

(** The persisted session of a member of team [tag]. *)
Definition session (tag : string) : jstring :=
  Json (VObj [("user", VStr (Json (VObj [("tag", VStr (Raw tag))])))]).

(** A first visit: nothing cached yet. *)
Definition first_visit (tag : string) : world :=
  {| storage := {[ "persist:nt" := session tag ]}; clock := 1700000000000 |}.

Definition sample_context : context :=
  {| weeklyTopInfo := [("top1", requirement (700, 50000) (Z2SF 10));
                       ("top3", requirement (630, 40000) (Z2SF 9))];
     seasonTopInfo := [("top1", requirement (5000, 90000) (Z2SF 80));
                       ("top3", requirement (4000, 80000) (Z2SF 40))];
     memberCount := VNum (Z2SF 10);
     seasonRaces := VNum (Z2SF 3000) |}.

Definition sample_document : document :=
  {| weeklyClasses := ["link"; "link--s"; "link--i"];
     seasonClasses := ["link"; "link--s"; "link--h"];
     bodyElement :=
       Some [{| rank := "1";
                races := Localized (VNum (Z2SF 700));
                experience := Localized (VNum (Z2SF 50000));
                daily := Localized (VNum (Z2SF 10)) |};
             {| rank := "3";
                races := Localized (VNum (Z2SF 630));
                experience := Localized (VNum (Z2SF 40000));
                daily := Localized (VNum (Z2SF 9)) |}];
     footnoteElement := Some (ForMembers (VNum (Z2SF 10))) |}.

(** ** Waiting for the container *)

(** A mutation record as the observer's callback reads it: its [type] and
    the length of its [addedNodes]. *)
Record mutation := {
  mtype : string;
  addedNodes : nat
}.

Definition element := nat.

(** One call of the observer's callback: the records it is given, and what
    [document.querySelector(selector)] finds while it runs. *)
Record delivery := {
  mutationsList : list mutation;
  selected : option element
}.

Inductive promise :=
  | Pending
  | Fulfilled (el : element)
  | Rejected (e : error).

(** The observer and the promise of one [waitForElm] call. *)
Record waiting := {
  observing : bool;
  settled : promise
}.

(** [observer.disconnect(); resolve(element);]  Resolving a promise that is
    settled already changes nothing. *)
Definition resolve_with (el : element) (st : waiting) : waiting :=
  {| observing := false;
     settled := match settled st with
                | Pending => Fulfilled el
                | p => p
                end |}.

(** Body of the [for] loop of the callback. *)
Definition on_mutation (found : option element) (st : waiting) (m : mutation) : waiting :=
  if String.eqb (mtype m) "childList" && (0 <? addedNodes m)%nat then
    match found with
    | Some el => resolve_with el st
    | None => st
    end
  else st.

Definition callback (d : delivery) (st : waiting) : waiting :=
  fold_left (on_mutation (selected d)) (mutationsList d) st.

(** Only a connected observer is called back. *)
Definition deliver (st : waiting) (d : delivery) : waiting :=
  if observing st then callback d st else st.

(** [waitForElm(selector)], given whether [document.body] exists, what the
    selector finds at the call, and the later calls of the callback that the
    page's changes would cause.  [observe] throws on a missing body, which
    rejects the promise. *)
Definition waitForElm (body : bool) (present : option element) (later : list delivery)
  : promise :=
  if body then
    let st := {| observing := true; settled := Pending |} in
    let st := match present with
              | Some el => resolve_with el st
              | None => st
              end in
    settled (fold_left deliver later st)
  else Rejected TypeError.

(** ** Further vocabulary *)

(** A delivery reports that nodes were added somewhere under the body. *)
Definition reports_addition (d : delivery) : bool :=
  existsb (fun m => String.eqb (mtype m) "childList" && (0 <? addedNodes m)%nat)
    (mutationsList d).

(** The element a delivery makes the waiting script notice, if any. *)
Definition noticed (d : delivery) : option element :=
  if reports_addition d then selected d else None.

Fixpoint slash_free (s : string) : bool :=
  match s with
  | EmptyString => true
  | String c r => negb (Ascii.eqb c "/") && slash_free r
  end.

(** A computation that leaves the stored item [k] as it is. *)
Definition preserves {A} (k : string) (m : M A) : Prop :=
  forall w, storage (final (m w)) !! k = storage w !! k.

(** [v.k] where [v] is neither [undefined] nor [null]. *)
Definition field (v : value) (k : string) : value :=
  match v with
  | VObj fs => lookup_field k fs
  | _ => VUndefined
  end.

Definition nullish (v : value) : bool :=
  match v with
  | VUndefined | VNull => true
  | _ => false
  end.

(** Values that are neither objects nor arrays. *)
Definition scalar (v : value) : bool :=
  match v with
  | VObj _ | VArr _ => false
  | _ => true
  end.

(** An entry of a requirement set whose three values are scalars, as they
    are in the data the script works with. *)
Definition scalar_fields (kv : string * value) : Prop :=
  scalar (field (snd kv) "played") = true /\
  scalar (field (snd kv) "points") = true /\
  scalar (field (snd kv) "dailyMemberRaces") = true.

(** An entry of a requirement set that exists and has its three values. *)
Definition printable (kv : string * value) : bool :=
  negb (nullish (snd kv)) &&
  negb (nullish (field (snd kv) "played")) &&
  negb (nullish (field (snd kv) "points")) &&
  negb (nullish (field (snd kv) "dailyMemberRaces")).

Definition row_of (kv : string * value) : row :=
  {| rank := replace_first "top" EmptyString (fst kv);
     races := Localized (field (snd kv) "played");
     experience := Localized (field (snd kv) "points");
     daily := Localized (field (snd kv) "dailyMemberRaces") |}.

(** The five table rows for a board of entries [es], with the daily races
    given by [d]. *)
Definition ranks : list (string * nat) :=
  [("1", 0%nat); ("3", 2%nat); ("10", 9%nat); ("50", 49%nat); ("100", 99%nat)].

Definition requirement_rows (es : list (Z * Z)) (d : Z * Z -> number) : tbody :=
  List.map (fun '(r, i) =>
              let e := nth i es (0, 0) in
              {| rank := r;
                 races := Localized (VNum (Z2SF (fst e)));
                 experience := Localized (VNum (Z2SF (snd e)));
                 daily := Localized (VNum (d e)) |}) ranks.

(** The requirement set for a board of entries [es], with the daily races
    given by [d]. *)
Definition requirement_set (es : list (Z * Z)) (d : Z * Z -> number) : topinfo :=
  List.map (fun '(key, i) => let e := nth i es (0, 0) in (key, requirement e (d e)))
    milestones.

(** The widget as it is inserted: weekly rows, weekly button active. *)
Definition weekly_widget (rows : tbody) (memberCount : value) : widget :=
  {| weeklyButton := style_i;
     seasonButton := style_h;
     tableBody := rows;
     footerSpan := ForMembers memberCount |}.

(** A series of clicks, each on the control of the given mode. *)
Definition clicks (c : context) (ms : list mode) (d : document) : document :=
  fold_left (fun d m => fst (click m c d)) ms d.

(** What the script does once team and leaderboards are loaded. *)
Definition finish (pg : page) (weekly season memberCount seasonRaces : value)
  : M completion :=
  do infos <- lift (calculate weekly season memberCount seasonRaces);
  if negb (container_appears pg) then ret Suspended
  else if leaderboard_parent pg then
    do w <- lift (createTopTeamRequirementsWidget (fst infos) memberCount);
    insertBefore w (next_sibling pg);;
    ret Returned
  else
    console_error_text "Could not find the container div or leaderboard table div.";;
    ret Returned.

(** The three cache keys. *)
Definition cache_keys : list string :=
  ["teamStats"; "weeklyLeaderboardInfo"; "seasonLeaderboardInfo"].

(** A remote side that answers the leaderboard requests only. *)
Definition boards_only_net (n : nat) : network :=
  fun url =>
    if String.eqb url "https://www.nitrotype.com/api/v2/teams/XYZ" then NetFail
    else sample_net n url.

(** A remote side whose team answers carry no [results]. *)
Definition empty_team_net : network :=
  fun url =>
    if String.eqb url "https://www.nitrotype.com/api/v2/teams/XYZ" then
      NetResp {| status := 200; body := Some (VObj [("status", VStr (Raw "OK"))]);
                 received := 1700000001000 |}
    else sample_net 100 url.

(** The entries of [remote_board n], projected. *)
Definition sample_entries (n : nat) : list (Z * Z) :=
  List.map (fun i => (7000 - Z.of_nat i, 50000)) (seq 0 n).

(** A later visit of a member of team [tag], within 20 minutes of the
    answers of [sample_net 100]. *)
Definition second_visit (tag : string) : world :=
  {| storage :=
       {[ "persist:nt" := session tag;
          "teamStats" := cache_entry TeamStats team_body 1700000001000;
          "weeklyLeaderboardInfo" :=
            cache_entry WeeklyLeaderboard (remote_board 100) 1700000002000;
          "seasonLeaderboardInfo" :=
            cache_entry SeasonLeaderboard (remote_board 100) 1700000002000 ]};
     clock := 1700000500000 |}.

(** A remote side whose team answers have a member count and no
    statistics. *)
Definition team_without_stats : value :=
  VObj [("results", VObj [("info", VObj [("members", VNum (Z2SF 10))])])].

Definition no_stats_net : network :=
  fun _ => NetResp {| status := 200; body := Some team_without_stats;
                      received := 1700000001000 |}.

Definition own_page : string := "https://www.nitrotype.com/team/XYZ".

Definition whole_page : page :=
  {| container_appears := true; leaderboard_parent := true; next_sibling := InContainer |}.

(** Number of [console.error] calls with an exception in a trace. *)
Definition logs (tr : list event) : nat :=
  length (List.filter (fun e => match e with ELog _ _ => true | _ => false end) tr).

(** A computation whose trace never counts more than [n]. *)
Definition at_most {A} (count : list event -> nat) (n : nat) (m : M A) : Prop :=
  forall w, (count (trace (m w)) <= n)%nat.

(** A requirement set whose third entry has no [points]. *)
Definition sample_context_without_points : context :=
  {| weeklyTopInfo := weeklyTopInfo sample_context;
     seasonTopInfo := [("top1", requirement (5000, 90000) (Z2SF 80));
                       ("top3", VObj [("played", VNum (Z2SF 4000));
                                      ("dailyMemberRaces", VNum (Z2SF 40))])];
     memberCount := memberCount sample_context;
     seasonRaces := seasonRaces sample_context |}.

(** * Facts about binary64 arithmetic

    The standard library specifies the operations but proves nothing about
    them; this part derives what the calculator needs: division rounds to a
    nearest double, and subtraction and comparison of integers below 2^53
    are exact. *)

Module NumFacts.
Lemma digits2_pos_log2 p : Zpos (digits2_pos p) = Z.log2 (Zpos p) + 1.
Proof.
  assert (H : forall q, digits2_pos q = Pos.size q).
  { induction q; simpl; congruence. }
  destruct p; simpl; rewrite ?H; lia.
Qed.

Lemma digits2_pos_bounds p :
  2 ^ (Zpos (digits2_pos p) - 1) <= Zpos p < 2 ^ Zpos (digits2_pos p).
Proof.
  rewrite digits2_pos_log2.
  replace (Z.log2 (Zpos p) + 1 - 1) with (Z.log2 (Zpos p)) by lia.
  replace (Z.log2 (Zpos p) + 1) with (Z.succ (Z.log2 (Zpos p))) by lia.
  apply Z.log2_spec. lia.
Qed.

Lemma digits2_pos_unique p d :
  2 ^ (d - 1) <= Zpos p < 2 ^ d -> Zpos (digits2_pos p) = d.
Proof.
  intros H. rewrite digits2_pos_log2.
  assert (0 < d).
  { destruct (Z_lt_le_dec 0 d) as [|Hd]; [assumption|].
    destruct (Z.eq_dec d 0) as [->|]; [simpl in H; lia|].
    rewrite (Z.pow_neg_r 2 d) in H by lia. lia. }
  rewrite (Z.log2_unique (Zpos p) (d - 1)); [lia|lia|].
  replace (Z.succ (d - 1)) with d by lia. exact H.
Qed.

Lemma shr_1_loc m r d :
  0 <= m -> 0 <= r < d ->
  shr_1 (shr_record_of_loc m (loc_frac r d)) =
  shr_record_of_loc (m / 2) (loc_frac (r + d * (m mod 2)) (2 * d)).
Proof.
  intros Hm Hr.
  assert (Hdm := Z.div_mod m 2 ltac:(lia)).
  assert (Hb := Z.mod_pos_bound m 2 ltac:(lia)).
  remember (m / 2) as q eqn:Eq. remember (m mod 2) as b eqn:Eb.
  clear Eq Eb. unfold loc_frac.
  assert (Hcases : (m = 0 /\ q = 0 /\ b = 0) \/ (m = 1 /\ q = 0 /\ b = 1) \/
          (exists p, m = Z.pos p~0 /\ q = Z.pos p /\ b = 0) \/
          (exists p, m = Z.pos p~1 /\ q = Z.pos p /\ b = 1)).
  { destruct m as [|[p|p|]|p].
    - left. lia.
    - right; right; right. exists p. rewrite Pos2Z.inj_xI in Hdm. lia.
    - right; right; left. exists p. rewrite Pos2Z.inj_xO in Hdm. lia.
    - right; left. lia.
    - lia. }
  destruct (Z.eqb_spec r 0) as [Hr0|Hr0].
  - subst r.
    destruct Hcases as [(-> & -> & ->)|[(-> & -> & ->)|[(p & -> & -> & ->)|(p & -> & -> & ->)]]];
      cbn [shr_1 shr_record_of_loc];
      rewrite ?Z.mul_0_r, ?Z.mul_1_r, ?Z.add_0_l; cbn [Z.eqb]; try reflexivity.
    + replace (d =? 0) with false by (symmetry; apply Z.eqb_neq; lia).
      replace (2 * d ?= 2 * d) with Eq by (symmetry; apply Z.compare_refl).
      reflexivity.
    + replace (d =? 0) with false by (symmetry; apply Z.eqb_neq; lia).
      replace (2 * d ?= 2 * d) with Eq by (symmetry; apply Z.compare_refl).
      reflexivity.
  - assert (Hs : forall c,
        orb (shr_r (shr_record_of_loc m (loc_Inexact c)))
            (shr_s (shr_record_of_loc m (loc_Inexact c))) = true).
    { intros []; reflexivity. }
    assert (H0 : (r + d * 0 =? 0) = false) by (apply Z.eqb_neq; lia).
    assert (H1 : (r + d * 1 =? 0) = false) by (apply Z.eqb_neq; lia).
    assert (C0 : (2 * (r + d * 0) ?= 2 * d) = Lt) by (apply Z.compare_lt_iff; lia).
    assert (C1 : (2 * (r + d * 1) ?= 2 * d) = Gt) by (apply Z.compare_gt_iff; lia).
    destruct Hcases as [(-> & -> & ->)|[(-> & -> & ->)|[(p & -> & -> & ->)|(p & -> & -> & ->)]]];
      rewrite ?H0, ?H1, ?C0, ?C1; destruct (2 * r ?= d); reflexivity.
Qed.

Lemma shr_1_frac N d :
  0 <= N -> 0 < d -> shr_1 (frac_record N d) = frac_record N (2 * d).
Proof.
  intros HN Hd. unfold frac_record.
  rewrite shr_1_loc.
  - f_equal.
    + rewrite (Z.mul_comm 2 d). rewrite Z.div_div by lia. reflexivity.
    + f_equal. rewrite (Z.mul_comm 2 d). symmetry. apply Z.rem_mul_r; lia.
  - apply Z.div_pos; lia.
  - apply Z.mod_pos_bound; lia.
Qed.

Lemma iter_shr_1_frac p : forall N d,
  0 <= N -> 0 < d ->
  iter_pos shr_1 p (frac_record N d) = frac_record N (2 ^ Zpos p * d).
Proof.
  induction p as [p IH|p IH|]; intros N d HN Hd; cbn [iter_pos].
  - rewrite shr_1_frac, IH, IH by (try apply Z.mul_pos_pos; lia).
    f_equal. rewrite (Pos2Z.inj_xI p), Z.pow_add_r, Z.pow_mul_r by lia.
    change (2 ^ 2) with 4. change (2 ^ 1) with 2. set (x := 2 ^ Z.pos p).
    replace (4 ^ Z.pos p) with (x * x); [ring|].
    unfold x. rewrite <- Z.pow_mul_l. reflexivity.
  - rewrite IH, IH by (try apply Z.mul_pos_pos; lia).
    f_equal. rewrite (Pos2Z.inj_xO p), Z.pow_mul_r by lia.
    change (2 ^ 2) with 4. set (x := 2 ^ Z.pos p).
    replace (4 ^ Z.pos p) with (x * x); [ring|].
    unfold x. rewrite <- Z.pow_mul_l. reflexivity.
  - rewrite shr_1_frac by lia. reflexivity.
Qed.

Lemma loc_of_frac_record N d :
  loc_of_shr_record (frac_record N d) = loc_frac (N mod d) d.
Proof.
  unfold frac_record. destruct (loc_frac (N mod d) d) as [|[]]; reflexivity.
Qed.

Lemma shr_m_frac_record N d : shr_m (frac_record N d) = N / d.
Proof.
  unfold frac_record. destruct (loc_frac (N mod d) d) as [|[]]; reflexivity.
Qed.

Lemma rne_bounds N d :
  0 < d -> N / d <= rne N d <= N / d + 1.
Proof.
  intros Hd. unfold rne, round_nearest_even.
  destruct (loc_frac (N mod d) d) as [|[]]; try lia.
  destruct (Z.even (N / d)); lia.
Qed.

Lemma Zdigits2_unique m k :
  2 ^ (k - 1) <= m < 2 ^ k -> 0 < k -> Zdigits2 m = k.
Proof.
  intros H Hk. destruct m as [|p|p].
  - assert (0 < 2 ^ (k - 1)) by (apply Z.pow_pos_nonneg; lia). lia.
  - simpl. apply digits2_pos_unique. exact H.
  - assert (0 < 2 ^ (k - 1)) by (apply Z.pow_pos_nonneg; lia). lia.
Qed.

Lemma shr_fexp_53 m e :
  2 ^ 52 <= m < 2 ^ 53 -> -1074 <= e ->
  shr_fexp 53 1024 m e loc_Exact = (frac_record m 1, e).
Proof.
  intros Hm He. unfold shr_fexp.
  rewrite (Zdigits2_unique m 53) by (simpl; lia).
  unfold fexp, emin.
  replace (Z.max (53 + e - 53) (3 - 1024 - 53) - e) with 0 by lia.
  unfold shr, frac_record. rewrite Z.div_1_r, Z.mod_1_r. reflexivity.
Qed.

Lemma shr_fexp_54 m e :
  m = 2 ^ 53 -> -1074 <= e ->
  shr_fexp 53 1024 m e loc_Exact = (frac_record m 2, e + 1).
Proof.
  intros -> He. unfold shr_fexp.
  rewrite (Zdigits2_unique (2 ^ 53) 54) by (simpl; lia).
  unfold fexp, emin.
  replace (Z.max (54 + e - 53) (3 - 1024 - 53) - e) with 1 by lia.
  reflexivity.
Qed.

Lemma Zdigits2_bounds m :
  0 < m -> 2 ^ (Zdigits2 m - 1) <= m < 2 ^ Zdigits2 m.
Proof.
  destruct m as [|p|p]; try lia. intros _. apply digits2_pos_bounds.
Qed.

Lemma Zdigits2_pos m : 0 < m -> 0 < Zdigits2 m.
Proof. destruct m; simpl; lia. Qed.

Lemma Zdigits2_ge m k : 0 <= k -> 2 ^ k <= m -> k < Zdigits2 m.
Proof.
  intros Hk Hm.
  assert (0 < 2 ^ k) by (apply Z.pow_pos_nonneg; lia).
  assert (Hb := Zdigits2_bounds m ltac:(lia)).
  assert (Hp := Zdigits2_pos m ltac:(lia)).
  destruct (Z_lt_le_dec k (Zdigits2 m)) as [|Hle]; [assumption|].
  assert (2 ^ Zdigits2 m <= 2 ^ k) by (apply Z.pow_le_mono_r; lia). lia.
Qed.

Lemma binary_round_aux_normal s N d e :
  0 < d -> 2 ^ 52 * d <= N ->
  let n := Zdigits2 (N / d) - 53 in
  -1074 <= e -> e + n <= 960 ->
  binary_round_aux 53 1024 s (N / d) e (loc_frac (N mod d) d) =
  normal_result s (rne N (2 ^ n * d)) (e + n).
Proof.
  intros Hd HN n He Hen.
  assert (HN0 : 0 <= N) by nia.
  assert (Hq : 2 ^ 52 <= N / d) by (apply Z.div_le_lower_bound; lia).
  assert (Hdig := Zdigits2_bounds (N / d) ltac:(lia)).
  assert (Hn0 : 0 <= n) by (pose proof (Zdigits2_ge (N / d) 52); lia).
  assert (Hpn : 0 < 2 ^ n) by (apply Z.pow_pos_nonneg; lia).
  unfold binary_round_aux.
  assert (Hfirst : shr_fexp 53 1024 (N / d) e (loc_frac (N mod d) d) =
                   (frac_record N (2 ^ n * d), e + n)).
  { unfold shr_fexp, fexp, emin.
    replace (Z.max (Zdigits2 (N / d) + e - 53) (3 - 1024 - 53) - e) with n by lia.
    fold (frac_record N d). unfold shr.
    destruct n as [|p|p] eqn:En; try lia.
    - change (2 ^ 0) with 1. rewrite Z.mul_1_l, Z.add_0_r. reflexivity.
    - rewrite iter_shr_1_frac by lia. reflexivity. }
  rewrite Hfirst. rewrite loc_of_frac_record, shr_m_frac_record.
  fold (rne N (2 ^ n * d)).
  set (d1 := 2 ^ n * d).
  assert (Hd1 : 0 < d1) by (apply Z.mul_pos_pos; lia).
  assert (Hm1 : 2 ^ 52 <= N / d1 < 2 ^ 53).
  { unfold d1. rewrite (Z.mul_comm _ d), <- Z.div_div by lia.
    replace (Zdigits2 (N / d) - 1) with (52 + n) in Hdig by lia.
    replace (Zdigits2 (N / d)) with (53 + n) in Hdig by lia.
    rewrite !Z.pow_add_r in Hdig by lia.
    split; [apply Z.div_le_lower_bound; lia | apply Z.div_lt_upper_bound; lia]. }
  assert (Hr := rne_bounds N d1 Hd1).
  unfold normal_result.
  destruct (Z.ltb_spec (rne N d1) (2 ^ 53)) as [Hlt|Hge].
  - rewrite shr_fexp_53 by lia. rewrite shr_m_frac_record, Z.div_1_r.
    destruct (rne N d1) as [|p|p] eqn:E; try lia.
    replace (e + n <=? 1024 - 53) with true by (symmetry; apply Z.leb_le; lia).
    reflexivity.
  - rewrite shr_fexp_54 by lia. rewrite shr_m_frac_record.
    replace (rne N d1) with (2 ^ 53) by lia.
    replace (e + n + 1 <=? 1024 - 53) with true by (symmetry; apply Z.leb_le; lia).
    reflexivity.
Qed.

Lemma pos_iter_xO m p : Zpos (Pos.iter xO m p) = Zpos m * 2 ^ Zpos p.
Proof.
  induction p as [|p IH] using Pos.peano_ind.
  - simpl. lia.
  - rewrite Pos.iter_succ, Pos2Z.inj_xO, IH, Pos2Z.inj_succ, Z.pow_succ_r by lia.
    ring.
Qed.

Lemma Zdigits2_shift n k :
  0 < n -> 0 <= k -> Zdigits2 (n * 2 ^ k) = Zdigits2 n + k.
Proof.
  intros Hn Hk.
  assert (Hb := Zdigits2_bounds n Hn). assert (Hp := Zdigits2_pos n Hn).
  assert (0 < 2 ^ k) by (apply Z.pow_pos_nonneg; lia).
  apply Zdigits2_unique; [|lia].
  replace (Zdigits2 n + k - 1) with (Zdigits2 n - 1 + k) by lia.
  rewrite !Z.pow_add_r by lia. nia.
Qed.

Lemma cman_bounds n : 0 < n < 2 ^ 53 -> 2 ^ 52 <= cman n < 2 ^ 53.
Proof.
  intros Hn. unfold cman.
  assert (Hb := Zdigits2_bounds n ltac:(lia)). assert (Hp := Zdigits2_pos n ltac:(lia)).
  assert (Hd : Zdigits2 n <= 53).
  { destruct (Z_le_gt_dec (Zdigits2 n) 53); [assumption|].
    assert (2 ^ 53 <= 2 ^ (Zdigits2 n - 1)) by (apply Z.pow_le_mono_r; lia). lia. }
  assert (H := Zdigits2_bounds (n * 2 ^ (53 - Zdigits2 n))
                ltac:(apply Z.mul_pos_pos; [lia|apply Z.pow_pos_nonneg; lia])).
  rewrite Zdigits2_shift in H by lia.
  replace (Zdigits2 n + (53 - Zdigits2 n)) with 53 in H by lia. exact H.
Qed.

Lemma binary_round_aux_canonical s m e :
  2 ^ 52 <= m < 2 ^ 53 -> -1074 <= e <= 960 ->
  binary_round_aux 53 1024 s m e loc_Exact = S754_finite s (Z.to_pos m) e.
Proof.
  intros Hm He.
  pose proof (binary_round_aux_normal s m 1 e) as H.
  rewrite Z.div_1_r, Z.mod_1_r in H. cbv zeta in H.
  rewrite (Zdigits2_unique m 53) in H by (simpl; lia).
  change (loc_frac 0 1) with loc_Exact in H.
  rewrite H by lia.
  unfold normal_result, rne.
  change (2 ^ (53 - 53) * 1) with 1. rewrite Z.div_1_r, Z.mod_1_r.
  change (loc_frac 0 1) with loc_Exact. cbn [round_nearest_even].
  replace (m <? 2 ^ 53) with true by (symmetry; apply Z.ltb_lt; lia).
  f_equal. lia.
Qed.

Lemma binary_round_exact s n k :
  0 < n < 2 ^ 53 -> 0 <= k <= 900 ->
  binary_round 53 1024 s (Z.to_pos (n * 2 ^ k)) (- k) =
  S754_finite s (Z.to_pos (cman n)) (cexp n).
Proof.
  intros Hn Hk.
  assert (Hb := Zdigits2_bounds n ltac:(lia)). assert (Hp := Zdigits2_pos n ltac:(lia)).
  assert (Hc := cman_bounds n Hn).
  assert (Hd : Zdigits2 n <= 53).
  { destruct (Z_le_gt_dec (Zdigits2 n) 53); [assumption|].
    assert (2 ^ 53 <= 2 ^ (Zdigits2 n - 1)) by (apply Z.pow_le_mono_r; lia). lia. }
  assert (Hpk : 0 < 2 ^ k) by (apply Z.pow_pos_nonneg; lia).
  assert (Hnk : 0 < n * 2 ^ k) by (apply Z.mul_pos_pos; lia).
  unfold binary_round.
  assert (Hdig : Zpos (digits2_pos (Z.to_pos (n * 2 ^ k))) = Zdigits2 n + k).
  { rewrite <- Zdigits2_shift by lia.
    destruct (n * 2 ^ k) as [|p|p] eqn:E; try lia. reflexivity. }
  rewrite Hdig. unfold fexp, emin.
  replace (Z.max (Zdigits2 n + k + - k - 53) (3 - 1024 - 53)) with (cexp n)
    by (unfold cexp; lia).
  unfold shl_align.
  destruct (cexp n - - k) as [|p|p] eqn:Ediff.
  - (* already canonical *)
    assert (Hkk : k = 53 - Zdigits2 n) by (unfold cexp in Ediff; lia).
    replace (n * 2 ^ k) with (cman n) by (unfold cman; rewrite Hkk; reflexivity).
    replace (- k) with (cexp n) by (unfold cexp; lia).
    rewrite Z2Pos.id by lia.
    apply binary_round_aux_canonical; unfold cexp; lia.
  - (* mantissa longer than 53 bits: exact right shift *)
    pose proof (binary_round_aux_normal s (n * 2 ^ k) 1 (- k)) as H.
    rewrite Z.div_1_r, Z.mod_1_r in H. cbv zeta in H.
    rewrite Zdigits2_shift in H by lia.
    rewrite Z2Pos.id by lia. change (loc_frac 0 1) with loc_Exact in H.
    assert (Hbig : 2 ^ 52 * 1 <= n * 2 ^ k).
    { assert (Hb' := Zdigits2_bounds (n * 2 ^ k) Hnk).
      rewrite Zdigits2_shift in Hb' by lia.
      assert (2 ^ 52 <= 2 ^ (Zdigits2 n + k - 1))
        by (apply Z.pow_le_mono_r; unfold cexp in Ediff; lia).
      lia. }
    rewrite H by (unfold cexp in *; lia).
    assert (Hsplit : n * 2 ^ k = cman n * 2 ^ (Zdigits2 n + k - 53)).
    { unfold cman. rewrite <- Z.mul_assoc, <- Z.pow_add_r by (unfold cexp in *; lia).
      f_equal. f_equal. lia. }
    assert (Hnz : 2 ^ (Zdigits2 n + k - 53) <> 0)
      by (apply Z.pow_nonzero; unfold cexp in *; lia).
    assert (Hrne : rne (n * 2 ^ k) (2 ^ (Zdigits2 n + k - 53) * 1) = cman n).
    { unfold rne. rewrite Z.mul_1_r, Hsplit.
      rewrite Z.div_mul, Z.mod_mul by exact Hnz. reflexivity. }
    rewrite Hrne. unfold normal_result.
    replace (cman n <? 2 ^ 53) with true by (symmetry; apply Z.ltb_lt; lia).
    f_equal. unfold cexp. lia.
  - (* shorter mantissa: left alignment *)
    assert (Hal : Zpos (Pos.iter xO (Z.to_pos (n * 2 ^ k)) p) = cman n).
    { rewrite pos_iter_xO, Z2Pos.id by lia. unfold cman.
      rewrite <- Z.mul_assoc, <- Z.pow_add_r by lia. f_equal. f_equal.
      unfold cexp in Ediff. lia. }
    rewrite Hal. apply binary_round_aux_canonical; unfold cexp; lia.
Qed.

Lemma Z2SF_pos n : 0 < n < 2 ^ 53 -> Z2SF n = canon false n.
Proof.
  intros Hn. unfold Z2SF, binary_normalize.
  destruct n as [|p|p]; try lia.
  pose proof (binary_round_exact false (Zpos p) 0 Hn ltac:(lia)) as H.
  change (2 ^ 0) with 1 in H. rewrite Z.mul_1_r in H. exact H.
Qed.

Lemma Z2SF_neg n : 0 < n < 2 ^ 53 -> Z2SF (- n) = canon true n.
Proof.
  intros Hn. unfold Z2SF, binary_normalize.
  destruct n as [|p|p]; try lia.
  pose proof (binary_round_exact true (Zpos p) 0 Hn ltac:(lia)) as H.
  change (2 ^ 0) with 1 in H. rewrite Z.mul_1_r in H. exact H.
Qed.

Lemma new_location_frac d r :
  0 < d -> 0 <= r < d -> new_location d r = loc_frac r d.
Proof.
  intros Hd Hr. unfold new_location, new_location_even, new_location_odd, loc_frac.
  destruct (Z.even d) eqn:Ev; [reflexivity|].
  destruct (r =? 0); [reflexivity|].
  f_equal.
  assert (Hodd : Z.odd d = true) by (rewrite <- Z.negb_even, Ev; reflexivity).
  apply Z.odd_spec in Hodd. destruct Hodd as [c Hc].
  destruct (Z.compare_spec (2 * r + 1) d), (Z.compare_spec (2 * r) d); try reflexivity; lia.
Qed.

Lemma SFdiv_finite sx mx ex sy my ey :
  2 ^ 52 <= Zpos mx < 2 ^ 53 -> 2 ^ 52 <= Zpos my < 2 ^ 53 ->
  -400 <= ex <= 400 -> -400 <= ey <= 400 ->
  let N := Zpos mx * 2 ^ 53 in
  let n := Zdigits2 (N / Zpos my) - 53 in
  SFdiv 53 1024 (S754_finite sx mx ex) (S754_finite sy my ey) =
  normal_result (xorb sx sy) (rne N (2 ^ n * Zpos my)) (ex - ey - 53 + n)
  /\ 0 <= n <= 1.
Proof.
  intros Hx Hy Hex Hey N n.
  assert (HN : 2 ^ 52 * Zpos my <= N) by (unfold N; nia).
  assert (Hq : 2 ^ 52 <= N / Zpos my < 2 ^ 54).
  { split; [apply Z.div_le_lower_bound; lia|apply Z.div_lt_upper_bound; unfold N; nia]. }
  assert (Hn : 0 <= n <= 1).
  { unfold n. pose proof (Zdigits2_ge (N / Zpos my) 52 ltac:(lia) ltac:(lia)).
    assert (Hb := Zdigits2_bounds (N / Zpos my) ltac:(lia)).
    destruct (Z_le_gt_dec (Zdigits2 (N / Zpos my)) 54); [lia|].
    assert (2 ^ 54 <= 2 ^ (Zdigits2 (N / Z.pos my) - 1)) by (apply Z.pow_le_mono_r; lia).
    lia. }
  split; [|exact Hn].
  unfold SFdiv, SFdiv_core_binary.
  cbn [Zdigits2].
  rewrite (digits2_pos_unique mx 53), (digits2_pos_unique my 53) by (simpl; lia).
  unfold fexp, emin.
  replace (Z.min (Z.max (53 + ex - (53 + ey) - 53) (3 - 1024 - 53)) (ex - ey))
    with (ex - ey - 53) by lia.
  replace (ex - ey - (ex - ey - 53)) with 53 by lia.
  rewrite Z.shiftl_mul_pow2 by lia. fold N.
  pose proof (Z.div_eucl_eq N (Zpos my) ltac:(lia)) as Heq.
  assert (Hdm : Z.div_eucl N (Zpos my) = (N / Zpos my, N mod Zpos my)).
  { unfold Z.div, Z.modulo. destruct (Z.div_eucl N (Zpos my)); reflexivity. }
  rewrite Hdm.
  rewrite new_location_frac by (try apply Z.mod_pos_bound; lia).
  apply binary_round_aux_normal; fold n; lia.
Qed.

(** ** Real value of a double, as a rational *)

Lemma pow2_pos e : (0 < pow2 e)%Q.
Proof. apply Qpower_0_lt. reflexivity. Qed.

Lemma pow2_add a b : (pow2 (a + b) == pow2 a * pow2 b)%Q.
Proof. apply Qpower_plus. discriminate. Qed.

Lemma pow2_Z e : 0 <= e -> (pow2 e == inject_Z (2 ^ e))%Q.
Proof. intros He. unfold pow2. rewrite Zpower_Qpower by exact He. reflexivity. Qed.

Lemma F2Q_shift m k e : 0 <= k -> (F2Q (m * 2 ^ k) e == F2Q m (e + k))%Q.
Proof.
  intros Hk. unfold F2Q.
  rewrite inject_Z_mult, Z.add_comm, pow2_add, (pow2_Z k Hk). ring.
Qed.

Lemma F2Q_le m m' e : (F2Q m e <= F2Q m' e)%Q <-> m <= m'.
Proof.
  unfold F2Q. pose proof (pow2_pos e) as Hp. split; intros H.
  - apply Qmult_le_r in H; [|exact Hp]. rewrite <- Zle_Qle in H. exact H.
  - apply Qmult_le_r; [exact Hp|]. rewrite <- Zle_Qle. exact H.
Qed.

Lemma F2Q_lt m m' e : (F2Q m e < F2Q m' e)%Q <-> m < m'.
Proof.
  unfold F2Q. pose proof (pow2_pos e) as Hp. split; intros H.
  - apply Qmult_lt_r in H; [|exact Hp]. rewrite <- Zlt_Qlt in H. exact H.
  - apply Qmult_lt_r; [exact Hp|]. rewrite <- Zlt_Qlt. exact H.
Qed.

Lemma F2Q_int m : (F2Q m 0 == inject_Z m)%Q.
Proof. unfold F2Q, pow2. simpl. ring. Qed.

Lemma rne_nearest N d :
  0 < d ->
  Z.abs (rne N d * d - N) <= N - (N / d) * d /\
  Z.abs (rne N d * d - N) <= (N / d + 1) * d - N.
Proof.
  intros Hd.
  assert (Hdm := Z.div_mod N d ltac:(lia)).
  assert (Hb := Z.mod_pos_bound N d Hd).
  unfold rne, loc_frac, round_nearest_even.
  destruct (Z.eqb_spec (N mod d) 0) as [H0|H0]; [lia|].
  destruct (Z.compare_spec (2 * (N mod d)) d) as [He|Hl|Hg]; try lia.
  destruct (Z.even (N / d)); lia.
Qed.

Lemma F2Q_same_grid m e e' :
  e' <= e -> (F2Q m e == F2Q (m * 2 ^ (e - e')) e')%Q.
Proof.
  intros H. rewrite F2Q_shift by lia. replace (e' + (e - e')) with e by lia. reflexivity.
Qed.

Lemma Qscale_le (a b d u : Q) (za zb : Z) :
  (0 < d)%Q -> (0 < u)%Q ->
  (a * d == inject_Z za * u)%Q -> (b * d == inject_Z zb * u)%Q ->
  za <= zb -> (a <= b)%Q.
Proof.
  intros Hd Hu Ha Hb Hz.
  apply (Qmult_le_r _ _ d); [exact Hd|]. rewrite Ha, Hb.
  apply Qmult_le_r; [exact Hu|]. rewrite <- Zle_Qle. exact Hz.
Qed.

Lemma Qscale_lt (a b d u : Q) (za zb : Z) :
  (0 < d)%Q -> (0 < u)%Q ->
  (a * d == inject_Z za * u)%Q -> (b * d == inject_Z zb * u)%Q ->
  za < zb -> (a < b)%Q.
Proof.
  intros Hd Hu Ha Hb Hz.
  apply (Qmult_lt_r _ _ d); [exact Hd|]. rewrite Ha, Hb.
  apply Qmult_lt_r; [exact Hu|]. rewrite <- Zlt_Qlt. exact Hz.
Qed.

Lemma inject_Z_minus (x y : Z) : inject_Z (x - y) = (inject_Z x - inject_Z y)%Q.
Proof. unfold Z.sub. rewrite inject_Z_plus, inject_Z_opp. reflexivity. Qed.

Lemma F2Q_scaled_diff m e d N x :
  (x * inject_Z d == inject_Z N * pow2 e)%Q ->
  ((F2Q m e - x) * inject_Z d == inject_Z (m * d - N) * pow2 e)%Q.
Proof.
  intros Hx. unfold F2Q. rewrite inject_Z_minus, inject_Z_mult.
  transitivity (inject_Z m * pow2 e * inject_Z d - x * inject_Z d)%Q; [ring|].
  rewrite Hx. ring.
Qed.

Lemma F2Q_scaled_diff_opp m e d N x :
  (x * inject_Z d == inject_Z N * pow2 e)%Q ->
  ((x - F2Q m e) * inject_Z d == inject_Z (N - m * d) * pow2 e)%Q.
Proof.
  intros Hx. unfold F2Q. rewrite inject_Z_minus, inject_Z_mult.
  transitivity (x * inject_Z d - inject_Z m * pow2 e * inject_Z d)%Q; [ring|].
  rewrite Hx. ring.
Qed.

Lemma rne_nearest_Q N d e x :
  0 < d -> 2 ^ 52 * d <= N ->
  (x * inject_Z d == inject_Z N * pow2 e)%Q ->
  nearest (F2Q (rne N d) e) x.
Proof.
  intros Hd HN Hx M e' HM.
  set (f := N / d). set (A := rne N d).
  assert (Hf : 2 ^ 52 <= f) by (apply Z.div_le_lower_bound; lia).
  assert (Hdm := Z.div_mod N d ltac:(lia)). fold f in Hdm.
  assert (Hb := Z.mod_pos_bound N d Hd).
  destruct (rne_nearest N d Hd) as [Hn1 Hn2]. fold f A in Hn1, Hn2.
  assert (Hu := pow2_pos e). assert (Hu' := pow2_pos e').
  assert (Hdq : (0 < inject_Z d)%Q) by (rewrite Zlt_Qlt in Hd; exact Hd).
  assert (HA := F2Q_scaled_diff A e d N x Hx).
  assert (Hlo := F2Q_scaled_diff_opp f e d N x Hx).
  assert (Hhi := F2Q_scaled_diff (f + 1) e d N x Hx).
  assert (Hd1 : (Qabs (F2Q A e - x) <= x - F2Q f e)%Q).
  { apply Qabs_Qle_condition. split.
    - eapply (Qscale_le _ _ _ _ (- (N - f * d)) _ Hdq Hu); [|exact HA|lia].
      rewrite inject_Z_opp.
      transitivity (- ((x - F2Q f e) * inject_Z d))%Q; [ring|]. rewrite Hlo. ring.
    - eapply (Qscale_le _ _ _ _ _ _ Hdq Hu HA Hlo). lia. }
  assert (Hd2 : (Qabs (F2Q A e - x) <= F2Q (f + 1) e - x)%Q).
  { apply Qabs_Qle_condition. split.
    - eapply (Qscale_le _ _ _ _ (- ((f + 1) * d - N)) _ Hdq Hu); [|exact HA|lia].
      rewrite inject_Z_opp.
      transitivity (- ((F2Q (f + 1) e - x) * inject_Z d))%Q; [ring|]. rewrite Hhi. ring.
    - eapply (Qscale_le _ _ _ _ _ _ Hdq Hu HA Hhi). lia. }
  destruct (Qlt_le_dec (F2Q f e) (F2Q M e')) as [Hgt|Hle].
  - destruct (Qlt_le_dec (F2Q M e') (F2Q (f + 1) e)) as [Hlt|Hge].
    + (* no 53-bit value lies strictly between two neighbours *)
      exfalso. destruct (Z_le_gt_dec e e') as [Hee|Hee].
      * rewrite (F2Q_same_grid M e' e Hee) in Hgt, Hlt.
        apply F2Q_lt in Hgt. apply F2Q_lt in Hlt. lia.
      * rewrite (F2Q_same_grid f e e') in Hgt by lia.
        apply F2Q_lt in Hgt.
        assert (2 ^ 1 <= 2 ^ (e - e')) by (apply Z.pow_le_mono_r; lia).
        change (2 ^ 1) with 2 in *. nia.
    + eapply Qle_trans; [exact Hd2|].
      eapply Qle_trans; [|apply Qle_Qabs]. lra.
  - eapply Qle_trans; [exact Hd1|].
    rewrite <- (Qabs_opp (F2Q M e' - x)).
    eapply Qle_trans; [|apply Qle_Qabs]. lra.
Qed.

Lemma nearest_ext z z' x x' :
  (z == z')%Q -> (x == x')%Q -> nearest z x -> nearest z' x'.
Proof.
  intros Hz Hx H M e HM. rewrite <- Hz, <- Hx. apply H. exact HM.
Qed.

Lemma F2Q_pos m e : 0 < m -> (0 < F2Q m e)%Q.
Proof.
  intros Hm. unfold F2Q. apply Qmult_lt_0_compat; [|apply pow2_pos].
  rewrite Zlt_Qlt in Hm. exact Hm.
Qed.

(** Division of two normal doubles: the result is a normal double whose
    magnitude is a nearest double to the exact quotient of the magnitudes. *)
Lemma SFdiv_nearest sx mx ex sy my ey :
  2 ^ 52 <= Zpos mx < 2 ^ 53 -> 2 ^ 52 <= Zpos my < 2 ^ 53 ->
  -400 <= ex <= 400 -> -400 <= ey <= 400 ->
  exists mz ez,
    SFdiv 53 1024 (S754_finite sx mx ex) (S754_finite sy my ey) =
      S754_finite (xorb sx sy) mz ez /\
    2 ^ 52 <= Zpos mz < 2 ^ 53 /\
    ex - ey - 53 <= ez <= ex - ey - 51 /\
    nearest (F2Q (Zpos mz) ez) (F2Q (Zpos mx) ex / F2Q (Zpos my) ey).
Proof.
  intros Hx Hy Hex Hey.
  destruct (SFdiv_finite sx mx ex sy my ey Hx Hy Hex Hey) as [Hdiv Hn].
  cbv zeta in Hdiv. rewrite Hdiv. clear Hdiv.
  set (N := Zpos mx * 2 ^ 53) in *.
  set (n := Zdigits2 (N / Zpos my) - 53) in *.
  set (d := 2 ^ n * Zpos my). set (e := ex - ey - 53 + n).
  assert (Hpn : 1 <= 2 ^ n <= 2).
  { destruct (Z.eq_dec n 0) as [->|]; [simpl; lia|].
    replace n with 1 by lia. simpl; lia. }
  assert (Hd : 0 < d) by (unfold d; nia).
  assert (Hq : 2 ^ 52 <= N / Zpos my).
  { apply Z.div_le_lower_bound; unfold N; nia. }
  assert (Hdig := Zdigits2_bounds (N / Zpos my) ltac:(lia)).
  assert (Hfl : 2 ^ 52 <= N / d < 2 ^ 53).
  { unfold d. rewrite (Z.mul_comm _ (Zpos my)), <- Z.div_div by lia.
    replace (Zdigits2 (N / Zpos my) - 1) with (52 + n) in Hdig by lia.
    replace (Zdigits2 (N / Zpos my)) with (53 + n) in Hdig by lia.
    rewrite !Z.pow_add_r in Hdig by lia.
    split; [apply Z.div_le_lower_bound; lia | apply Z.div_lt_upper_bound; lia]. }
  assert (HNd : 2 ^ 52 * d <= N).
  { assert (Hdm := Z.div_mod N d ltac:(lia)).
    assert (Hb := Z.mod_pos_bound N d Hd). nia. }
  assert (Hr := rne_bounds N d Hd).
  assert (Hval : (F2Q (Zpos mx) ex / F2Q (Zpos my) ey * inject_Z d ==
                  inject_Z N * pow2 e)%Q).
  { assert (Hpy := pow2_pos ey).
    assert (Hpy0 : ~ (pow2 ey == 0)%Q) by (intros Hc; rewrite Hc in Hpy; discriminate Hpy).
    assert (Hmy : ~ (inject_Z (Zpos my) == 0)%Q) by (intros Hc; discriminate Hc).
    assert (Hp : (pow2 e * pow2 ey * inject_Z (2 ^ 53) == pow2 ex * inject_Z (2 ^ n))%Q).
    { rewrite <- (pow2_Z 53), <- (pow2_Z n) by lia. rewrite <- !pow2_add.
      replace (e + ey + 53) with (ex + n) by (unfold e; lia). reflexivity. }
    apply (Qmult_inj_r _ _ (pow2 ey)); [exact Hpy0|].
    transitivity (inject_Z (Zpos mx) * (pow2 ex * inject_Z (2 ^ n)))%Q.
    - unfold F2Q, d. rewrite !inject_Z_mult. field. split; assumption.
    - rewrite <- Hp. unfold N. rewrite !inject_Z_mult. ring. }
  assert (Hnear := rne_nearest_Q N d e _ Hd HNd Hval).
  unfold normal_result.
  destruct (Z.ltb_spec (rne N d) (2 ^ 53)) as [Hlt|Hge].
  - exists (Z.to_pos (rne N d)), e. rewrite Z2Pos.id by lia.
    repeat split; try lia; unfold e; try lia. exact Hnear.
  - exists (Z.to_pos (2 ^ 52)), (e + 1).
    repeat split; try (simpl; lia); unfold e; try lia.
    eapply nearest_ext; [| reflexivity | exact Hnear].
    replace (rne N d) with (2 ^ 53) by lia.
    change (Z.pos (Z.to_pos (2 ^ 52))) with (2 ^ 52).
    rewrite <- (F2Q_shift (2 ^ 52) 1 (ex - ey - 53 + n)) by lia. reflexivity.
Qed.

(** ** Consequences of nearest rounding *)

Lemma nearest_rep_le z x M e :
  nearest z x -> Z.abs M <= 2 ^ 53 -> (F2Q M e <= x)%Q -> (F2Q M e <= z)%Q.
Proof.
  intros Hn HM Hle. specialize (Hn M e HM).
  assert (H1 : (Qabs (F2Q M e - x) == x - F2Q M e)%Q).
  { rewrite Qabs_neg by lra. ring. }
  assert (H2 : (x - z <= Qabs (z - x))%Q).
  { rewrite <- Qabs_opp. eapply Qle_trans; [|apply Qle_Qabs]. lra. }
  lra.
Qed.

Lemma nearest_rep_ge z x M e :
  nearest z x -> Z.abs M <= 2 ^ 53 -> (x <= F2Q M e)%Q -> (z <= F2Q M e)%Q.
Proof.
  intros Hn HM Hle. specialize (Hn M e HM).
  assert (H1 : (Qabs (F2Q M e - x) == F2Q M e - x)%Q).
  { rewrite Qabs_pos by lra. ring. }
  assert (H2 : (z - x <= Qabs (z - x))%Q) by apply Qle_Qabs.
  lra.
Qed.

Lemma F2Q_succ m e : (F2Q (m + 1) e == F2Q m e + pow2 e)%Q.
Proof. unfold F2Q. rewrite inject_Z_plus. ring. Qed.

Lemma F2Q_pred m e : (F2Q (m - 1) e == F2Q m e - pow2 e)%Q.
Proof. unfold F2Q. rewrite inject_Z_minus. ring. Qed.

Lemma F2Q_of_int k E :
  E <= 52 -> (F2Q (k * 2 ^ (52 - E)) (E - 52) == inject_Z k)%Q.
Proof.
  intros HE. rewrite F2Q_shift by lia.
  replace (E - 52 + (52 - E)) with 0 by lia. apply F2Q_int.
Qed.

Lemma pow2_double e : (pow2 (e + 1) == 2 * pow2 e)%Q.
Proof. rewrite pow2_add. change (pow2 1) with 2%Q. ring. Qed.

Lemma nearest_gt_int z x k E :
  nearest z x -> 0 <= E <= 52 -> 2 ^ E <= k < 2 ^ (E + 1) ->
  (inject_Z k + pow2 (E - 53) < x)%Q -> (inject_Z k < z)%Q.
Proof.
  intros Hn HE Hk Hx.
  destruct (Qlt_le_dec (inject_Z k) z) as [|Hzk]; [assumption|exfalso].
  assert (Hp : 0 < 2 ^ (52 - E)) by (apply Z.pow_pos_nonneg; lia).
  assert (HM : Z.abs (k * 2 ^ (52 - E) + 1) <= 2 ^ 53).
  { assert (2 ^ (E + 1) * 2 ^ (52 - E) = 2 ^ 53).
    { rewrite <- Z.pow_add_r by lia. f_equal. lia. }
    assert (0 < 2 ^ E) by (apply Z.pow_pos_nonneg; lia). nia. }
  specialize (Hn _ (E - 52) HM).
  rewrite F2Q_succ, F2Q_of_int in Hn by lia.
  assert (Hh := pow2_pos (E - 53)).
  assert (H2 : (pow2 (E - 52) == 2 * pow2 (E - 53))%Q).
  { replace (E - 52) with (E - 53 + 1) by lia. apply pow2_double. }
  rewrite H2 in Hn.
  assert (H3 : (x - z <= Qabs (z - x))%Q).
  { rewrite <- Qabs_opp. eapply Qle_trans; [|apply Qle_Qabs]. lra. }
  assert (H4 : (Qabs (inject_Z k + 2 * pow2 (E - 53) - x) < x - inject_Z k)%Q).
  { apply Qabs_Qlt_condition. split; lra. }
  lra.
Qed.

Lemma nearest_lt_int z x k E :
  nearest z x -> -1 <= E <= 52 -> 2 ^ E < k <= 2 ^ (E + 1) ->
  (x < inject_Z k - pow2 (E - 53))%Q -> (z < inject_Z k)%Q.
Proof.
  intros Hn HE Hk Hx.
  destruct (Qlt_le_dec z (inject_Z k)) as [|Hzk]; [assumption|exfalso].
  assert (Hp : 0 < 2 ^ (52 - E)) by (apply Z.pow_pos_nonneg; lia).
  assert (HM : Z.abs (k * 2 ^ (52 - E) - 1) <= 2 ^ 53).
  { assert (2 ^ (E + 1) * 2 ^ (52 - E) = 2 ^ 53).
    { rewrite <- Z.pow_add_r by lia. f_equal. lia. }
    assert (0 <= 2 ^ E) by (apply Z.pow_nonneg; lia). nia. }
  specialize (Hn _ (E - 52) HM).
  rewrite F2Q_pred, F2Q_of_int in Hn by lia.
  assert (Hh := pow2_pos (E - 53)).
  assert (H2 : (pow2 (E - 52) == 2 * pow2 (E - 53))%Q).
  { replace (E - 52) with (E - 53 + 1) by lia. apply pow2_double. }
  rewrite H2 in Hn.
  assert (H3 : (z - x <= Qabs (z - x))%Q) by apply Qle_Qabs.
  assert (H4 : (Qabs (inject_Z k - 2 * pow2 (E - 53) - x) < inject_Z k - x)%Q).
  { apply Qabs_Qlt_condition. split; lra. }
  lra.
Qed.

(** A normal double strictly above an integer [n0] is at least one unit in
    the last place of [n0] above it. *)
Lemma above_int_grid A ea n0 E :
  2 ^ 52 <= A < 2 ^ 53 -> 0 <= E <= 52 -> 2 ^ E <= n0 < 2 ^ (E + 1) ->
  (inject_Z n0 < F2Q A ea)%Q -> (inject_Z n0 + pow2 (E - 52) <= F2Q A ea)%Q.
Proof.
  intros HA HE Hn0 Hlt.
  assert (0 < 2 ^ E) by (apply Z.pow_pos_nonneg; lia).
  destruct (Z_le_gt_dec (E - 52) ea) as [Hge|Hlt'].
  - rewrite <- (F2Q_of_int n0 E) in Hlt |- * by lia.
    rewrite (F2Q_same_grid A ea (E - 52) Hge) in Hlt |- *.
    rewrite <- F2Q_succ. apply F2Q_lt in Hlt. apply F2Q_le. lia.
  - exfalso.
    assert (Hn : (inject_Z n0 == F2Q (n0 * 2 ^ (- ea)) ea)%Q).
    { rewrite F2Q_shift by lia. replace (ea + - ea) with 0 by lia.
      symmetry. apply F2Q_int. }
    rewrite Hn in Hlt. apply F2Q_lt in Hlt.
    assert (2 ^ 53 <= 2 ^ E * 2 ^ (- ea)).
    { rewrite <- Z.pow_add_r by lia. apply Z.pow_le_mono_r; lia. }
    assert (0 < 2 ^ (- ea)) by (apply Z.pow_pos_nonneg; lia). nia.
Qed.

Lemma ceil_div_spec a b :
  0 < b -> (ceil_div a b - 1) * b < a <= ceil_div a b * b.
Proof.
  intros Hb. unfold ceil_div.
  assert (Hdm := Z.div_mod (- a) b ltac:(lia)).
  assert (Hm := Z.mod_pos_bound (- a) b Hb). nia.
Qed.

Lemma ceil_div_unique a b K :
  0 < b -> (K - 1) * b < a <= K * b -> ceil_div a b = K.
Proof.
  intros Hb HK. pose proof (ceil_div_spec a b Hb). nia.
Qed.

Lemma canon_value n : 0 < n < 2 ^ 53 -> (F2Q (cman n) (cexp n) == inject_Z n)%Q.
Proof.
  intros Hn. unfold cman, cexp.
  assert (Hb := Zdigits2_bounds n ltac:(lia)). assert (Hp := Zdigits2_pos n ltac:(lia)).
  assert (Hd : Zdigits2 n <= 53).
  { destruct (Z_le_gt_dec (Zdigits2 n) 53); [assumption|].
    assert (2 ^ 53 <= 2 ^ (Zdigits2 n - 1)) by (apply Z.pow_le_mono_r; lia). lia. }
  rewrite F2Q_shift by lia.
  replace (Zdigits2 n - 53 + (53 - Zdigits2 n)) with 0 by lia. apply F2Q_int.
Qed.

Lemma canon_of_normal s m :
  2 ^ 52 <= Zpos m < 2 ^ 53 -> canon s (Zpos m) = S754_finite s m 0.
Proof.
  intros Hm. unfold canon, cman, cexp.
  rewrite (Zdigits2_unique (Zpos m) 53) by (simpl; lia).
  change (2 ^ (53 - 53)) with 1. rewrite Z.mul_1_r. reflexivity.
Qed.

Lemma Math_ceil_pos m e K :
  2 ^ 52 <= Zpos m < 2 ^ 53 -> 0 < K < 2 ^ 53 ->
  (inject_Z (K - 1) < F2Q (Zpos m) e)%Q -> (F2Q (Zpos m) e <= inject_Z K)%Q ->
  Math_ceil (S754_finite false m e) = Z2SF K.
Proof.
  intros Hm HK Hlo Hhi. unfold Math_ceil.
  destruct (Z.leb_spec 0 e) as [He|He].
  - (* an integer already *)
    rewrite <- (F2Q_int K), (F2Q_same_grid (Zpos m) e 0 He) in Hhi.
    rewrite <- (F2Q_int (K - 1)), (F2Q_same_grid (Zpos m) e 0 He) in Hlo.
    apply F2Q_le in Hhi. apply F2Q_lt in Hlo. rewrite Z.sub_0_r in *.
    assert (e = 0).
    { destruct (Z.eq_dec e 0); [assumption|].
      assert (2 ^ 1 <= 2 ^ e) by (apply Z.pow_le_mono_r; lia).
      change (2 ^ 1) with 2 in *. nia. }
    subst e. change (2 ^ 0) with 1 in *.
    assert (K = Zpos m) by lia. subst K.
    rewrite Z2SF_pos by lia. rewrite canon_of_normal by lia. reflexivity.
  - assert (Hp : 0 < 2 ^ (- e)) by (apply Z.pow_pos_nonneg; lia).
    assert (Hg : forall k, (inject_Z k == F2Q (k * 2 ^ (- e)) e)%Q).
    { intros k. rewrite F2Q_shift by lia. replace (e + - e) with 0 by lia.
      symmetry. apply F2Q_int. }
    rewrite (Hg K) in Hhi. rewrite (Hg (K - 1)) in Hlo.
    apply F2Q_le in Hhi. apply F2Q_lt in Hlo.
    assert (Hdm := Z.div_mod (Zpos m) (2 ^ (- e)) ltac:(lia)).
    assert (Hb := Z.mod_pos_bound (Zpos m) (2 ^ (- e)) Hp).
    f_equal. destruct (Z.eqb_spec (Zpos m mod 2 ^ (- e)) 0); nia.
Qed.

Lemma Math_ceil_neg m e k :
  2 ^ 52 <= Zpos m < 2 ^ 53 -> 0 <= k < 2 ^ 53 ->
  (inject_Z k <= F2Q (Zpos m) e)%Q -> (F2Q (Zpos m) e < inject_Z (k + 1))%Q ->
  Math_ceil (S754_finite true m e) = if k =? 0 then S754_zero true else Z2SF (- k).
Proof.
  intros Hm HK Hlo Hhi. unfold Math_ceil.
  destruct (Z.leb_spec 0 e) as [He|He].
  - rewrite <- (F2Q_int k), (F2Q_same_grid (Zpos m) e 0 He) in Hlo.
    rewrite <- (F2Q_int (k + 1)), (F2Q_same_grid (Zpos m) e 0 He) in Hhi.
    apply F2Q_le in Hlo. apply F2Q_lt in Hhi. rewrite Z.sub_0_r in *.
    assert (e = 0).
    { destruct (Z.eq_dec e 0); [assumption|].
      assert (2 ^ 1 <= 2 ^ e) by (apply Z.pow_le_mono_r; lia).
      change (2 ^ 1) with 2 in *. nia. }
    subst e. change (2 ^ 0) with 1 in *.
    assert (k = Zpos m) by lia. subst k.
    replace (Zpos m =? 0) with false by (symmetry; apply Z.eqb_neq; lia).
    rewrite Z2SF_neg by lia. rewrite canon_of_normal by lia. reflexivity.
  - assert (Hp : 0 < 2 ^ (- e)) by (apply Z.pow_pos_nonneg; lia).
    assert (Hg : forall k, (inject_Z k == F2Q (k * 2 ^ (- e)) e)%Q).
    { intros j. rewrite F2Q_shift by lia. replace (e + - e) with 0 by lia.
      symmetry. apply F2Q_int. }
    rewrite (Hg k) in Hlo. rewrite (Hg (k + 1)) in Hhi.
    apply F2Q_le in Hlo. apply F2Q_lt in Hhi.
    assert (Hdm := Z.div_mod (Zpos m) (2 ^ (- e)) ltac:(lia)).
    assert (Hb := Z.mod_pos_bound (Zpos m) (2 ^ (- e)) Hp).
    assert (Zpos m / 2 ^ (- e) = k) by nia.
    rewrite H. reflexivity.
Qed.

Lemma cexp_bounds n : 0 < n < 2 ^ 53 -> -52 <= cexp n <= 0.
Proof.
  intros Hn. unfold cexp.
  assert (Hb := Zdigits2_bounds n ltac:(lia)). assert (Hp := Zdigits2_pos n ltac:(lia)).
  destruct (Z_le_gt_dec (Zdigits2 n) 53); [lia|].
  assert (2 ^ 53 <= 2 ^ (Zdigits2 n - 1)) by (apply Z.pow_le_mono_r; lia). lia.
Qed.

Lemma canon_mantissa n :
  0 < n < 2 ^ 53 -> 2 ^ 52 <= Zpos (Z.to_pos (cman n)) < 2 ^ 53.
Proof.
  intros Hn. pose proof (cman_bounds n Hn). rewrite Z2Pos.id by lia. assumption.
Qed.

Lemma canon_value' n :
  0 < n < 2 ^ 53 -> (F2Q (Zpos (Z.to_pos (cman n))) (cexp n) == inject_Z n)%Q.
Proof.
  intros Hn. pose proof (cman_bounds n Hn). rewrite Z2Pos.id by lia.
  apply canon_value. exact Hn.
Qed.

Lemma pow2_le a b : a <= b -> (pow2 a <= pow2 b)%Q.
Proof.
  intros H. replace b with (a + (b - a)) by lia.
  rewrite pow2_add, (pow2_Z (b - a)) by lia.
  assert (Hp := pow2_pos a).
  assert (1 <= 2 ^ (b - a)) by (apply (Z.pow_le_mono_r 2 0 (b - a)); lia).
  assert (Hq : (1 <= inject_Z (2 ^ (b - a)))%Q) by (rewrite <- (Zle_Qle 1); assumption).
  nra.
Qed.

Lemma log2_bounds n : 0 < n -> 2 ^ Z.log2 n <= n < 2 ^ (Z.log2 n + 1).
Proof. intros Hn. apply Z.log2_spec. exact Hn. Qed.

Lemma log2_lt_pow n k : 0 < n < 2 ^ k -> Z.log2 n < k.
Proof.
  intros Hn. apply Z.log2_lt_pow2; lia.
Qed.

Lemma pow2_scaled E : 0 <= E -> (pow2 (E - 53) == inject_Z (2 ^ E) * pow2 (-53))%Q.
Proof.
  intros HE. replace (E - 53) with (E + -53) by lia.
  rewrite pow2_add, (pow2_Z E) by lia. reflexivity.
Qed.

Lemma round_div_le z y m K :
  nearest z (y / inject_Z m) -> 0 < m -> Z.abs K <= 2 ^ 53 ->
  (y <= inject_Z (K * m))%Q -> (z <= inject_Z K)%Q.
Proof.
  intros Hn Hm HK Hy. rewrite <- (F2Q_int K).
  apply (nearest_rep_ge z _ K 0 Hn HK). rewrite F2Q_int.
  assert (Hmq : (0 < inject_Z m)%Q) by (rewrite <- (Zlt_Qlt 0); exact Hm).
  apply Qle_shift_div_r; [exact Hmq|]. rewrite <- inject_Z_mult. exact Hy.
Qed.

Lemma round_div_ge z y m k :
  nearest z (y / inject_Z m) -> 0 < m -> Z.abs k <= 2 ^ 53 ->
  (inject_Z (k * m) <= y)%Q -> (inject_Z k <= z)%Q.
Proof.
  intros Hn Hm HK Hy. rewrite <- (F2Q_int k).
  apply (nearest_rep_le z _ k 0 Hn HK). rewrite F2Q_int.
  assert (Hmq : (0 < inject_Z m)%Q) by (rewrite <- (Zlt_Qlt 0); exact Hm).
  apply Qle_shift_div_l; [exact Hmq|]. rewrite <- inject_Z_mult. exact Hy.
Qed.

(** Division by a positive integer after nearest rounding stays strictly
    above an integer [k] whenever the exact quotient clears [k] by more than
    half a unit in the last place of [k]. *)
Lemma round_div_gt z y m k E :
  nearest z (y / inject_Z m) -> 0 < m -> 0 < k -> 0 <= E <= 52 ->
  2 ^ E <= k * m < 2 ^ (E + 1) ->
  (inject_Z (k * m) + pow2 (E - 52) <= y)%Q -> (inject_Z k < z)%Q.
Proof.
  intros Hn Hm Hk HE Hkm Hy.
  assert (Hmq : (0 < inject_Z m)%Q) by (rewrite <- (Zlt_Qlt 0); exact Hm).
  assert (HlE := log2_bounds k Hk).
  assert (HE0 : 0 <= Z.log2 k) by apply Z.log2_nonneg.
  assert (HE' : Z.log2 k <= 52).
  { assert (Z.log2 k < 53); [apply log2_lt_pow|lia].
    assert (2 ^ (E + 1) <= 2 ^ 53) by (apply Z.pow_le_mono_r; lia). nia. }
  apply (nearest_gt_int z _ k (Z.log2 k) Hn); [lia|exact HlE|].
  apply Qlt_shift_div_l; [exact Hmq|].
  eapply Qlt_le_trans; [|exact Hy].
  rewrite inject_Z_mult.
  assert (H1 : (pow2 (Z.log2 k - 53) * inject_Z m < pow2 (E - 52))%Q).
  { replace (E - 52) with (E + 1 - 53) by lia.
    rewrite (pow2_scaled (Z.log2 k)), (pow2_scaled (E + 1)) by lia.
    assert (Hp := pow2_pos (-53)).
    setoid_replace (inject_Z (2 ^ Z.log2 k) * pow2 (-53) * inject_Z m)%Q
      with (inject_Z (2 ^ Z.log2 k * m) * pow2 (-53))%Q
      using relation Qeq by (rewrite inject_Z_mult; ring).
    apply Qmult_lt_r; [exact Hp|]. rewrite <- Zlt_Qlt. nia. }
  lra.
Qed.

Lemma round_div_lt z y m K :
  nearest z (y / inject_Z m) -> 0 < m -> 0 < K -> (K - 1) * m < 2 ^ 53 -> m < 2 ^ 53 ->
  (y <= inject_Z (K * m) - 1)%Q -> (z < inject_Z K)%Q.
Proof.
  intros Hn Hm HK Hkm Hm53 Hy.
  assert (Hmq : (0 < inject_Z m)%Q) by (rewrite <- (Zlt_Qlt 0); exact Hm).
  assert (Hp := pow2_pos (-53)).
  assert (Hx : (y / inject_Z m * inject_Z m == y)%Q) by (field; lra).
  rewrite inject_Z_mult in Hy.
  destruct (Z.eq_dec K 1) as [->|HK1].
  - apply (nearest_lt_int z _ 1 (-1) Hn); [lia|simpl; lia|].
    apply Qlt_shift_div_r; [exact Hmq|].
    assert (H1 : (pow2 (-1 - 53) * inject_Z m < 1)%Q).
    { change (pow2 (-1 - 53)) with ((1 # 2) * pow2 (-53))%Q.
      assert (Hm' : (inject_Z m < inject_Z (2 ^ 53))%Q) by (rewrite <- Zlt_Qlt; lia).
      assert (H53 : (inject_Z (2 ^ 53) * pow2 (-53) == 1)%Q) by reflexivity.
      nra. }
    change (inject_Z 1) with 1%Q in *. nra.
  - assert (HlE := log2_bounds (K - 1) ltac:(lia)).
    assert (HE0 : 0 <= Z.log2 (K - 1)) by apply Z.log2_nonneg.
    assert (HE' : Z.log2 (K - 1) <= 52).
    { assert (Z.log2 (K - 1) < 53); [apply log2_lt_pow|lia]. nia. }
    apply (nearest_lt_int z _ K (Z.log2 (K - 1)) Hn); [lia|lia|].
    apply Qlt_shift_div_r; [exact Hmq|].
    assert (H1 : (pow2 (Z.log2 (K - 1) - 53) * inject_Z m < 1)%Q).
    { rewrite (pow2_scaled (Z.log2 (K - 1))) by lia.
      setoid_replace (inject_Z (2 ^ Z.log2 (K - 1)) * pow2 (-53) * inject_Z m)%Q
        with (inject_Z (2 ^ Z.log2 (K - 1) * m) * pow2 (-53))%Q
        using relation Qeq by (rewrite inject_Z_mult; ring).
      assert (H53 : (inject_Z (2 ^ 53) * pow2 (-53) == 1)%Q) by reflexivity.
      rewrite <- H53. apply Qmult_lt_r; [exact Hp|]. rewrite <- Zlt_Qlt. nia. }
    nra.
Qed.

(** The doubly rounded quotient [p / 7 / m] of safe integers has the same
    ceiling as the exact rational quotient. *)
Theorem ceil_div7_div p m :
  0 <= p < 2 ^ 53 -> 0 < m < 2 ^ 53 ->
  Math_ceil (js_div (js_div (Z2SF p) (Z2SF 7)) (Z2SF m)) = Z2SF (ceil_div p (7 * m)).
Proof.
  intros Hp Hm.
  destruct (Z.eq_dec p 0) as [->|Hp0].
  - rewrite (Z2SF_pos m) by lia. unfold ceil_div. simpl (- 0).
    rewrite Z.div_0_l by lia. reflexivity.
  - set (K := ceil_div p (7 * m)).
    assert (HK := ceil_div_spec p (7 * m) ltac:(lia)). fold K in HK.
    assert (HK1 : 1 <= K) by nia.
    assert (HKp : K <= p) by nia.
    assert (HKm : K * m < 2 ^ 53).
    { destruct (Z.eq_dec K 1) as [->|]; [lia|].
      assert (K * m <= 2 * ((K - 1) * m)) by nia. lia. }
    rewrite (Z2SF_pos p), (Z2SF_pos 7), (Z2SF_pos m) by (simpl; lia).
    unfold canon, js_div.
    assert (Bp := canon_mantissa p ltac:(lia)). assert (Ep := cexp_bounds p ltac:(lia)).
    assert (B7 := canon_mantissa 7 ltac:(simpl; lia)).
    assert (E7 : cexp 7 = -50) by reflexivity.
    assert (Bm := canon_mantissa m ltac:(lia)). assert (Em := cexp_bounds m ltac:(lia)).
    destruct (SFdiv_nearest false _ (cexp p) false _ (cexp 7) Bp B7 ltac:(lia) ltac:(lia))
      as (ma & ea & Ha & Hma & Hea & Hna).
    rewrite Ha. cbn [xorb].
    destruct (SFdiv_nearest false ma ea false _ (cexp m) Hma Bm ltac:(lia) ltac:(lia))
      as (mb & eb & Hb & Hmb & Heb & Hnb).
    rewrite Hb. cbn [xorb].
    assert (Hna' : nearest (F2Q (Zpos ma) ea) (inject_Z p / inject_Z 7)).
    { eapply nearest_ext; [reflexivity| |exact Hna].
      rewrite (canon_value' p), (canon_value' 7) by (simpl; lia). reflexivity. }
    assert (Hnb' : nearest (F2Q (Zpos mb) eb) (F2Q (Zpos ma) ea / inject_Z m)).
    { eapply nearest_ext; [reflexivity| |exact Hnb].
      rewrite (canon_value' m) by lia. reflexivity. }
    clear Hna Hnb.
    apply Math_ceil_pos; [exact Hmb|lia| |].
    + (* strictly above K - 1 *)
      destruct (Z.eq_dec K 1) as [HK1'|HK1'].
      * rewrite HK1'. apply F2Q_pos. lia.
      * set (k := K - 1) in *. set (n0 := k * m).
        assert (Hn0 : 0 < n0) by (unfold n0; nia).
        assert (Hn07 : n0 * 7 < p) by (unfold n0; nia).
        assert (Hl7 := log2_bounds (n0 * 7) ltac:(lia)).
        assert (Hl7' : Z.log2 (n0 * 7) < 53) by (apply log2_lt_pow; lia).
        assert (Hl0 := log2_bounds n0 Hn0).
        assert (Hl0' : Z.log2 n0 < 53) by (apply log2_lt_pow; lia).
        assert (Hnn7 := Z.log2_nonneg (n0 * 7)). assert (Hnn0 := Z.log2_nonneg n0).
        assert (Ha1 : (inject_Z n0 < F2Q (Zpos ma) ea)%Q).
        { apply (round_div_gt _ _ 7 n0 (Z.log2 (n0 * 7)) Hna'); try lia.
          assert (Hpw : (pow2 (Z.log2 (n0 * 7) - 52) <= pow2 0)%Q) by (apply pow2_le; lia).
          change (pow2 0) with 1%Q in Hpw.
          assert (Hq : (inject_Z (n0 * 7) + 1 <= inject_Z p)%Q).
          { change 1%Q with (inject_Z 1). rewrite <- inject_Z_plus, <- Zle_Qle. lia. }
          lra. }
        assert (Ha2 := above_int_grid _ ea n0 (Z.log2 n0) Hma ltac:(lia) Hl0 Ha1).
        apply (round_div_gt _ _ m k (Z.log2 n0) Hnb'); try lia;
          first [exact Hl0|exact Ha2].
    + (* at most K *)
      apply (round_div_le _ _ m K Hnb'); [lia|lia|].
      apply (round_div_le _ _ 7 (K * m) Hna'); [lia|lia|].
      rewrite <- Zle_Qle. lia.
Qed.

(** ** Exact subtraction and comparison of safe integers *)

Lemma shl_align_fst mx ex ez :
  ez <= ex -> Zpos (fst (shl_align mx ex ez)) = Zpos mx * 2 ^ (ex - ez).
Proof.
  intros H. unfold shl_align.
  destruct (ez - ex) as [|d|d] eqn:E; try lia.
  - replace (ex - ez) with 0 by lia. simpl. lia.
  - cbn [fst]. rewrite pos_iter_xO. f_equal. f_equal. lia.
Qed.

Lemma canon_aligned n ez :
  0 < n < 2 ^ 53 -> ez <= cexp n -> ez <= 0 ->
  Zpos (Z.to_pos (cman n)) * 2 ^ (cexp n - ez) = n * 2 ^ (- ez).
Proof.
  intros Hn Hez Hz. pose proof (cman_bounds n Hn). rewrite Z2Pos.id by lia.
  pose proof (cexp_bounds n Hn) as Hc. unfold cman, cexp in *.
  rewrite <- Z.mul_assoc, <- Z.pow_add_r by lia. f_equal. f_equal. lia.
Qed.

Lemma binary_normalize_exact n k :
  - 2 ^ 53 < n < 2 ^ 53 -> 0 <= k <= 900 ->
  binary_normalize 53 1024 (n * 2 ^ k) (- k) false = Z2SF n.
Proof.
  intros Hn Hk.
  assert (Hp : 0 < 2 ^ k) by (apply Z.pow_pos_nonneg; lia).
  destruct (Z.lt_trichotomy n 0) as [Hneg|[->|Hpos]].
  - replace n with (- (- n)) at 2 by lia. rewrite Z2SF_neg by lia. unfold canon.
    rewrite <- (binary_round_exact true (- n) k) by lia.
    destruct (n * 2 ^ k) as [|p|p] eqn:E; try nia.
    unfold binary_normalize. f_equal.
    replace (- n * 2 ^ k) with (Zpos p) by lia. reflexivity.
  - reflexivity.
  - rewrite Z2SF_pos by lia. unfold canon.
    rewrite <- (binary_round_exact false n k) by lia.
    destruct (n * 2 ^ k) as [|p|p] eqn:E; try nia.
    reflexivity.
Qed.

Lemma js_sub_exact a b :
  0 <= a < 2 ^ 53 -> 0 <= b < 2 ^ 53 ->
  js_sub (Z2SF a) (Z2SF b) = Z2SF (a - b).
Proof.
  intros Ha Hb. unfold js_sub.
  destruct (Z.eq_dec a 0) as [->|Ha0]; destruct (Z.eq_dec b 0) as [->|Hb0].
  - reflexivity.
  - rewrite (Z2SF_pos b) by lia. change (Z2SF 0) with (S754_zero false).
    cbn [SFsub canon negb]. replace (0 - b) with (- b) by lia.
    rewrite Z2SF_neg by lia. reflexivity.
  - rewrite Z.sub_0_r. rewrite (Z2SF_pos a) by lia. reflexivity.
  - rewrite (Z2SF_pos a), (Z2SF_pos b) by lia. unfold canon. cbn [SFsub].
    assert (Ea := cexp_bounds a ltac:(lia)). assert (Eb := cexp_bounds b ltac:(lia)).
    set (ez := Z.min (cexp a) (cexp b)).
    rewrite !shl_align_fst by (unfold ez; lia).
    cbn [cond_Zopp].
    rewrite !canon_aligned by (unfold ez; lia).
    replace (a * 2 ^ (- ez) - b * 2 ^ (- ez)) with ((a - b) * 2 ^ (- ez)) by ring.
    replace ez with (- (- ez)) at 2 by lia.
    apply binary_normalize_exact; unfold ez; lia.
Qed.

Lemma cman_lt_mono a b :
  0 < a < 2 ^ 53 -> 0 < b < 2 ^ 53 -> cexp a = cexp b ->
  (cman a ?= cman b) = (a ?= b).
Proof.
  intros Ha Hb He. unfold cman, cexp in *.
  replace (Zdigits2 b) with (Zdigits2 a) by lia.
  assert (Hc := cexp_bounds a Ha). unfold cexp in Hc.
  assert (Hp : 0 < 2 ^ (53 - Zdigits2 a)) by (apply Z.pow_pos_nonneg; lia).
  destruct (Z.compare_spec a b) as [->|Hl|Hg].
  - apply Z.compare_refl.
  - apply Z.compare_lt_iff. nia.
  - apply Z.compare_gt_iff. nia.
Qed.

Lemma cexp_lt a b :
  0 < a < 2 ^ 53 -> 0 < b < 2 ^ 53 -> cexp a < cexp b -> a < b.
Proof.
  intros Ha Hb He. unfold cexp in He.
  assert (Ba := Zdigits2_bounds a ltac:(lia)). assert (Bb := Zdigits2_bounds b ltac:(lia)).
  assert (Pa := Zdigits2_pos a ltac:(lia)).
  assert (2 ^ Zdigits2 a <= 2 ^ (Zdigits2 b - 1)) by (apply Z.pow_le_mono_r; lia).
  lia.
Qed.

Lemma js_lt_Z2SF a b :
  - 2 ^ 53 < a < 2 ^ 53 -> 0 < b < 2 ^ 53 ->
  js_lt (Z2SF a) (Z2SF b) = (a <? b).
Proof.
  intros Ha Hb. unfold js_lt, SFltb.
  rewrite (Z2SF_pos b) by lia.
  destruct (Z.lt_trichotomy a 0) as [Hneg|[->|Hpos]].
  - replace a with (- (- a)) at 1 by lia. rewrite Z2SF_neg by lia.
    cbn. symmetry. apply Z.ltb_lt. lia.
  - cbn. symmetry. apply Z.ltb_lt. lia.
  - rewrite (Z2SF_pos a) by lia. unfold canon. cbn [SFcompare].
    destruct (Z.compare_spec (cexp a) (cexp b)) as [He|He|He].
    + change (Pos.compare_cont Eq (Z.to_pos (cman a)) (Z.to_pos (cman b)))
        with (Pos.compare (Z.to_pos (cman a)) (Z.to_pos (cman b))).
      rewrite Pos2Z.inj_compare.
      pose proof (cman_bounds a ltac:(lia)). pose proof (cman_bounds b ltac:(lia)).
      rewrite !Z2Pos.id by lia. rewrite cman_lt_mono by lia.
      unfold Z.ltb. destruct (a ?= b); reflexivity.
    + symmetry. apply Z.ltb_lt. apply cexp_lt; lia.
    + symmetry. apply Z.ltb_ge. pose proof (cexp_lt b a). lia.
Qed.

(** Ceiling of one rounded division of safe integers.  A negative quotient in
    (-1, 0) gives negative zero, as [Math.ceil] preserves the sign. *)
Theorem ceil_div_single d m :
  - 2 ^ 53 < d < 2 ^ 53 -> 0 < m < 2 ^ 53 ->
  Math_ceil (js_div (Z2SF d) (Z2SF m)) =
  if (d <? 0) && (ceil_div d m =? 0) then S754_zero true else Z2SF (ceil_div d m).
Proof.
  intros Hd Hm.
  assert (Bm := canon_mantissa m ltac:(lia)). assert (Em := cexp_bounds m ltac:(lia)).
  rewrite (Z2SF_pos m) by lia.
  destruct (Z.lt_trichotomy d 0) as [Hneg|[->|Hpos]].
  - (* negative numerator *)
    replace (d <? 0) with true by (symmetry; apply Z.ltb_lt; lia). cbn [andb].
    set (n := - d). assert (Hn : 0 < n < 2 ^ 53) by (unfold n; lia).
    replace d with (- n) at 1 by (unfold n; lia). rewrite Z2SF_neg by lia.
    unfold ceil_div. fold n. set (k := n / m).
    assert (Hdm := Z.div_mod n m ltac:(lia)). fold k in Hdm.
    assert (Hmod := Z.mod_pos_bound n m ltac:(lia)).
    assert (Hk0 : 0 <= k) by (apply Z.div_pos; lia).
    assert (Bn := canon_mantissa n Hn). assert (En := cexp_bounds n Hn).
    unfold canon, js_div.
    destruct (SFdiv_nearest true _ (cexp n) false _ (cexp m) Bn Bm ltac:(lia) ltac:(lia))
      as (mb & eb & Hb & Hmb & Heb & Hnb).
    rewrite Hb. cbn [xorb].
    assert (Hnb' : nearest (F2Q (Zpos mb) eb) (inject_Z n / inject_Z m)).
    { eapply nearest_ext; [reflexivity| |exact Hnb].
      rewrite (canon_value' n), (canon_value' m) by lia. reflexivity. }
    rewrite (Math_ceil_neg mb eb k Hmb); [|nia| |].
    + destruct (Z.eqb_spec k 0) as [->|Hk]; [reflexivity|].
      replace (- k =? 0) with false by (symmetry; apply Z.eqb_neq; lia). reflexivity.
    + apply (round_div_ge _ _ m k Hnb'); [lia|nia|]. rewrite <- Zle_Qle. nia.
    + apply (round_div_lt _ _ m (k + 1) Hnb'); try lia.
      change 1%Q with (inject_Z 1). rewrite <- inject_Z_minus, <- Zle_Qle. nia.
  - unfold ceil_div. simpl (- 0). rewrite Z.div_0_l by lia. reflexivity.
  - replace (d <? 0) with false by (symmetry; apply Z.ltb_ge; lia). cbn [andb].
    set (K := ceil_div d m).
    assert (HK := ceil_div_spec d m ltac:(lia)). fold K in HK.
    assert (HK1 : 1 <= K) by nia. assert (HKd : K <= d) by nia.
    assert (Bd := canon_mantissa d ltac:(lia)). assert (Ed := cexp_bounds d ltac:(lia)).
    rewrite (Z2SF_pos d) by lia. unfold canon, js_div.
    destruct (SFdiv_nearest false _ (cexp d) false _ (cexp m) Bd Bm ltac:(lia) ltac:(lia))
      as (mb & eb & Hb & Hmb & Heb & Hnb).
    rewrite Hb. cbn [xorb].
    assert (Hnb' : nearest (F2Q (Zpos mb) eb) (inject_Z d / inject_Z m)).
    { eapply nearest_ext; [reflexivity| |exact Hnb].
      rewrite (canon_value' d), (canon_value' m) by lia. reflexivity. }
    apply Math_ceil_pos; [exact Hmb|lia| |].
    + destruct (Z.eq_dec K 1) as [HK1'|HK1'].
      * rewrite HK1'. apply F2Q_pos. lia.
      * assert (Hkm : 0 < (K - 1) * m) by nia.
        assert (Hl := log2_bounds _ Hkm).
        assert (Hl' : Z.log2 ((K - 1) * m) < 53) by (apply log2_lt_pow; lia).
        assert (Hnn := Z.log2_nonneg ((K - 1) * m)).
        apply (round_div_gt _ _ m (K - 1) (Z.log2 ((K - 1) * m)) Hnb'); try lia.
        assert (Hpw : (pow2 (Z.log2 ((K - 1) * m) - 52) <= pow2 0)%Q)
          by (apply pow2_le; lia).
        change (pow2 0) with 1%Q in Hpw.
        assert (Hq : (inject_Z ((K - 1) * m) + 1 <= inject_Z d)%Q).
        { change 1%Q with (inject_Z 1). rewrite <- inject_Z_plus, <- Zle_Qle. lia. }
        lra.
    + apply (round_div_le _ _ m K Hnb'); [lia|lia|]. rewrite <- Zle_Qle. lia.
Qed.

End NumFacts.
Import NumFacts.

(** * The requirement calculator *)

Lemma Qceiling_div a b :
  0 < b -> Qceiling (inject_Z a / inject_Z b) = ceil_div a b.
Proof.
  intros Hb. symmetry. apply ceil_div_unique; [exact Hb|].
  assert (Hbq : (0 < inject_Z b)%Q) by (rewrite <- (Zlt_Qlt 0); exact Hb).
  set (x := (inject_Z a / inject_Z b)%Q).
  assert (Hx : (x * inject_Z b == inject_Z a)%Q) by (unfold x; field; lra).
  assert (Hup := Qle_ceiling x). assert (Hlo := Qceiling_lt x).
  rewrite inject_Z_minus in Hlo.
  split.
  - rewrite Zlt_Qlt, inject_Z_mult, inject_Z_minus. change (inject_Z 1) with 1%Q in *.
    nra.
  - rewrite Zle_Qle, inject_Z_mult. nra.
Qed.

Lemma spec_weekly_ceil_div p m : 0 < m -> spec_weekly p m = ceil_div p (7 * m).
Proof.
  intros Hm. rewrite <- Qceiling_div by lia. unfold spec_weekly.
  apply Qceiling_comp. rewrite inject_Z_mult.
  assert (Hmq : (0 < inject_Z m)%Q) by (rewrite <- (Zlt_Qlt 0); exact Hm).
  change (inject_Z 7) with 7%Q. field. lra.
Qed.

Lemma spec_season_ceil_div p s m : 0 < m -> spec_season p s m = ceil_div (p - s) m.
Proof.
  intros Hm. rewrite <- Qceiling_div by lia. unfold spec_season.
  rewrite inject_Z_minus. reflexivity.
Qed.

Lemma top_info_array l :
  top_info (VArr l) = Ok (List.map (fun '(key, i) => (key, nth i l VUndefined)) milestones).
Proof. reflexivity. Qed.

Lemma nth_entry (es : list (Z * Z)) (i : nat) :
  (i < length es)%nat -> nth i (List.map entry es) VUndefined = entry (nth i es (0, 0)).
Proof.
  intros Hi. rewrite (nth_indep _ VUndefined (entry (0, 0))) by (rewrite length_map; exact Hi).
  apply map_nth.
Qed.

Lemma weekly_step (key : string) (e : Z * Z) (m : Z) :
  safe (fst e) -> 0 < m < 2 ^ 53 ->
  (let* d := weekly_daily (entry e) (VNum (Z2SF m)) in
   let* value' := set_field (entry e) "dailyMemberRaces" (VNum d) in
   Ok (key, value')) =
  Ok (key, requirement e (Z2SF (spec_weekly (fst e) m))).
Proof.
  intros Hp Hm. unfold weekly_daily, entry. cbn.
  rewrite ceil_div7_div by assumption.
  rewrite spec_weekly_ceil_div by lia. reflexivity.
Qed.

(** C1, amended.  For every leaderboard of at least 100 entries whose race
    counts are integers a double holds exactly, and every positive member
    count that a double holds exactly, the
    weekly requirement at each of the five milestones (ranks 1, 3, 10, 50, 100,
    read at indices 0, 2, 9, 49, 99) is the entry there with
    [dailyMemberRaces] equal to [ceil(racesPlayed / 7 / memberCount)] taken
    over the rationals: the two rounded divisions of the script never change
    the ceiling, divisible or not. *)
Theorem C1_weekly_daily_races (es : list (Z * Z)) (m : Z) :
  (100 <= length es)%nat ->
  Forall (fun e => safe (fst e)) es ->
  0 < m < 2 ^ 53 ->
  weekly_requirements (VArr (List.map entry es)) (VNum (Z2SF m)) =
  Ok (List.map (fun '(key, i) =>
                  let e := nth i es (0, 0) in
                  (key, requirement e (Z2SF (spec_weekly (fst e) m))))
        milestones).
Proof.
  intros Hlen Hsafe Hm.
  assert (Hnth : forall i, (i < length es)%nat -> safe (fst (nth i es (0, 0)))).
  { intros i Hi. rewrite List.Forall_forall in Hsafe. apply Hsafe. apply nth_In. exact Hi. }
  unfold weekly_requirements. rewrite top_info_array.
  cbn [milestones List.map obind assign_daily omapM].
  rewrite !nth_entry by lia.
  rewrite !weekly_step by (try apply Hnth; lia).
  reflexivity.
Qed.

Lemma C1_witness :
  weekly_requirements (VArr (List.map entry (repeat (700, 50000) 100)))
    (VNum (Z2SF 10)) =
  Ok (List.map (fun '(key, i) =>
                  let e := nth i (repeat (700, 50000) 100) (0, 0) in
                  (key, requirement e (Z2SF (spec_weekly (fst e) 10))))
        milestones).
Proof.
  apply C1_weekly_daily_races.
  - rewrite repeat_length. lia.
  - apply List.Forall_forall. intros e He. apply repeat_spec in He. subst e.
    unfold safe. simpl. lia.
  - lia.
Defined.

Lemma season_double_eq p s m :
  safe p -> safe s -> 0 < m < 2 ^ 53 ->
  Math_ceil (js_div (js_sub (Z2SF p) (Z2SF s)) (Z2SF m)) = season_double p s m.
Proof.
  unfold safe. intros Hp Hs Hm.
  rewrite js_sub_exact by assumption.
  rewrite ceil_div_single by lia.
  unfold season_double. rewrite spec_season_ceil_div by lia.
  replace (p - s <? 0) with (p <? s); [reflexivity|].
  destruct (Z.ltb_spec p s), (Z.ltb_spec (p - s) 0); try reflexivity; lia.
Qed.

Lemma season_step (key : string) (e : Z * Z) (s m : Z) :
  safe (fst e) -> safe s -> 0 < m < 2 ^ 53 ->
  (let* d := season_daily (entry e) (VNum (Z2SF s)) (VNum (Z2SF m)) in
   let* value' := set_field (entry e) "dailyMemberRaces" (VNum d) in
   Ok (key, value')) =
  Ok (key, requirement e (season_double (fst e) s m)).
Proof.
  intros Hp Hs Hm. unfold season_daily, entry. cbn.
  rewrite season_double_eq by assumption. reflexivity.
Qed.

Lemma Z2SF_value n : - 2 ^ 53 < n < 2 ^ 53 -> (SF2Q (Z2SF n) == inject_Z n)%Q.
Proof.
  intros Hn. destruct (Z.lt_trichotomy n 0) as [Hneg|[->|Hpos]].
  - replace n with (- (- n)) at 1 by lia. rewrite Z2SF_neg by lia.
    unfold canon, SF2Q. rewrite canon_value' by lia.
    rewrite inject_Z_opp. ring.
  - reflexivity.
  - rewrite Z2SF_pos by lia. unfold canon, SF2Q. apply canon_value'. lia.
Qed.

Lemma ceil_div_bounds a b :
  0 < b -> Z.abs (ceil_div a b) <= Z.abs a.
Proof.
  intros Hb. pose proof (ceil_div_spec a b Hb). nia.
Qed.

(** C2, amended.  For every leaderboard of at least 100 entries, every
    positive member count and every non-negative [seasonRacesPlayed] (all
    integers a double holds exactly), the season requirement at each
    milestone is the entry there with [dailyMemberRaces] numerically equal to
    [ceil((racesPlayed - seasonRacesPlayed) / memberCount)] over the
    rationals, passed through unmodified.  When [seasonRacesPlayed] exceeds
    [racesPlayed] the result is never positive: it is negative when the gap is
    at least [memberCount], and it is negative zero when the gap is smaller,
    since the ceiling rounds toward zero. *)
Theorem C2_season_daily_races (es : list (Z * Z)) (s m : Z) :
  (100 <= length es)%nat ->
  Forall (fun e => safe (fst e)) es ->
  safe s ->
  0 < m < 2 ^ 53 ->
  season_requirements (VArr (List.map entry es)) (VNum (Z2SF s)) (VNum (Z2SF m)) =
    Ok (List.map (fun '(key, i) =>
                    let e := nth i es (0, 0) in
                    (key, requirement e (season_double (fst e) s m)))
          milestones) /\
  forall p, safe p ->
    (SF2Q (season_double p s m) == inject_Z (spec_season p s m))%Q /\
    (p < s ->
       (m <= s - p ->
          spec_season p s m < 0 /\
          season_double p s m = Z2SF (spec_season p s m)) /\
       (s - p < m ->
          spec_season p s m = 0 /\
          season_double p s m = S754_zero true)).
Proof.
  intros Hlen Hsafe Hs Hm. split.
  - assert (Hnth : forall i, (i < length es)%nat -> safe (fst (nth i es (0, 0)))).
    { intros i Hi. rewrite List.Forall_forall in Hsafe. apply Hsafe. apply nth_In. exact Hi. }
    unfold season_requirements. rewrite top_info_array.
    cbn [milestones List.map obind assign_daily omapM].
    rewrite !nth_entry by lia.
    rewrite !season_step by (try apply Hnth; try assumption; lia).
    reflexivity.
  - intros p Hp. unfold safe in *.
    assert (Hc := ceil_div_spec (p - s) m ltac:(lia)).
    assert (Hb := ceil_div_bounds (p - s) m ltac:(lia)).
    unfold season_double. rewrite spec_season_ceil_div by lia.
    set (c := ceil_div (p - s) m) in *.
    split.
    + destruct ((p <? s) && (c =? 0)) eqn:E.
      * apply andb_prop in E. destruct E as [_ E]. apply Z.eqb_eq in E. rewrite E.
        reflexivity.
      * apply Z2SF_value. lia.
    + intros Hlt. replace (p <? s) with true by (symmetry; apply Z.ltb_lt; lia).
      cbn [andb]. split.
      * intros Hgap. assert (c < 0) by nia.
        split; [assumption|].
        replace (c =? 0) with false by (symmetry; apply Z.eqb_neq; lia). reflexivity.
      * intros Hgap. assert (c = 0) by nia.
        split; [assumption|].
        replace (c =? 0) with true by (symmetry; apply Z.eqb_eq; lia). reflexivity.
Qed.

Lemma C2_witness :
  season_requirements (VArr (List.map entry (repeat (5000, 0) 100)))
    (VNum (Z2SF 3000)) (VNum (Z2SF 25)) =
    Ok (List.map (fun '(key, i) =>
                    let e := nth i (repeat (5000, 0) 100) (0, 0) in
                    (key, requirement e (season_double (fst e) 3000 25)))
          milestones) /\
  forall p, safe p ->
    (SF2Q (season_double p 3000 25) == inject_Z (spec_season p 3000 25))%Q /\
    (p < 3000 ->
       (25 <= 3000 - p ->
          spec_season p 3000 25 < 0 /\
          season_double p 3000 25 = Z2SF (spec_season p 3000 25)) /\
       (3000 - p < 25 ->
          spec_season p 3000 25 = 0 /\
          season_double p 3000 25 = S754_zero true)).
Proof.
  apply C2_season_daily_races.
  - rewrite repeat_length. lia.
  - apply List.Forall_forall. intros e He. apply repeat_spec in He. subst e.
    unfold safe. simpl. lia.
  - unfold safe. lia.
  - lia.
Defined.

(** C2 as stated fails: with 5 races played by the milestone team, 6 by the
    requesting team and 10 members, the season requirement is negative zero,
    which is not a negative number. *)
Lemma C2_counterexample :
  exists info d,
    season_requirements (VArr (List.map entry (repeat (5, 0) 100)))
      (VNum (Z2SF 6)) (VNum (Z2SF 10)) = Ok info /\
    get_field (lookup_field "top1" info) "dailyMemberRaces" = Ok (VNum d) /\
    5 < 6 /\
    js_lt d (Z2SF 0) = false /\
    ~ (SF2Q d < 0)%Q.
Proof.
  eexists. exists (S754_zero true).
  split; [vm_compute; reflexivity|].
  split; [reflexivity|].
  split; [lia|].
  split; [reflexivity|].
  intros H. discriminate H.
Qed.

(** * The fetch operations *)

Ltac simp :=
  cbn -[pretty Z2SF JSON_stringify json_norm String.append insert lookup TTL js_sub js_lt
        js_div Math_ceil].

Lemma bind_lift {A B} (o : outcome A) (k : A -> M B) w :
  bind (lift o) k w =
  match o with
  | Ok a => k a w
  | Throw e => Build_run (Throw e) w []
  | Unmodelled => Build_run Unmodelled w []
  end.
Proof.
  unfold bind, lift. destruct o; cbn; [destruct (k a w)|..]; reflexivity.
Qed.

Lemma bind_getItem {B} key (k : value -> M B) w :
  bind (getItem key) k w =
  k (match storage w !! key with Some t => VStr t | None => VNull end) w.
Proof. unfold bind, getItem. cbn. destruct (k _ w). reflexivity. Qed.

Lemma is_fresh_run x w : is_fresh x w = Build_run (freshness x (clock w)) w [].
Proof.
  unfold is_fresh, freshness. destruct (truthy x); [|reflexivity].
  unfold bind, Date_now, lift, ret. cbn.
  destruct (get_field x "timestamp") as [ts| |]; cbn; try reflexivity.
  destruct (to_number ts); reflexivity.
Qed.

Lemma bind_is_fresh {B} x (k : bool -> M B) w :
  bind (is_fresh x) k w =
  match freshness x (clock w) with
  | Ok b => k b w
  | Throw e => Build_run (Throw e) w []
  | Unmodelled => Build_run Unmodelled w []
  end.
Proof.
  unfold bind. rewrite is_fresh_run.
  destruct (freshness x (clock w)); cbn; [destruct (k a w)|..]; reflexivity.
Qed.

Lemma perform_cached_fetch op net tag w :
  perform op net tag w = cached_fetch op net tag w.
Proof.
  destruct op; unfold perform, cached_fetch, fetchTeamStats,
    getWeeklyLeaderBoardInfoStats, getSeasonLeaderBoardInfoStats, try_catch, network_branch;
    cbn [cache_key payload_field log_prefix failure_prefix request_url payload_of];
    rewrite !bind_getItem;
    set (item := match storage w !! _ with Some t => VStr t | None => VNull end);
    rewrite !bind_lift; destruct (JSON_parse item) as [x| |]; try reflexivity;
    rewrite !bind_is_fresh; destruct (freshness x (clock w)) as [[|]| |]; try reflexivity.
  all: unfold bind, fetch, response_json, Date_now, setItem, ret, throw, lift,
         console_error, rethrow; simp;
       destruct (net _) as [|r]; [reflexivity|]; simp;
       destruct (ok r); [|reflexivity]; simp;
       destruct (body r) as [json|]; [|reflexivity]; simp; try reflexivity;
       destruct (get_field json "results") as [results| |]; try reflexivity; simp;
       destruct (get_field results "scores"); reflexivity.
Qed.

Lemma network_branch_run op net tag w :
  try_catch (network_branch op net tag) (rethrow op) w = network_run op net tag w.
Proof.
  unfold try_catch, network_branch, network_run, bind, fetch, response_json, Date_now,
    setItem, ret, throw, lift, console_error, rethrow, cache_entry.
  destruct (net (request_url op tag)) as [|r]; [reflexivity|]. simp.
  destruct (ok r); [|reflexivity]. simp.
  destruct (body r) as [json|]; [|reflexivity]. simp.
  destruct (payload_of op json); reflexivity.
Qed.

(** Every run of an operation, by the state of its cache entry. *)
Lemma cached_fetch_run op net tag w :
  cached_fetch op net tag w =
  match JSON_parse (match storage w !! cache_key op with
                    | Some t => VStr t
                    | None => VNull
                    end) with
  | Ok x =>
      match freshness x (clock w) with
      | Ok true =>
          match get_field x (payload_field op) with
          | Ok v => Build_run (Ok v) w []
          | Throw e => Build_run (Throw e) w [ELog (log_prefix op) e]
          | Unmodelled => Build_run Unmodelled w []
          end
      | Ok false => network_run op net tag w
      | Throw e => Build_run (Throw e) w [ELog (log_prefix op) e]
      | Unmodelled => Build_run Unmodelled w []
      end
  | Throw e => Build_run (Throw e) w [ELog (log_prefix op) e]
  | Unmodelled => Build_run Unmodelled w []
  end.
Proof.
  rewrite <- network_branch_run.
  unfold cached_fetch. unfold try_catch at 1.
  rewrite bind_getItem.
  set (item := match storage w !! _ with Some t => VStr t | None => VNull end).
  rewrite bind_lift. destruct (JSON_parse item) as [x| |]; try reflexivity.
  rewrite bind_is_fresh. destruct (freshness x (clock w)) as [[|]| |]; try reflexivity.
  unfold lift. destruct (get_field x (payload_field op)); reflexivity.
Qed.

Lemma json_norm_Z2SF t : safe t -> json_norm (VNum (Z2SF t)) = VNum (Z2SF t).
Proof.
  unfold safe. intros Ht. destruct (Z.eq_dec t 0) as [->|]; [reflexivity|].
  rewrite Z2SF_pos by lia. reflexivity.
Qed.

Lemma json_norm_entry k payload t :
  serializable payload -> safe t ->
  json_norm (VObj [(k, payload); ("timestamp", VNum (Z2SF t))]) =
  VObj [(k, payload); ("timestamp", VNum (Z2SF t))].
Proof.
  intros [Hu Hn] Ht. pose proof (json_norm_Z2SF t Ht) as Hz.
  destruct (Z.eq_dec t 0) as [->|Ht0].
  - destruct payload; try congruence; cbn in Hn |- *; rewrite ?Hn; reflexivity.
  - unfold safe in Ht. rewrite Z2SF_pos in Hz |- * by lia. unfold canon in *.
    destruct payload; try congruence; cbn in Hn |- *; rewrite ?Hn; reflexivity.
Qed.

Lemma TTL_value : TTL = Z2SF twenty_minutes.
Proof. reflexivity. Qed.

Lemma freshness_entry op payload t now :
  safe t -> safe now ->
  freshness (VObj [(payload_field op, payload); ("timestamp", VNum (Z2SF t))]) now =
  Ok (now - t <? twenty_minutes).
Proof.
  unfold safe. intros Ht Hnow. unfold freshness. cbn [truthy get_field obind].
  replace (lookup_field "timestamp"
             [(payload_field op, payload); ("timestamp", VNum (Z2SF t))])
    with (VNum (Z2SF t)) by (destruct op; reflexivity).
  cbn [to_number obind].
  rewrite js_sub_exact, TTL_value, js_lt_Z2SF by (unfold twenty_minutes; lia).
  reflexivity.
Qed.

Lemma payload_entry op payload t :
  get_field (VObj [(payload_field op, payload); ("timestamp", VNum (Z2SF t))])
    (payload_field op) = Ok payload.
Proof. destruct op; reflexivity. Qed.

Lemma parse_cache_entry op payload t :
  serializable payload -> safe t ->
  JSON_parse (VStr (cache_entry op payload t)) =
  Ok (VObj [(payload_field op, payload); ("timestamp", VNum (Z2SF t))]).
Proof.
  intros Hs Ht. unfold cache_entry, JSON_stringify, JSON_parse, parse_text.
  rewrite !json_norm_entry by assumption. reflexivity.
Qed.

(** A fresh entry is served from the cache, without a request. *)
Lemma cached_fetch_hit op net tag w payload t :
  storage w !! cache_key op = Some (cache_entry op payload t) ->
  serializable payload -> safe t -> safe (clock w) ->
  clock w - t < twenty_minutes ->
  cached_fetch op net tag w = Build_run (Ok payload) w [].
Proof.
  intros Hst Hs Ht Hc Hfresh. rewrite cached_fetch_run, Hst.
  rewrite parse_cache_entry, freshness_entry by assumption.
  replace (clock w - t <? twenty_minutes) with true by (symmetry; apply Z.ltb_lt; lia).
  rewrite payload_entry. reflexivity.
Qed.

(** A stale entry sends the operation to the network. *)
Lemma cached_fetch_stale op net tag w payload t :
  storage w !! cache_key op = Some (cache_entry op payload t) ->
  serializable payload -> safe t -> safe (clock w) ->
  twenty_minutes <= clock w - t ->
  cached_fetch op net tag w = network_run op net tag w.
Proof.
  intros Hst Hs Ht Hc Hstale. rewrite cached_fetch_run, Hst.
  rewrite parse_cache_entry, freshness_entry by assumption.
  replace (clock w - t <? twenty_minutes) with false by (symmetry; apply Z.ltb_ge; lia).
  reflexivity.
Qed.

Lemma cached_fetch_absent op net tag w :
  storage w !! cache_key op = None ->
  cached_fetch op net tag w = network_run op net tag w.
Proof. intros Hst. rewrite cached_fetch_run, Hst. reflexivity. Qed.

Lemma cached_fetch_miss op net tag w :
  cache_miss op w -> cached_fetch op net tag w = network_run op net tag w.
Proof.
  intros (x & Hp & Hf). rewrite cached_fetch_run, Hp, Hf. reflexivity.
Qed.

Lemma requests_network_run op net tag w :
  requests (trace (network_run op net tag w)) = 1%nat.
Proof.
  unfold network_run. destruct (net _) as [|r]; [reflexivity|].
  destruct (ok r); [|reflexivity].
  destruct (body r) as [json|]; [|reflexivity].
  destruct (payload_of op json); reflexivity.
Qed.

Lemma network_run_storage op net tag w w' :
  clock w' = clock w ->
  res (network_run op net tag w') = res (network_run op net tag w) /\
  trace (network_run op net tag w') = trace (network_run op net tag w).
Proof.
  intros _. unfold network_run. destruct (net _) as [|r]; [split; reflexivity|].
  destruct (ok r); [|split; reflexivity].
  destruct (body r) as [json|]; [|split; reflexivity].
  destruct (payload_of op json); split; reflexivity.
Qed.

(** C3.  Cache round trip on one clock, for each of the three operations.
    When an operation misses its cache and the request succeeds, it returns
    the payload and stores it under its key with [timestamp] equal to the
    clock reading at the write.  A later call that finds this entry returns
    the identical payload, without a request, whenever the clock then reads
    less than 20 minutes more than the timestamp; once 20 minutes or more
    have elapsed it behaves as with no entry at all and issues the
    request. *)
Theorem C3_cache_round_trip (op : operation) (net net' : network) (tag tag' : string)
    (w w' : world) (r : response) (json payload : value) :
  cache_miss op w ->
  net (request_url op tag) = NetResp r ->
  ok r = true ->
  body r = Some json ->
  payload_of op json = Ok payload ->
  serializable payload ->
  safe (received r) ->
  safe (clock w') ->
  let written := perform op net tag w in
  storage w' !! cache_key op = storage (final written) !! cache_key op ->
  let absent := {| storage := delete (cache_key op) (storage w'); clock := clock w' |} in
  res written = Ok payload /\
  storage (final written) !! cache_key op =
    Some (cache_entry op payload (clock (final written))) /\
  clock (final written) = received r /\
  (clock w' - received r < twenty_minutes ->
     perform op net' tag' w' = Build_run (Ok payload) w' []) /\
  (twenty_minutes <= clock w' - received r ->
     res (perform op net' tag' w') = res (perform op net' tag' absent) /\
     trace (perform op net' tag' w') = trace (perform op net' tag' absent) /\
     requests (trace (perform op net' tag' w')) = 1%nat).
Proof.
  intros Hmiss Hnet Hok Hbody Hpay Hser Ht Hnow written Hentry absent.
  assert (Hw : written =
               Build_run (Ok payload)
                 {| storage := <[cache_key op := cache_entry op payload (received r)]>
                                 (storage w);
                    clock := received r |}
                 [EFetch (request_url op tag)]).
  { unfold written. rewrite perform_cached_fetch, cached_fetch_miss by assumption.
    unfold network_run. rewrite Hnet, Hok, Hbody, Hpay. reflexivity. }
  rewrite Hw in Hentry |- *. cbn [res final trace storage clock] in Hentry |- *.
  rewrite lookup_insert_eq in Hentry |- *.
  repeat split.
  - intros Hfresh. rewrite perform_cached_fetch.
    apply (cached_fetch_hit op net' tag' w' payload (received r)); assumption.
  - rewrite !perform_cached_fetch.
    rewrite (cached_fetch_stale op net' tag' w' payload (received r)) by assumption.
    rewrite (cached_fetch_absent op net' tag' absent) by apply lookup_delete_eq.
    symmetry. apply (network_run_storage op net' tag' w' absent). reflexivity.
  - rewrite !perform_cached_fetch.
    rewrite (cached_fetch_stale op net' tag' w' payload (received r)) by assumption.
    rewrite (cached_fetch_absent op net' tag' absent) by apply lookup_delete_eq.
    symmetry. apply (network_run_storage op net' tag' w' absent). reflexivity.
  - rewrite perform_cached_fetch.
    rewrite (cached_fetch_stale op net' tag' w' payload (received r)) by assumption.
    apply requests_network_run.
Qed.

(** Text that is empty, or starts with a character no JSON text starts
    with, is no JSON text. *)
Lemma not_json_invalid s : not_json s = true -> valid_json s = false.
Proof.
  destruct s as [|c r]; [reflexivity|].
  unfold not_json, valid_json. cbn [scan]. intros Hc.
  assert (H : scan_step BeforeValue [] c = None).
  { destruct c as [[] [] [] [] [] [] [] []]; try discriminate Hc; reflexivity. }
  rewrite H. reflexivity.
Qed.

Lemma requests_only_on_miss op net tag w :
  requests (trace (cached_fetch op net tag w)) <> 0%nat -> cache_miss op w.
Proof.
  rewrite cached_fetch_run. unfold cache_miss.
  destruct (JSON_parse _) as [x| |] eqn:Hparse; cbn; try congruence.
  destruct (freshness x (clock w)) as [[|]| |] eqn:Hfresh; cbn; try congruence.
  - destruct (get_field x (payload_field op)); cbn; congruence.
  - intros _. exists x. split; [reflexivity|exact Hfresh].
Qed.

(** C4, amended.  For every fetch operation, stored cache text that is not a
    JSON text makes [JSON.parse] throw inside the operation's [try]: the
    [SyntaxError] is logged and thrown again to the caller, no request is
    issued, and the store is left as it was.  Nothing treats such an entry
    as absent: an operation reaches the network exactly on a cache miss,
    that is with an absent entry, which gives one request, or with an entry
    that parses and is not fresh. *)
Theorem C4_malformed_cache_is_rethrown (op : operation) (net : network) (tag : string)
    (w : world) (s : string) :
  storage w !! cache_key op = Some (Raw s) ->
  valid_json s = false ->
  perform op net tag w =
    Build_run (Throw SyntaxError) w [ELog (log_prefix op) SyntaxError] /\
  requests (trace (perform op net tag w)) = 0%nat /\
  (forall w', storage w' !! cache_key op = None ->
     requests (trace (perform op net tag w')) = 1%nat) /\
  (forall w', requests (trace (perform op net tag w')) <> 0%nat <-> cache_miss op w').
Proof.
  intros Hst Hs.
  assert (Hrun : perform op net tag w =
                 Build_run (Throw SyntaxError) w [ELog (log_prefix op) SyntaxError]).
  { rewrite perform_cached_fetch, cached_fetch_run, Hst.
    cbn [JSON_parse parse_text]. rewrite Hs. reflexivity. }
  split; [exact Hrun|]. split; [rewrite Hrun; reflexivity|]. split.
  - intros w' Habs. rewrite perform_cached_fetch, cached_fetch_absent by exact Habs.
    apply requests_network_run.
  - intros w'. rewrite perform_cached_fetch. split.
    + apply requests_only_on_miss.
    + intros Hmiss. rewrite (cached_fetch_miss op net tag w' Hmiss), requests_network_run.
      discriminate.
Qed.

(** C5.  On every cache miss an operation issues exactly one request.  A
    non-success status makes it fail with the error [Failed to fetch ...]
    that carries the status; the error is logged and thrown again, nothing
    is retried and nothing is written.  The caller at top level logs the
    error of a failed operation and goes on with the variables of that
    operation undefined. *)
Theorem C5_single_request_and_failure (op : operation) (net : network) (tag : string)
    (w : world) :
  cache_miss op w ->
  requests (trace (perform op net tag w)) = 1%nat /\
  (forall r, net (request_url op tag) = NetResp r -> ok r = false ->
     let e := Error (failure_prefix op +:+ pretty (status r)) in
     perform op net tag w =
     Build_run (Throw e) w [EFetch (request_url op tag); ELog (log_prefix op) e]) /\
  (forall v e, res (fetchTeamStats net (VStr (Raw tag)) v) = Throw e ->
     let failed := fetchTeamStats net (VStr (Raw tag)) v in
     load_team net (VStr (Raw tag)) v =
     Build_run (Ok (VUndefined, VUndefined)) (final failed)
       (trace failed ++ [ELog "Error retrieving team stats: " e])) /\
  (forall v e, res (getWeeklyLeaderBoardInfoStats net v) = Throw e ->
     let failed := getWeeklyLeaderBoardInfoStats net v in
     load_leaderboards net v =
     Build_run (Ok (VUndefined, VUndefined)) (final failed)
       (trace failed ++ [ELog "Error retrieving leaderboard info: " e])) /\
  (forall v weekly0 weekly e,
     res (getWeeklyLeaderBoardInfoStats net v) = Ok weekly0 ->
     array_map project weekly0 = Ok weekly ->
     let first := getWeeklyLeaderBoardInfoStats net v in
     let failed := getSeasonLeaderBoardInfoStats net (final first) in
     res failed = Throw e ->
     load_leaderboards net v =
     Build_run (Ok (weekly, VUndefined)) (final failed)
       (trace first ++ trace failed ++ [ELog "Error retrieving leaderboard info: " e])).
Proof.
  intros Hmiss. repeat split.
  - rewrite perform_cached_fetch, cached_fetch_miss by assumption.
    apply requests_network_run.
  - intros r Hnet Hok e. rewrite perform_cached_fetch, cached_fetch_miss by assumption.
    unfold network_run. rewrite Hnet, Hok. reflexivity.
  - intros v e He failed. unfold failed. clear failed.
    unfold load_team. unfold try_catch at 1. unfold bind at 1.
    destruct (fetchTeamStats net (VStr (Raw tag)) v) as [o v' tr]. cbn in He. subst o.
    reflexivity.
  - intros v e He failed. unfold failed. clear failed.
    unfold load_leaderboards. unfold try_catch at 1. unfold bind at 1.
    destruct (getWeeklyLeaderBoardInfoStats net v) as [o v' tr]. cbn in He. subst o.
    reflexivity.
  - intros v weekly0 weekly e Hw Hmap first failed He.
    unfold failed, first in *. clear failed first.
    unfold load_leaderboards. unfold try_catch at 1. unfold bind at 1.
    destruct (getWeeklyLeaderBoardInfoStats net v) as [o v' tr]. cbn in Hw. subst o.
    cbn [final] in He |- *.
    unfold try_catch at 1. rewrite bind_lift, Hmap.
    unfold try_catch at 1. unfold bind at 1.
    destruct (getSeasonLeaderBoardInfoStats net v') as [o' v'' tr'']. cbn in He. subst o'.
    reflexivity.
Qed.

(** * The mode toggle *)

Lemma swap_styles_shown c m d :
  shows c m d ->
  weeklyClasses (swap_styles d) = seasonClasses d /\
  seasonClasses (swap_styles d) = weeklyClasses d.
Proof.
  intros (body & _ & _ & _ & [[Hw Hs]|[Hw Hs]]); unfold swap_styles; cbn [weeklyClasses seasonClasses];
    rewrite Hw, Hs; split; reflexivity.
Qed.

Lemma click_rerender m c d :
  click m c d = rerender (info_of m c) (note_of m c) (swap_styles d).
Proof. destruct m; reflexivity. Qed.

Lemma click_shown c m m' d body :
  shows c m d ->
  createTopTeamRequirementsTableBody (info_of m' c) = Ok body ->
  click m' c d =
  ({| weeklyClasses := seasonClasses d;
      seasonClasses := weeklyClasses d;
      bodyElement := Some body;
      footnoteElement := Some (note_of m' c) |}, Ok tt).
Proof.
  intros Hshow Hbody. destruct (swap_styles_shown c m d Hshow) as [Hw Hs].
  destruct Hshow as (body0 & _ & Hb & Hf & _).
  rewrite click_rerender. unfold rerender.
  replace (bodyElement (swap_styles d)) with (Some body0) by (symmetry; exact Hb).
  replace (footnoteElement (swap_styles d)) with (Some (note_of m c)) by (symmetry; exact Hf).
  rewrite Hbody, Hw, Hs. reflexivity.
Qed.

Lemma click_shown_failing c m m' d :
  shows c m d ->
  (forall body, createTopTeamRequirementsTableBody (info_of m' c) <> Ok body) ->
  fst (click m' c d) =
  {| weeklyClasses := seasonClasses d;
     seasonClasses := weeklyClasses d;
     bodyElement := bodyElement d;
     footnoteElement := footnoteElement d |}.
Proof.
  intros Hshow Hbody. destruct (swap_styles_shown c m d Hshow) as [Hw Hs].
  destruct Hshow as (body0 & _ & Hb & Hf & _).
  rewrite click_rerender. unfold rerender.
  replace (bodyElement (swap_styles d)) with (Some body0) by (symmetry; exact Hb).
  destruct (createTopTeamRequirementsTableBody (info_of m' c)) as [b|e|] eqn:E.
  - exfalso. apply (Hbody b). reflexivity.
  - cbn [fst]. unfold swap_styles at 1. cbn. f_equal; assumption.
  - cbn [fst]. unfold swap_styles at 1. cbn. f_equal; assumption.
Qed.

(** C8.  From a document that shows mode [m], a click on the other mode's
    control followed by a click on [m]'s control gives back the very same
    document: table body, footnote and the styles of both controls.  The
    first of the two clicks exchanges the styles of the two controls and puts
    the other mode's requirement set in place of the table body. *)
Theorem C8_toggle_round_trip (c : context) (m : mode) (d : document) :
  shows c m d ->
  let d1 := fst (click (other m) c d) in
  let d2 := fst (click m c d1) in
  d2 = d /\
  bodyElement d2 = bodyElement d /\
  weeklyClasses d1 = seasonClasses d /\
  seasonClasses d1 = weeklyClasses d /\
  forall body1,
    createTopTeamRequirementsTableBody (info_of (other m) c) = Ok body1 ->
    bodyElement d1 = Some body1 /\ footnoteElement d1 = Some (note_of (other m) c).
Proof.
  intros Hshow d1 d2.
  assert (Hshow' := Hshow). destruct Hshow' as (body & Hbody & Hb & Hf & Hcl).
  assert (Hd : d = {| weeklyClasses := weeklyClasses d;
                      seasonClasses := seasonClasses d;
                      bodyElement := Some body;
                      footnoteElement := Some (note_of m c) |}).
  { destruct d. cbn in *. congruence. }
  assert (Hcl' : (seasonClasses d = style_i /\ weeklyClasses d = style_h) \/
                 (seasonClasses d = style_h /\ weeklyClasses d = style_i))
    by (destruct Hcl as [[? ?]|[? ?]]; [right|left]; split; assumption).
  destruct (createTopTeamRequirementsTableBody (info_of (other m) c)) as [b1|e|] eqn:E.
  - assert (H1 : d1 = {| weeklyClasses := seasonClasses d;
                         seasonClasses := weeklyClasses d;
                         bodyElement := Some b1;
                         footnoteElement := Some (note_of (other m) c) |}).
    { unfold d1. rewrite (click_shown c m (other m) d b1 Hshow E). reflexivity. }
    assert (Hshow1 : shows c (other m) d1).
    { rewrite H1. exists b1. cbn. repeat split; assumption. }
    assert (H2 : d2 = d).
    { unfold d2. rewrite (click_shown c (other m) m d1 body Hshow1 Hbody).
      rewrite H1. cbn. symmetry. exact Hd. }
    rewrite H2. rewrite H1. cbn. repeat split; try reflexivity; congruence.
  - assert (Hfail : forall b, createTopTeamRequirementsTableBody (info_of (other m) c) <> Ok b)
      by (intros b; rewrite E; discriminate).
    assert (H1 : d1 = {| weeklyClasses := seasonClasses d;
                         seasonClasses := weeklyClasses d;
                         bodyElement := bodyElement d;
                         footnoteElement := footnoteElement d |}).
    { unfold d1. apply (click_shown_failing c m (other m) d Hshow Hfail). }
    assert (Hshow1 : shows c m d1).
    { rewrite H1. exists body. cbn. repeat split; assumption. }
    assert (H2 : d2 = d).
    { unfold d2. rewrite (click_shown c m m d1 body Hshow1 Hbody).
      rewrite H1. cbn. symmetry. exact Hd. }
    rewrite H2. rewrite H1. cbn. repeat split; try reflexivity; congruence.
  - assert (Hfail : forall b, createTopTeamRequirementsTableBody (info_of (other m) c) <> Ok b)
      by (intros b; rewrite E; discriminate).
    assert (H1 : d1 = {| weeklyClasses := seasonClasses d;
                         seasonClasses := weeklyClasses d;
                         bodyElement := bodyElement d;
                         footnoteElement := footnoteElement d |}).
    { unfold d1. apply (click_shown_failing c m (other m) d Hshow Hfail). }
    assert (Hshow1 : shows c m d1).
    { rewrite H1. exists body. cbn. repeat split; assumption. }
    assert (H2 : d2 = d).
    { unfold d2. rewrite (click_shown c m m d1 body Hshow1 Hbody).
      rewrite H1. cbn. symmetry. exact Hd. }
    rewrite H2. rewrite H1. cbn. repeat split; try reflexivity; congruence.
Qed.

(** C9.  Every click on either control, the active one included, toggles the
    two style classes on both controls and, where the document has a table
    body and the control's mode renders, puts that mode's rows in its place;
    nothing in the listener asks which control is active.  So in a document
    that shows mode [m], a click on [m]'s own control renders the same rows
    and footnote again while the two controls exchange their styles. *)
Theorem C9_click_is_unconditional (c : context) (m : mode) (d : document) :
  let d' := fst (click m c d) in
  weeklyClasses d' = toggle "link--i" (toggle "link--h" (weeklyClasses d)) /\
  seasonClasses d' = toggle "link--i" (toggle "link--h" (seasonClasses d)) /\
  bodyElement d' =
    match bodyElement d, createTopTeamRequirementsTableBody (info_of m c) with
    | Some _, Ok body => Some body
    | old, _ => old
    end /\
  (shows c m d ->
     click m c d =
     ({| weeklyClasses := seasonClasses d;
         seasonClasses := weeklyClasses d;
         bodyElement := bodyElement d;
         footnoteElement := footnoteElement d |}, Ok tt) /\
     weeklyClasses d' <> weeklyClasses d /\
     seasonClasses d' <> seasonClasses d).
Proof.
  intros d'. unfold d'. split; [|split; [|split]].
  - rewrite click_rerender. unfold rerender. destruct d as [wc sc [b|] fe]; cbn;
      [destruct (createTopTeamRequirementsTableBody (info_of m c))|]; reflexivity.
  - rewrite click_rerender. unfold rerender. destruct d as [wc sc [b|] fe]; cbn;
      [destruct (createTopTeamRequirementsTableBody (info_of m c))|]; reflexivity.
  - rewrite click_rerender. unfold rerender. destruct d as [wc sc [b|] fe]; cbn;
      [destruct (createTopTeamRequirementsTableBody (info_of m c))|]; reflexivity.
  - intros Hshow. assert (Hshow' := Hshow).
    destruct Hshow' as (body & Hbody & Hb & Hf & Hcl).
    rewrite (click_shown c m m d body Hshow Hbody). rewrite Hb, Hf. cbn.
    split; [reflexivity|].
    destruct Hcl as [[-> ->]|[-> ->]]; split; discriminate.
Qed.

(** The document right after the widget is put into the page shows the
    weekly mode. *)
Lemma initial_document_shows (c : context) (w : widget) :
  createTopTeamRequirementsWidget (weeklyTopInfo c) (memberCount c) = Ok w ->
  shows c Weekly (document_of w).
Proof.
  unfold createTopTeamRequirementsWidget, createTopTeamRequirementsTable.
  destruct (createTopTeamRequirementsTableBody (weeklyTopInfo c)) as [body| |] eqn:E;
    cbn; try discriminate.
  intros [= <-]. exists body. cbn. repeat split; try assumption.
  left. split; reflexivity.
Qed.

(** A click keeps the document in one of the two shown states. *)
Lemma click_preserves_shows (c : context) (m m' : mode) (d : document) body :
  shows c m d ->
  createTopTeamRequirementsTableBody (info_of m' c) = Ok body ->
  shows c m' (fst (click m' c d)).
Proof.
  intros Hshow Hbody. rewrite (click_shown c m m' d body Hshow Hbody).
  destruct Hshow as (b0 & _ & _ & _ & Hcl).
  exists body. cbn. repeat split; try assumption.
  destruct Hcl as [[-> ->]|[-> ->]]; [right|left]; split; reflexivity.
Qed.

(** * The entry point *)

Lemma userTeamTAG_run w : userTeamTAG w = Build_run (session_tag w) w [].
Proof.
  unfold userTeamTAG, session_tag. rewrite bind_getItem.
  set (item := match storage w !! _ with Some t => VStr t | None => VNull end).
  rewrite bind_lift. destruct (JSON_parse item) as [nt| |]; try reflexivity.
  rewrite bind_lift. cbn [obind].
  destruct (get_field nt "user") as [user| |]; try reflexivity.
  rewrite bind_lift. cbn [obind].
  destruct (JSON_parse user) as [u| |]; reflexivity.
Qed.

Lemma bind_run {A B} (m : M A) (k : A -> M B) w o w' tr :
  m w = Build_run o w' tr ->
  bind m k w =
  match o with
  | Ok a => after tr (k a w')
  | Throw e => Build_run (Throw e) w' tr
  | Unmodelled => Build_run Unmodelled w' tr
  end.
Proof. intros H. unfold bind. rewrite H. reflexivity. Qed.

(** C7.  If the team tag of the persisted session differs from the team tag
    in the page URL, the entry function returns at once: it issues no
    request, logs nothing, inserts nothing into the page and leaves the
    store and the clock as they were. *)
Theorem C7_foreign_team_page_is_left_alone (net : network) (href : string) (pg : page)
    (w : world) (u : value) :
  session_tag w = Ok u ->
  strict_eq u (teamPageTag_of href) = Ok false ->
  main net href pg w = Build_run (Ok Returned) w [].
Proof.
  intros Hu Hne. unfold main.
  rewrite (bind_run _ _ w _ _ _ (userTeamTAG_run w)), Hu. cbn [after].
  rewrite bind_lift, Hne. reflexivity.
Qed.

(** ** Short leaderboards *)

Lemma nth_short {A} (l : list A) (i : nat) (d : A) :
  (length l <= i)%nat -> nth i l d = d.
Proof. apply nth_overflow. Qed.

Lemma weekly_daily_undefined mc : weekly_daily VUndefined mc = Throw TypeError.
Proof. reflexivity. Qed.

Lemma season_daily_undefined sr mc : season_daily VUndefined sr mc = Throw TypeError.
Proof. reflexivity. Qed.

Lemma weekly_step_ok (key : string) (e : Z * Z) (mc : value) :
  numeric mc ->
  exists v,
    (let* d := weekly_daily (entry e) mc in
     let* value' := set_field (entry e) "dailyMemberRaces" (VNum d) in
     Ok (key, value')) = Ok (key, v).
Proof.
  intros [x Hx]. unfold weekly_daily, entry. cbn [get_field lookup_field String.eqb obind].
  cbn [to_number obind]. rewrite Hx. cbn [obind set_field]. eexists. reflexivity.
Qed.

Lemma season_step_ok (key : string) (e : Z * Z) (sr mc : value) :
  numeric sr -> numeric mc ->
  exists v,
    (let* d := season_daily (entry e) sr mc in
     let* value' := set_field (entry e) "dailyMemberRaces" (VNum d) in
     Ok (key, value')) = Ok (key, v).
Proof.
  intros [y Hy] [x Hx]. unfold season_daily, entry.
  cbn [get_field lookup_field String.eqb obind].
  cbn [to_number obind]. rewrite Hy. cbn [obind]. rewrite Hx. cbn [obind set_field].
  eexists. reflexivity.
Qed.

(** One round of the assignment loop over the entry at index [i]: it goes
    through when the index is in range and throws when it is not. *)
Lemma loop_step_cases (daily : value -> outcome number) (es : list (Z * Z)) (key : string)
    (i : nat) :
  (forall e, exists d, daily (entry e) = Ok d) ->
  daily VUndefined = Throw TypeError ->
  let step := (let* d := daily (nth i (List.map entry es) VUndefined) in
               let* value' := set_field (nth i (List.map entry es) VUndefined)
                                "dailyMemberRaces" (VNum d) in
               Ok (key, value')) in
  ((i < length es)%nat /\ exists v, step = Ok (key, v)) \/
  ((length es <= i)%nat /\ step = Throw TypeError).
Proof.
  intros Hok Hundef step. unfold step.
  destruct (lt_dec i (length es)) as [Hlt|Hge].
  - left. split; [exact Hlt|]. rewrite nth_entry by exact Hlt.
    destruct (Hok (nth i es (0, 0))) as [d Hd]. rewrite Hd. cbn. eexists. reflexivity.
  - right. split; [lia|]. rewrite nth_short by (rewrite length_map; lia).
    rewrite Hundef. reflexivity.
Qed.

Lemma assign_daily_boards (daily : value -> outcome number) (es : list (Z * Z)) :
  (forall e, exists d, daily (entry e) = Ok d) ->
  daily VUndefined = Throw TypeError ->
  let loop := (let* info := top_info (VArr (List.map entry es)) in assign_daily daily info) in
  ((100 <= length es)%nat /\ exists info, loop = Ok info) \/
  ((length es < 100)%nat /\ loop = Throw TypeError).
Proof.
  intros Hok Hundef loop. unfold loop. rewrite top_info_array.
  cbn [milestones List.map obind assign_daily omapM].
  destruct (loop_step_cases daily es "top1" 0 Hok Hundef) as [[H1 [v1 E1]]|[H1 E1]];
    cbv zeta in E1; rewrite E1; cbn [obind]; [|right; split; [lia|reflexivity]].
  destruct (loop_step_cases daily es "top3" 2 Hok Hundef) as [[H2 [v2 E2]]|[H2 E2]];
    cbv zeta in E2; rewrite E2; cbn [obind]; [|right; split; [lia|reflexivity]].
  destruct (loop_step_cases daily es "top10" 9 Hok Hundef) as [[H3 [v3 E3]]|[H3 E3]];
    cbv zeta in E3; rewrite E3; cbn [obind]; [|right; split; [lia|reflexivity]].
  destruct (loop_step_cases daily es "top50" 49 Hok Hundef) as [[H4 [v4 E4]]|[H4 E4]];
    cbv zeta in E4; rewrite E4; cbn [obind]; [|right; split; [lia|reflexivity]].
  destruct (loop_step_cases daily es "top100" 99 Hok Hundef) as [[H5 [v5 E5]]|[H5 E5]];
    cbv zeta in E5; rewrite E5; cbn [obind]; [|right; split; [lia|reflexivity]].
  left. split; [lia|]. eexists. reflexivity.
Qed.

Lemma weekly_daily_entry_ok mc :
  numeric mc -> forall e, exists d, weekly_daily (entry e) mc = Ok d.
Proof.
  intros [x Hx] e. unfold weekly_daily, entry. cbn [get_field lookup_field String.eqb obind].
  cbn [to_number obind]. rewrite Hx. eexists. reflexivity.
Qed.

Lemma season_daily_entry_ok sr mc :
  numeric sr -> numeric mc -> forall e, exists d, season_daily (entry e) sr mc = Ok d.
Proof.
  intros [y Hy] [x Hx] e. unfold season_daily, entry.
  cbn [get_field lookup_field String.eqb obind].
  cbn [to_number obind]. rewrite Hy. cbn [obind]. rewrite Hx. eexists. reflexivity.
Qed.

Lemma calculate_boards (ew es : list (Z * Z)) (mc sr : value) :
  numeric mc -> numeric sr ->
  ((100 <= length ew)%nat /\ (100 <= length es)%nat /\
   exists infos, calculate (VArr (List.map entry ew)) (VArr (List.map entry es)) mc sr
                 = Ok infos) \/
  (((length ew < 100)%nat \/ (length es < 100)%nat) /\
   calculate (VArr (List.map entry ew)) (VArr (List.map entry es)) mc sr = Throw TypeError).
Proof.
  intros Hmc Hsr. unfold calculate.
  pose proof (assign_daily_boards (fun v => weekly_daily v mc) ew
                (weekly_daily_entry_ok mc Hmc) (weekly_daily_undefined mc)) as Hw.
  pose proof (assign_daily_boards (fun v => season_daily v sr mc) es
                (season_daily_entry_ok sr mc Hsr Hmc) (season_daily_undefined sr mc)) as Hs.
  cbv zeta in Hw, Hs. rewrite !top_info_array in *. cbn [obind] in *.
  destruct Hw as [[Hlw [iw Ew]]|[Hlw Ew]]; rewrite Ew; cbn [obind].
  - destruct Hs as [[Hls [is' Es]]|[Hls Es]]; rewrite Es; cbn [obind].
    + left. repeat split; try assumption. eexists. reflexivity.
    + right. split; [right; assumption|reflexivity].
  - right. split; [left; assumption|reflexivity].
Qed.

(** ** Nothing is rendered before the calculation *)

Lemma inserts_app tr tr' : inserts (tr ++ tr') = (inserts tr + inserts tr')%nat.
Proof. unfold inserts. rewrite List.filter_app, length_app. reflexivity. Qed.

Lemma inserts_network_run op net tag w :
  inserts (trace (network_run op net tag w)) = 0%nat.
Proof.
  unfold network_run. destruct (net _) as [|r]; [reflexivity|].
  destruct (ok r); [|reflexivity].
  destruct (body r) as [json|]; [|reflexivity].
  destruct (payload_of op json); reflexivity.
Qed.

Lemma inserts_perform op net tag w :
  inserts (trace (perform op net tag w)) = 0%nat.
Proof.
  rewrite perform_cached_fetch, cached_fetch_run.
  destruct (JSON_parse _) as [x| |]; try reflexivity.
  destruct (freshness x (clock w)) as [[|]| |]; try reflexivity.
  - destruct (get_field x (payload_field op)); reflexivity.
  - apply inserts_network_run.
Qed.

Lemma after_trace {A} tr (r : run A) : trace (after tr r) = tr ++ trace r.
Proof. destruct r. reflexivity. Qed.

Lemma after_res {A} tr (r : run A) : res (after tr r) = res r.
Proof. destruct r. reflexivity. Qed.

Lemma quiet_bind {A B} (m : M A) (k : A -> M B) :
  quiet m -> (forall a, quiet (k a)) -> quiet (bind m k).
Proof.
  intros Hm Hk w. specialize (Hm w). unfold bind.
  destruct (m w) as [[a|e|] w' tr]; cbn [trace] in *; try assumption.
  rewrite after_trace, inserts_app, Hm. apply Hk.
Qed.

Lemma quiet_try_catch {A} (m : M A) (h : error -> M A) :
  quiet m -> (forall e, quiet (h e)) -> quiet (try_catch m h).
Proof.
  intros Hm Hh w. specialize (Hm w). unfold try_catch.
  destruct (m w) as [[a|e|] w' tr]; cbn [trace] in *; try assumption.
  rewrite after_trace, inserts_app, Hm. apply Hh.
Qed.

Lemma quiet_lift {A} (o : outcome A) : quiet (lift o).
Proof. intros w. reflexivity. Qed.

Lemma quiet_ret {A} (a : A) : quiet (ret a).
Proof. intros w. reflexivity. Qed.

Lemma quiet_throw {A} (e : error) : quiet (@throw A e).
Proof. intros w. reflexivity. Qed.

Lemma quiet_console_error p e : quiet (console_error p e).
Proof. intros w. reflexivity. Qed.

Lemma quiet_perform op net tag : quiet (perform op net tag).
Proof. intros w. apply inserts_perform. Qed.

Ltac quiet :=
  repeat first
    [ apply quiet_lift | apply quiet_ret | apply quiet_throw | apply quiet_console_error
    | apply (quiet_perform TeamStats) | apply (quiet_perform WeeklyLeaderboard)
    | apply (quiet_perform SeasonLeaderboard)
    | apply quiet_try_catch | apply quiet_bind | intro ].

Lemma quiet_load_team net tag : quiet (load_team net (VStr (Raw tag))).
Proof. unfold load_team. quiet. Qed.

Lemma quiet_load_leaderboards net : quiet (load_leaderboards net).
Proof.
  unfold load_leaderboards.
  change (getWeeklyLeaderBoardInfoStats net) with (perform WeeklyLeaderboard net EmptyString).
  change (getSeasonLeaderBoardInfoStats net) with (perform SeasonLeaderboard net EmptyString).
  quiet.
Qed.

(** C10.  The milestone calculation is partial.  For boards of entries
    with numeric fields, whenever one of the two boards has fewer than 100
    entries the entry at index 99 is absent and the assignment loop throws
    a [TypeError] on it; the calculation goes through only when both
    boards have at least 100 entries.  In a run of the entry function that
    has loaded such boards the exception ends the function before anything is
    put into the page. *)
Theorem C10_short_leaderboard_throws (ew es : list (Z * Z)) (mc sr : value) :
  numeric mc -> numeric sr ->
  let weekly := VArr (List.map entry ew) in
  let season := VArr (List.map entry es) in
  ((length ew < 100)%nat -> get_index weekly 99 = Ok VUndefined) /\
  ((length es < 100)%nat -> get_index season 99 = Ok VUndefined) /\
  ((length ew < 100)%nat \/ (length es < 100)%nat ->
     calculate weekly season mc sr = Throw TypeError) /\
  ((100 <= length ew)%nat /\ (100 <= length es)%nat <->
     exists infos, calculate weekly season mc sr = Ok infos) /\
  (forall net href pg w u tag,
     session_tag w = Ok u ->
     teamPageTag_of href = VStr (Raw tag) ->
     strict_eq u (VStr (Raw tag)) = Ok true ->
     let team := load_team net (VStr (Raw tag)) w in
     let boards := load_leaderboards net (final team) in
     res team = Ok (mc, sr) ->
     res boards = Ok (weekly, season) ->
     (length ew < 100)%nat \/ (length es < 100)%nat ->
     res (main net href pg w) = Throw TypeError /\
     inserts (trace (main net href pg w)) = 0%nat).
Proof.
  intros Hmc Hsr weekly season.
  pose proof (calculate_boards ew es mc sr Hmc Hsr) as Hcalc. fold weekly season in Hcalc.
  assert (Hshort : (length ew < 100)%nat \/ (length es < 100)%nat ->
                   calculate weekly season mc sr = Throw TypeError).
  { intros Hs. destruct Hcalc as [(H1 & H2 & _)|[_ H]]; [lia|exact H]. }
  split; [|split; [|split; [|split]]].
  - intros Hlen. unfold weekly. cbn [get_index]. rewrite nth_short; [reflexivity|].
    rewrite length_map. lia.
  - intros Hlen. unfold season. cbn [get_index]. rewrite nth_short; [reflexivity|].
    rewrite length_map. lia.
  - exact Hshort.
  - split.
    + intros [H1 H2]. destruct Hcalc as [(_ & _ & H)|[Hs _]]; [exact H|lia].
    + intros [infos Hi]. destruct Hcalc as [(H1 & H2 & _)|[_ H]]; [lia|congruence].
  - intros net href pg w u tag Hu Htag Heq team boards Hteam Hboards Hs.
    specialize (Hshort Hs).
    pose proof (quiet_load_team net tag w) as Hq1.
    pose proof (quiet_load_leaderboards net (final team)) as Hq2.
    assert (Hrun : main net href pg w =
                   Build_run (Throw TypeError) (final boards) (trace team ++ trace boards ++ [])).
    { unfold main. rewrite Htag.
      rewrite (bind_run _ _ w _ _ _ (userTeamTAG_run w)), Hu. cbn [after].
      rewrite bind_lift, Heq. cbn [negb].
      unfold bind at 1. unfold boards in *. clear boards. unfold team in *. clear team.
      destruct (load_team net (VStr (Raw tag)) w) as [o1 w1 tr1].
      cbn [res final trace] in *. subst o1.
      unfold bind at 1.
      destruct (load_leaderboards net w1) as [o2 w2 tr2]. cbn [res final trace] in *.
      subst o2. cbn [fst snd]. rewrite bind_lift, Hshort. reflexivity. }
    rewrite Hrun. cbn [res trace]. split; [reflexivity|].
    fold team in Hq1. fold boards in Hq2.
    rewrite !inserts_app, Hq1, Hq2. reflexivity.
Qed.

(** ** Projection of the leaderboards *)

Lemma project_projection e : not_nullish e -> project e = Ok (projection e).
Proof. intros [Hu Hn]. destruct e; try congruence; reflexivity. Qed.

Lemma omapM_project entries :
  Forall not_nullish entries -> omapM project entries = Ok (List.map projection entries).
Proof.
  induction 1 as [|e l He _ IH]; [reflexivity|].
  cbn [omapM List.map]. rewrite (project_projection e He), IH. reflexivity.
Qed.



(** [calculate] succeeds exactly when its weekly and its season half do. *)
Lemma calculate_split weekly season mc sr wt st :
  calculate weekly season mc sr = Ok (wt, st) <->
  weekly_requirements weekly mc = Ok wt /\ season_requirements season sr mc = Ok st.
Proof.
  unfold calculate, weekly_requirements, season_requirements.
  destruct (top_info weekly) as [w0| |]; cbn [obind];
    [|split; [discriminate|intros [? _]; discriminate]..].
  destruct (top_info season) as [s0| |]; cbn [obind].
  - destruct (assign_daily (fun v => weekly_daily v mc) w0) as [w1| |]; cbn [obind];
      [|split; [discriminate|intros [? _]; discriminate]..].
    destruct (assign_daily (fun v => season_daily v sr mc) s0) as [s1| |]; cbn [obind];
      [|split; [discriminate|intros [_ ?]; discriminate]..].
    split; [intros [= <- <-]; split; reflexivity|intros [[= <-] [= <-]]; reflexivity].
  - split; [discriminate|intros [_ ?]; discriminate].
  - split; [discriminate|intros [_ ?]; discriminate].
Qed.

Lemma C3_witness :
  let written := perform WeeklyLeaderboard (sample_net 3) "XYZ" (first_visit "XYZ") in
  let later := {| storage := storage (final written); clock := 1700000500000 |} in
  let absent := {| storage := delete "weeklyLeaderboardInfo" (storage later);
                   clock := clock later |} in
  res written = Ok (remote_board 3) /\
  storage (final written) !! "weeklyLeaderboardInfo" =
    Some (cache_entry WeeklyLeaderboard (remote_board 3) (clock (final written))) /\
  clock (final written) = 1700000002000 /\
  (clock later - 1700000002000 < twenty_minutes ->
     perform WeeklyLeaderboard failing_net "XYZ" later =
     Build_run (Ok (remote_board 3)) later []) /\
  (twenty_minutes <= clock later - 1700000002000 ->
     res (perform WeeklyLeaderboard failing_net "XYZ" later) =
       res (perform WeeklyLeaderboard failing_net "XYZ" absent) /\
     trace (perform WeeklyLeaderboard failing_net "XYZ" later) =
       trace (perform WeeklyLeaderboard failing_net "XYZ" absent) /\
     requests (trace (perform WeeklyLeaderboard failing_net "XYZ" later)) = 1%nat).
Proof.
  intros written later.
  apply (C3_cache_round_trip WeeklyLeaderboard (sample_net 3) failing_net "XYZ" "XYZ"
           (first_visit "XYZ") later
           {| status := 200; body := Some (leaderboard_body 3); received := 1700000002000 |}
           (leaderboard_body 3) (remote_board 3)).
  - exists VNull. split; reflexivity.
  - reflexivity.
  - reflexivity.
  - reflexivity.
  - reflexivity.
  - split; [discriminate|reflexivity].
  - unfold safe. simpl. lia.
  - unfold safe. simpl. lia.
  - reflexivity.
Defined.

(** C1 as stated fails beyond the integers a double holds exactly: with
    126100789566373904 races (7 * 2^54 + 16, itself a double) and one member,
    the first division rounds up to the next double and the script yields
    2^54 + 4, while the ceiling of the exact quotient is 2^54 + 3. *)
Lemma C1_counterexample :
  exists info d,
    (SF2Q (Z2SF 126100789566373904) == inject_Z 126100789566373904)%Q /\
    weekly_requirements
      (VArr (List.map entry (repeat (126100789566373904, 0) 100))) (VNum (Z2SF 1)) =
      Ok info /\
    get_field (lookup_field "top1" info) "dailyMemberRaces" = Ok (VNum d) /\
    (SF2Q d == inject_Z (2 ^ 54 + 4))%Q /\
    spec_weekly 126100789566373904 1 = 2 ^ 54 + 3.
Proof.
  eexists. eexists.
  split; [vm_compute; reflexivity|].
  split; [vm_compute; reflexivity|].
  split; [reflexivity|].
  split; vm_compute; reflexivity.
Qed.

(** C4 as stated fails: with the text [oops] stored under [teamStats], and a
    remote side that would answer, the operation throws a [SyntaxError]
    and issues no request. *)
Lemma C4_counterexample :
  let w := {| storage := {[ "teamStats" := Raw "oops" ]}; clock := 1700000000000 |} in
  res (perform TeamStats (sample_net 100) "XYZ" w) = Throw SyntaxError /\
  requests (trace (perform TeamStats (sample_net 100) "XYZ" w)) = 0%nat /\
  res (perform TeamStats (sample_net 100) "XYZ" (first_visit "XYZ")) = Ok team_body.
Proof. repeat split; reflexivity. Qed.

Lemma C4_witness :
  let w := {| storage := {[ "teamStats" := Raw "{oops}" ]}; clock := 1700000000000 |} in
  perform TeamStats (sample_net 100) "XYZ" w =
    Build_run (Throw SyntaxError) w [ELog "Error fetching team stats: " SyntaxError] /\
  requests (trace (perform TeamStats (sample_net 100) "XYZ" w)) = 0%nat.
Proof.
  intros w.
  destruct (C4_malformed_cache_is_rethrown TeamStats (sample_net 100) "XYZ" w "{oops}")
    as (H1 & H2 & _).
  - reflexivity.
  - reflexivity.
  - split; [exact H1|exact H2].
Defined.

Lemma C5_witness :
  cache_miss TeamStats (first_visit "XYZ") /\
  requests (trace (perform TeamStats failing_net "XYZ" (first_visit "XYZ"))) = 1%nat /\
  perform TeamStats failing_net "XYZ" (first_visit "XYZ") =
  Build_run (Throw (Error "Failed to fetch team stats: 404")) (first_visit "XYZ")
    [EFetch "https://www.nitrotype.com/api/v2/teams/XYZ";
     ELog "Error fetching team stats: " (Error "Failed to fetch team stats: 404")].
Proof.
  assert (Hmiss : cache_miss TeamStats (first_visit "XYZ")).
  { exists VNull. split; reflexivity. }
  destruct (C5_single_request_and_failure TeamStats failing_net "XYZ" (first_visit "XYZ")
              Hmiss) as (Hone & Hfail & _).
  split; [exact Hmiss|]. split; [exact Hone|].
  exact (Hfail {| status := 404; body := None; received := 1700000001000 |}
           eq_refl eq_refl).
Defined.


Lemma C7_witness :
  session_tag (first_visit "ABC") = Ok (VStr (Raw "ABC")) /\
  strict_eq (VStr (Raw "ABC")) (teamPageTag_of "https://www.nitrotype.com/team/XYZ") =
    Ok false /\
  main (sample_net 100) "https://www.nitrotype.com/team/XYZ"
    {| container_appears := true; leaderboard_parent := true;
       next_sibling := InContainer |} (first_visit "ABC") =
  Build_run (Ok Returned) (first_visit "ABC") [].
Proof.
  split; [reflexivity|]. split; [reflexivity|].
  apply (C7_foreign_team_page_is_left_alone _ _ _ _ (VStr (Raw "ABC"))).
  - reflexivity.
  - reflexivity.
Defined.

Lemma C8_witness :
  fst (click Weekly sample_context (fst (click Season sample_context sample_document))) =
  sample_document.
Proof.
  assert (Hshow : shows sample_context Weekly sample_document).
  { eexists. split; [reflexivity|]. split; [reflexivity|]. split; [reflexivity|].
    left. split; reflexivity. }
  exact (proj1 (C8_toggle_round_trip sample_context Weekly sample_document Hshow)).
Defined.

Lemma C9_witness :
  click Weekly sample_context sample_document =
  ({| weeklyClasses := ["link"; "link--s"; "link--h"];
      seasonClasses := ["link"; "link--s"; "link--i"];
      bodyElement := bodyElement sample_document;
      footnoteElement := footnoteElement sample_document |}, Ok tt).
Proof.
  assert (Hshow : shows sample_context Weekly sample_document).
  { eexists. split; [reflexivity|]. split; [reflexivity|]. split; [reflexivity|].
    left. split; reflexivity. }
  destruct (C9_click_is_unconditional sample_context Weekly sample_document)
    as (_ & _ & _ & Hactive).
  exact (proj1 (Hactive Hshow)).
Defined.

Lemma C10_witness :
  numeric (VNum (Z2SF 10)) /\ numeric (VNum (Z2SF 3000)) /\
  calculate (VArr (List.map entry (repeat (700, 50000) 100)))
    (VArr (List.map entry (repeat (5000, 90000) 50)))
    (VNum (Z2SF 10)) (VNum (Z2SF 3000)) = Throw TypeError.
Proof.
  assert (H1 : numeric (VNum (Z2SF 10))) by (eexists; reflexivity).
  assert (H2 : numeric (VNum (Z2SF 3000))) by (eexists; reflexivity).
  split; [exact H1|]. split; [exact H2|].
  destruct (C10_short_leaderboard_throws (repeat (700, 50000) 100)
              (repeat (5000, 90000) 50) _ _ H1 H2) as (_ & _ & Hshort & _).
  apply Hshort. right. rewrite repeat_length. lia.
Defined.

(** ** The examples of the specification, end to end *)

(** Index 0 of the weekly board is [{racesPlayed: 700, points: 50000}] and the
    team has 10 members: the weekly requirement for rank 1 is 10. *)
Example weekly_end_to_end :
  exists info,
    weekly_requirements (VArr (List.map entry (repeat (700, 50000) 100)))
      (VNum (Z2SF 10)) = Ok info /\
    lookup_field "top1" info = requirement (700, 50000) (Z2SF 10).
Proof. eexists. split; [vm_compute; reflexivity|reflexivity]. Qed.

(** Season mode with 5000 races at index 0, 3000 season races of the team and
    25 members: the requirement is 80. *)
Example season_end_to_end :
  exists info,
    season_requirements (VArr (List.map entry (repeat (5000, 0) 100)))
      (VNum (Z2SF 3000)) (VNum (Z2SF 25)) = Ok info /\
    lookup_field "top1" info = requirement (5000, 0) (Z2SF 80).
Proof. eexists. split; [vm_compute; reflexivity|reflexivity]. Qed.

(** A whole run on the team's own page: three requests, then the widget. *)
Example main_end_to_end :
  let r := main (sample_net 100) "https://www.nitrotype.com/team/XYZ"
             {| container_appears := true; leaderboard_parent := true;
       next_sibling := InContainer |}
             (first_visit "XYZ") in
  res r = Ok Returned /\ requests (trace r) = 3%nat /\ inserts (trace r) = 1%nat.
Proof. vm_compute. repeat split; reflexivity. Qed.

(** * Further properties of the script *)

(** ** The team tag of the page *)

Lemma split_slash_free s : slash_free s = true -> split_slash s = [s].
Proof.
  induction s as [|c r IH]; cbn; [reflexivity|].
  destruct (Ascii.eqb c "/"); cbn; [discriminate|].
  intros H. rewrite (IH H). reflexivity.
Qed.

Lemma split_slash_app a b :
  slash_free a = true -> split_slash (a +:+ "/" +:+ b) = a :: split_slash b.
Proof.
  induction a as [|c r IH]; [reflexivity|].
  cbn [slash_free]. change (String c r +:+ "/" +:+ b) with (String c (r +:+ "/" +:+ b)).
  cbn [split_slash].
  destruct (Ascii.eqb c "/"); cbn [negb andb]; [discriminate|].
  intros H. rewrite (IH H). reflexivity.
Qed.

(** X1.  The team tag of the page is the fifth piece of the address cut at
    every slash: for an address [scheme//host/dir/tag], with or without a
    further [/rest], it is exactly [tag], whatever characters other than a
    slash [tag] holds (a query string or a fragment stays part of it).  An
    address with fewer than four slashes has no such piece, and the tag is
    [undefined]. *)
Theorem X1_team_tag_of_address (scheme host dir tag rest : string) :
  slash_free scheme = true -> slash_free host = true ->
  slash_free dir = true -> slash_free tag = true ->
  teamPageTag_of (scheme +:+ "//" +:+ host +:+ "/" +:+ dir +:+ "/" +:+ tag) =
    VStr (Raw tag) /\
  teamPageTag_of (scheme +:+ "//" +:+ host +:+ "/" +:+ dir +:+ "/" +:+ tag +:+ "/" +:+ rest) =
    VStr (Raw tag) /\
  teamPageTag_of (scheme +:+ "//" +:+ host +:+ "/" +:+ dir) = VUndefined.
Proof.
  intros Hs Hh Hd Ht. unfold teamPageTag_of.
  change (scheme +:+ "//" +:+ ?x) with (scheme +:+ "/" +:+ (EmptyString +:+ "/" +:+ x)).
  rewrite !(split_slash_app scheme) by assumption.
  rewrite !(split_slash_app EmptyString) by reflexivity.
  rewrite !(split_slash_app host) by assumption.
  split; [|split].
  - rewrite (split_slash_app dir) by assumption.
    rewrite (split_slash_free tag) by assumption. reflexivity.
  - rewrite (split_slash_app dir) by assumption.
    rewrite (split_slash_app tag) by assumption. reflexivity.
  - rewrite (split_slash_free dir) by assumption. reflexivity.
Qed.

Lemma X1_witness :
  teamPageTag_of "https://www.nitrotype.com/team/XYZ" = VStr (Raw "XYZ") /\
  teamPageTag_of "https://www.nitrotype.com/team/XYZ/stats" = VStr (Raw "XYZ") /\
  teamPageTag_of "https://www.nitrotype.com/team" = VUndefined.
Proof.
  apply (X1_team_tag_of_address "https:" "www.nitrotype.com" "team" "XYZ" "stats");
    reflexivity.
Defined.

(** ** The session guard *)

(** X2.  Reading the session is not protected by any [try]: when no session
    is stored the entry function throws a [TypeError] (a property of [null]
    is read), and whatever exception the reading throws ends the function
    there, with nothing logged, nothing requested and the store as it
    was. *)
Theorem X2_missing_session_throws (net : network) (href : string) (pg : page) (w : world) :
  (storage w !! "persist:nt" = None ->
     main net href pg w = Build_run (Throw TypeError) w []) /\
  (forall e, session_tag w = Throw e -> main net href pg w = Build_run (Throw e) w []).
Proof.
  assert (H : forall e, session_tag w = Throw e ->
                        main net href pg w = Build_run (Throw e) w []).
  { intros e He. unfold main.
    rewrite (bind_run _ _ w _ _ _ (userTeamTAG_run w)), He. reflexivity. }
  split; [|exact H].
  intros Hnone. apply H. unfold session_tag. rewrite Hnone. reflexivity.
Qed.

Lemma X2_witness :
  let w := {| storage := ∅; clock := 1700000000000 |} in
  main (sample_net 100) "https://www.nitrotype.com/team/XYZ"
    whole_page w =
  Build_run (Throw TypeError) w [].
Proof.
  intros w.
  apply (proj1 (X2_missing_session_throws (sample_net 100)
                  "https://www.nitrotype.com/team/XYZ"
                  whole_page w)).
  reflexivity.
Defined.

(** ** Waiting for the container *)

Lemma deliver_disconnected p later :
  fold_left deliver later {| observing := false; settled := p |} =
  {| observing := false; settled := p |}.
Proof. induction later as [|d l IH]; [reflexivity|exact IH]. Qed.

Lemma callback_settled d el :
  callback d {| observing := false; settled := Fulfilled el |} =
  {| observing := false; settled := Fulfilled el |}.
Proof.
  unfold callback. induction (mutationsList d) as [|m l IH]; [reflexivity|].
  cbn [fold_left]. unfold on_mutation at 2.
  destruct (String.eqb (mtype m) "childList" && (0 <? addedNodes m)%nat);
    [destruct (selected d)|]; exact IH.
Qed.

Lemma callback_run d :
  callback d {| observing := true; settled := Pending |} =
  match noticed d with
  | Some el => {| observing := false; settled := Fulfilled el |}
  | None => {| observing := true; settled := Pending |}
  end.
Proof.
  unfold noticed, reports_addition, callback.
  destruct (selected d) as [el|] eqn:Hsel.
  - induction (mutationsList d) as [|m l IH]; [reflexivity|].
    cbn [fold_left existsb]. unfold on_mutation at 2.
    destruct (String.eqb (mtype m) "childList" && (0 <? addedNodes m)%nat); cbn [orb].
    + unfold resolve_with. cbn [settled].
      pose proof (callback_settled {| mutationsList := l; selected := Some el |} el) as H.
      unfold callback in H. cbn [mutationsList selected] in H. exact H.
    + exact IH.
  - assert (H : fold_left (on_mutation None) (mutationsList d)
                  {| observing := true; settled := Pending |} =
                {| observing := true; settled := Pending |}).
    { induction (mutationsList d) as [|m l IH]; [reflexivity|].
      cbn [fold_left]. unfold on_mutation at 2.
      destruct (String.eqb (mtype m) "childList" && (0 <? addedNodes m)%nat); exact IH. }
    rewrite H. destruct (existsb _ _); reflexivity.
Qed.

(** X3.  If the selector already matches when [waitForElm] is called, the
    promise is fulfilled with that element and the observer is disconnected
    at once: no later change of the page has any effect on the result. *)
Theorem X3_wait_element_present (el : element) (later : list delivery) :
  waitForElm true (Some el) later = Fulfilled el.
Proof.
  unfold waitForElm, resolve_with. cbn [settled].
  rewrite deliver_disconnected. reflexivity.
Qed.

(** X4.  If the selector matches nothing at the call, the promise is
    fulfilled by the first call of the callback that both reports added
    nodes and finds the element; calls that report no added child nodes, or
    at which the selector still matches nothing, are passed over, and calls
    after the first success are not looked at.  If no call qualifies the
    promise stays pending for ever. *)
Theorem X4_wait_first_addition (before afterwards : list delivery) (d : delivery) (el : element) :
  Forall (fun d' => noticed d' = None) before ->
  (noticed d = Some el ->
     waitForElm true None (before ++ d :: afterwards) = Fulfilled el) /\
  waitForElm true None before = Pending.
Proof.
  intros Hbefore.
  assert (Hskip : forall rest,
            fold_left deliver (before ++ rest) {| observing := true; settled := Pending |} =
            fold_left deliver rest {| observing := true; settled := Pending |}).
  { intros rest. induction Hbefore as [|d' l Hd' _ IH]; [reflexivity|].
    cbn [app fold_left]. unfold deliver at 2. cbn [observing].
    rewrite callback_run, Hd'. exact IH. }
  split.
  - intros Hd. unfold waitForElm. rewrite Hskip. cbn [fold_left].
    unfold deliver at 2. cbn [observing]. rewrite callback_run, Hd.
    rewrite deliver_disconnected. reflexivity.
  - unfold waitForElm. rewrite <- (app_nil_r before), Hskip. reflexivity.
Qed.

Lemma X4_witness :
  let attribute_change := {| mutationsList := [{| mtype := "attributes"; addedNodes := 0 |}];
                             selected := Some 7%nat |} in
  let removal := {| mutationsList := [{| mtype := "childList"; addedNodes := 0 |}];
                    selected := Some 7%nat |} in
  let unrelated := {| mutationsList := [{| mtype := "childList"; addedNodes := 2 |}];
                      selected := None |} in
  let insertion := {| mutationsList := [{| mtype := "childList"; addedNodes := 1 |}];
                      selected := Some 7%nat |} in
  let later := {| mutationsList := [{| mtype := "childList"; addedNodes := 1 |}];
                  selected := Some 8%nat |} in
  waitForElm true None [attribute_change; removal; unrelated; insertion; later] =
    Fulfilled 7%nat /\
  waitForElm true None [attribute_change; removal; unrelated] = Pending.
Proof.
  intros attribute_change removal unrelated insertion later.
  destruct (X4_wait_first_addition [attribute_change; removal; unrelated] [later]
              insertion 7%nat) as [H1 H2].
  - repeat constructor.
  - split; [apply H1; reflexivity|exact H2].
Defined.

(** ** What the script leaves alone in the store *)

Lemma after_final {A} tr (r : run A) : final (after tr r) = final r.
Proof. destruct r. reflexivity. Qed.

Lemma preserves_bind {A B} k (m : M A) (f : A -> M B) :
  preserves k m -> (forall a, preserves k (f a)) -> preserves k (bind m f).
Proof.
  intros Hm Hf w. unfold bind. specialize (Hm w).
  destruct (m w) as [o w' tr]. cbn [final] in Hm.
  destruct o as [a| |]; cbn [final]; try exact Hm.
  rewrite after_final, (Hf a w'). exact Hm.
Qed.

Lemma preserves_try_catch {A} k (m : M A) (h : error -> M A) :
  preserves k m -> (forall e, preserves k (h e)) -> preserves k (try_catch m h).
Proof.
  intros Hm Hh w. unfold try_catch. specialize (Hm w).
  destruct (m w) as [o w' tr]. cbn [final] in Hm.
  destruct o as [a|e|]; cbn [final]; try exact Hm.
  rewrite after_final, (Hh e w'). exact Hm.
Qed.

Lemma preserves_lift {A} k (o : outcome A) : preserves k (lift o).
Proof. intros w. reflexivity. Qed.

Lemma preserves_ret {A} k (a : A) : preserves k (ret a).
Proof. intros w. reflexivity. Qed.

Lemma preserves_throw {A} k (e : error) : preserves k (@throw A e).
Proof. intros w. reflexivity. Qed.

Lemma preserves_getItem k key : preserves k (getItem key).
Proof. intros w. reflexivity. Qed.

Lemma preserves_Date_now k : preserves k Date_now.
Proof. intros w. reflexivity. Qed.

Lemma preserves_console_error k p e : preserves k (console_error p e).
Proof. intros w. reflexivity. Qed.

Lemma preserves_console_error_text k t : preserves k (console_error_text t).
Proof. intros w. reflexivity. Qed.

Lemma preserves_insertBefore k wd ref : preserves k (insertBefore wd ref).
Proof. intros w. destruct ref; reflexivity. Qed.

Lemma preserves_fetch k net url : preserves k (fetch net url).
Proof. intros w. unfold fetch. destruct (net url); reflexivity. Qed.

Lemma preserves_response_json k r : preserves k (response_json r).
Proof. intros w. reflexivity. Qed.

Lemma preserves_setItem k key t : k <> key -> preserves k (setItem key t).
Proof. intros Hne w. cbn. apply lookup_insert_ne. congruence. Qed.

Lemma preserves_is_fresh k x : preserves k (is_fresh x).
Proof. intros w. rewrite is_fresh_run. reflexivity. Qed.

Ltac frame :=
  repeat first
    [ apply preserves_lift | apply preserves_ret | apply preserves_throw
    | apply preserves_getItem | apply preserves_Date_now | apply preserves_console_error
    | apply preserves_console_error_text | apply preserves_insertBefore
    | apply preserves_fetch | apply preserves_response_json | apply preserves_is_fresh
    | apply preserves_setItem; assumption
    | apply preserves_try_catch | apply preserves_bind
    | match goal with
      | |- preserves _ (if ?b then _ else _) => destruct b
      | |- forall _, _ => intro
      end ].

Lemma preserves_fetchTeamStats k net tg :
  k <> "teamStats" -> preserves k (fetchTeamStats net tg).
Proof. intros Hne. unfold fetchTeamStats. frame. Qed.

Lemma preserves_weekly k net :
  k <> "weeklyLeaderboardInfo" -> preserves k (getWeeklyLeaderBoardInfoStats net).
Proof. intros Hne. unfold getWeeklyLeaderBoardInfoStats. frame. Qed.

Lemma preserves_season k net :
  k <> "seasonLeaderboardInfo" -> preserves k (getSeasonLeaderBoardInfoStats net).
Proof. intros Hne. unfold getSeasonLeaderBoardInfoStats. frame. Qed.

Lemma preserves_perform k op net tag :
  k <> cache_key op -> preserves k (perform op net tag).
Proof.
  destruct op; cbn [cache_key perform]; intros Hne;
    [apply preserves_fetchTeamStats|apply preserves_weekly|apply preserves_season]; exact Hne.
Qed.

Lemma network_run_failure op net tag w e :
  res (network_run op net tag w) = Throw e ->
  storage (final (network_run op net tag w)) = storage w.
Proof.
  unfold network_run. destruct (net (request_url op tag)) as [|r]; [reflexivity|].
  destruct (ok r); [|reflexivity].
  destruct (body r) as [json|]; [|reflexivity].
  destruct (payload_of op json); [discriminate|reflexivity|reflexivity].
Qed.

(** X5.  A fetch operation writes nothing but its own cache item: every
    other stored item, the session among them, is after the call what it was
    before, whatever the cache and the remote side hold.  An operation that
    ends in an exception has written nothing at all. *)
Theorem X5_operation_writes_own_key_only (op : operation) (net : network) (tag : string)
    (w : world) (k : string) :
  k <> cache_key op ->
  storage (final (perform op net tag w)) !! k = storage w !! k /\
  (forall e, res (perform op net tag w) = Throw e ->
     storage (final (perform op net tag w)) = storage w).
Proof.
  intros Hne. split; [apply preserves_perform; exact Hne|].
  intros e. rewrite perform_cached_fetch, cached_fetch_run.
  destruct (JSON_parse _) as [x| |]; try reflexivity.
  destruct (freshness x (clock w)) as [[|]| |]; try reflexivity.
  - destruct (get_field x (payload_field op)); reflexivity.
  - apply network_run_failure.
Qed.

Lemma X5_witness :
  storage (final (perform WeeklyLeaderboard (sample_net 100) "XYZ" (first_visit "XYZ")))
    !! "persist:nt" = Some (session "XYZ") /\
  (forall e,
     res (perform WeeklyLeaderboard (sample_net 100) "XYZ" (first_visit "XYZ")) = Throw e ->
     storage (final (perform WeeklyLeaderboard (sample_net 100) "XYZ" (first_visit "XYZ"))) =
     storage (first_visit "XYZ")).
Proof.
  destruct (X5_operation_writes_own_key_only WeeklyLeaderboard (sample_net 100) "XYZ"
              (first_visit "XYZ") "persist:nt") as [H1 H2]; [discriminate|].
  split; [|exact H2].
  rewrite H1. reflexivity.
Defined.

Lemma preserves_userTeamTAG k : preserves k userTeamTAG.
Proof. intros w. rewrite userTeamTAG_run. reflexivity. Qed.

Lemma preserves_load_team k net tg : k <> "teamStats" -> preserves k (load_team net tg).
Proof.
  intros Hne. unfold load_team.
  apply preserves_try_catch; [|frame].
  apply preserves_bind; [apply preserves_fetchTeamStats; exact Hne|frame].
Qed.

Lemma preserves_load_leaderboards k net :
  k <> "weeklyLeaderboardInfo" -> k <> "seasonLeaderboardInfo" ->
  preserves k (load_leaderboards net).
Proof.
  intros Hw Hs. unfold load_leaderboards.
  apply preserves_try_catch; [|frame].
  apply preserves_bind; [apply preserves_weekly; exact Hw|]. intros weekly0.
  apply preserves_try_catch; [|frame].
  apply preserves_bind; [frame|]. intros weekly.
  apply preserves_try_catch; [|frame].
  apply preserves_bind; [apply preserves_season; exact Hs|]. frame.
Qed.

(** X6.  Whatever the page, the store and the remote side are, a run of the
    entry function changes no stored item other than the three cache items
    [teamStats], [weeklyLeaderboardInfo] and [seasonLeaderboardInfo]; in
    particular it never writes the session it reads. *)
Theorem X6_script_writes_cache_items_only (net : network) (href : string) (pg : page)
    (w : world) (k : string) :
  ~ In k cache_keys ->
  storage (final (main net href pg w)) !! k = storage w !! k.
Proof.
  intros Hk. cbn in Hk.
  assert (H1 : k <> "teamStats") by (intros ->; tauto).
  assert (H2 : k <> "weeklyLeaderboardInfo") by (intros ->; tauto).
  assert (H3 : k <> "seasonLeaderboardInfo") by (intros ->; tauto).
  revert w. change (preserves k (main net href pg)). unfold main.
  apply preserves_bind; [apply preserves_userTeamTAG|]. intros userTag.
  apply preserves_bind; [frame|]. intros same.
  destruct (negb same); [frame|].
  apply preserves_bind; [apply preserves_load_team; exact H1|]. intros team.
  apply preserves_bind; [apply preserves_load_leaderboards; assumption|]. intros boards.
  frame.
Qed.

Lemma X6_witness :
  storage (final (main (sample_net 100) "https://www.nitrotype.com/team/XYZ"
                    whole_page
                    (first_visit "XYZ"))) !! "persist:nt" = Some (session "XYZ").
Proof.
  rewrite (X6_script_writes_cache_items_only (sample_net 100)
             "https://www.nitrotype.com/team/XYZ"
             whole_page
             (first_visit "XYZ") "persist:nt").
  - reflexivity.
  - cbn. intros [H|[H|[H|[]]]]; discriminate.
Defined.

(** ** Runs of the entry function *)

Lemma after_nil {A} (r : run A) : after [] r = r.
Proof. destruct r. reflexivity. Qed.

Lemma after_after {A} tr tr' (r : run A) : after tr (after tr' r) = after (tr ++ tr') r.
Proof. destruct r. cbn. rewrite app_assoc. reflexivity. Qed.

Lemma main_loaded net href pg w u :
  session_tag w = Ok u ->
  strict_eq u (teamPageTag_of href) = Ok true ->
  main net href pg w =
  bind (load_team net (teamPageTag_of href))
    (fun team =>
       bind (load_leaderboards net)
         (fun boards => finish pg (fst boards) (snd boards) (fst team) (snd team))) w.
Proof.
  intros Hu Heq. unfold main.
  rewrite (bind_run _ _ w _ _ _ (userTeamTAG_run w)), Hu, after_nil.
  rewrite bind_lift, Heq. reflexivity.
Qed.

Lemma main_run net href pg w u mc sr wk se w1 tr1 w2 tr2 :
  session_tag w = Ok u ->
  strict_eq u (teamPageTag_of href) = Ok true ->
  load_team net (teamPageTag_of href) w = Build_run (Ok (mc, sr)) w1 tr1 ->
  load_leaderboards net w1 = Build_run (Ok (wk, se)) w2 tr2 ->
  main net href pg w = after (tr1 ++ tr2) (finish pg wk se mc sr w2).
Proof.
  intros Hu Heq Hteam Hboards.
  rewrite (main_loaded net href pg w u Hu Heq).
  rewrite (bind_run _ _ w _ _ _ Hteam).
  rewrite (bind_run _ _ w1 _ _ _ Hboards).
  rewrite after_after. reflexivity.
Qed.

Lemma finish_run pg wk se mc sr w :
  finish pg wk se mc sr w =
  match calculate wk se mc sr with
  | Ok infos =>
      if negb (container_appears pg) then Build_run (Ok Suspended) w []
      else if leaderboard_parent pg then
        match createTopTeamRequirementsWidget (fst infos) mc with
        | Ok wd =>
            match next_sibling pg with
            | OutsideContainer => Build_run (Throw NotFoundError) w []
            | _ => Build_run (Ok Returned) w [EInsert wd]
            end
        | Throw e => Build_run (Throw e) w []
        | Unmodelled => Build_run Unmodelled w []
        end
      else
        Build_run (Ok Returned) w
          [ELogText "Could not find the container div or leaderboard table div."]
  | Throw e => Build_run (Throw e) w []
  | Unmodelled => Build_run Unmodelled w []
  end.
Proof.
  unfold finish. rewrite bind_lift.
  destruct (calculate wk se mc sr) as [infos| |]; try reflexivity.
  destruct (negb (container_appears pg)); [reflexivity|].
  destruct (leaderboard_parent pg); [|reflexivity].
  rewrite bind_lift.
  destruct (createTopTeamRequirementsWidget (fst infos) mc); try reflexivity.
  destruct (next_sibling pg); reflexivity.
Qed.

(** *** The first [try] block *)

Lemma load_team_failed net tg w e w1 tr :
  fetchTeamStats net tg w = Build_run (Throw e) w1 tr ->
  load_team net tg w =
  Build_run (Ok (VUndefined, VUndefined)) w1 (tr ++ [ELog "Error retrieving team stats: " e]).
Proof.
  intros Hf. unfold load_team. unfold try_catch at 1.
  rewrite (bind_run _ _ w _ _ _ Hf). reflexivity.
Qed.

Lemma load_team_unreadable net tg w tb w1 tr e :
  fetchTeamStats net tg w = Build_run (Ok tb) w1 tr ->
  (let* results := get_field tb "results" in
   let* info := get_field results "info" in
   get_field info "members") = Throw e ->
  load_team net tg w =
  Build_run (Ok (VUndefined, VUndefined)) w1 (tr ++ [ELog "Error retrieving team stats: " e]).
Proof.
  intros Hf Hm. unfold load_team. unfold try_catch at 1.
  rewrite (bind_run _ _ w _ _ _ Hf).
  rewrite bind_lift.
  destruct (get_field tb "results") as [results| |]; cbn [obind] in Hm;
    [|injection Hm as <-; cbn; rewrite app_nil_r; reflexivity|discriminate].
  rewrite bind_lift.
  destruct (get_field results "info") as [info| |]; cbn [obind] in Hm;
    [|injection Hm as <-; cbn; rewrite app_nil_r; reflexivity|discriminate].
  rewrite bind_lift, Hm. cbn. rewrite app_nil_r. reflexivity.
Qed.

Lemma load_team_fetched net tg w tb w1 tr results info mc :
  fetchTeamStats net tg w = Build_run (Ok tb) w1 tr ->
  get_field tb "results" = Ok results ->
  get_field results "info" = Ok info ->
  get_field info "members" = Ok mc ->
  load_team net tg w =
  match season_played results with
  | Ok sr => Build_run (Ok (mc, sr)) w1 tr
  | Throw e =>
      Build_run (Ok (mc, VUndefined)) w1 (tr ++ [ELog "Error retrieving team stats: " e])
  | Unmodelled => Build_run Unmodelled w1 tr
  end.
Proof.
  intros Hf Hr Hi Hm. unfold load_team. unfold try_catch at 1.
  rewrite (bind_run _ _ w _ _ _ Hf).
  rewrite bind_lift, Hr, bind_lift, Hi, bind_lift, Hm.
  unfold try_catch at 1. rewrite bind_lift.
  destruct (season_played results) as [sr|e|]; cbn; rewrite ?app_nil_r; reflexivity.
Qed.

(** *** The second [try] block *)

Lemma load_leaderboards_weekly_failed net w e w1 tr :
  getWeeklyLeaderBoardInfoStats net w = Build_run (Throw e) w1 tr ->
  load_leaderboards net w =
  Build_run (Ok (VUndefined, VUndefined)) w1
    (tr ++ [ELog "Error retrieving leaderboard info: " e]).
Proof.
  intros Hf. unfold load_leaderboards. unfold try_catch at 1.
  rewrite (bind_run _ _ w _ _ _ Hf). reflexivity.
Qed.

Lemma load_leaderboards_season_failed net w wp wk e w1 tr1 w2 tr2 :
  getWeeklyLeaderBoardInfoStats net w = Build_run (Ok wp) w1 tr1 ->
  array_map project wp = Ok wk ->
  getSeasonLeaderBoardInfoStats net w1 = Build_run (Throw e) w2 tr2 ->
  load_leaderboards net w =
  Build_run (Ok (wk, VUndefined)) w2
    (tr1 ++ tr2 ++ [ELog "Error retrieving leaderboard info: " e]).
Proof.
  intros Hw Hp Hs. unfold load_leaderboards. unfold try_catch at 1.
  rewrite (bind_run _ _ w _ _ _ Hw).
  unfold try_catch at 1. rewrite bind_lift, Hp.
  unfold try_catch at 1. rewrite (bind_run _ _ w1 _ _ _ Hs). reflexivity.
Qed.

Lemma load_leaderboards_loaded net w wp wk sp se w1 tr1 w2 tr2 :
  getWeeklyLeaderBoardInfoStats net w = Build_run (Ok wp) w1 tr1 ->
  array_map project wp = Ok wk ->
  getSeasonLeaderBoardInfoStats net w1 = Build_run (Ok sp) w2 tr2 ->
  array_map project sp = Ok se ->
  load_leaderboards net w = Build_run (Ok (wk, se)) w2 (tr1 ++ tr2).
Proof.
  intros Hw Hp Hs Hq. unfold load_leaderboards. unfold try_catch at 1.
  rewrite (bind_run _ _ w _ _ _ Hw).
  unfold try_catch at 1. rewrite bind_lift, Hp.
  unfold try_catch at 1. rewrite (bind_run _ _ w1 _ _ _ Hs).
  unfold try_catch at 1. rewrite bind_lift, Hq. cbn. rewrite !app_nil_r. reflexivity.
Qed.

(** *** One operation *)

Lemma perform_absent_ok op net tag w r json payload :
  storage w !! cache_key op = None ->
  net (request_url op tag) = NetResp r ->
  ok r = true ->
  body r = Some json ->
  payload_of op json = Ok payload ->
  perform op net tag w =
  Build_run (Ok payload)
    {| storage := <[cache_key op := cache_entry op payload (received r)]> (storage w);
       clock := received r |}
    [EFetch (request_url op tag)].
Proof.
  intros Habs Hnet Hok Hbody Hpay.
  rewrite perform_cached_fetch, cached_fetch_absent by exact Habs.
  unfold network_run. rewrite Hnet, Hok, Hbody, Hpay. reflexivity.
Qed.

Lemma perform_hit op net tag w payload t :
  storage w !! cache_key op = Some (cache_entry op payload t) ->
  serializable payload -> safe t -> safe (clock w) ->
  clock w - t < twenty_minutes ->
  perform op net tag w = Build_run (Ok payload) w [].
Proof.
  intros. rewrite perform_cached_fetch. eapply cached_fetch_hit; eassumption.
Qed.

(** *** The calculator and the renderer on boards of entries *)

Lemma assign_requirements (daily : value -> outcome number) (es : list (Z * Z))
    (d : Z * Z -> number) :
  (100 <= length es)%nat ->
  (forall e, In e es -> daily (entry e) = Ok (d e)) ->
  (let* info := top_info (VArr (List.map entry es)) in assign_daily daily info) =
  Ok (requirement_set es d).
Proof.
  intros Hlen Hd.
  assert (Hnth : forall i, (i < 100)%nat ->
            daily (entry (nth i es (0, 0))) = Ok (d (nth i es (0, 0)))).
  { intros i Hi. apply Hd. apply nth_In. lia. }
  rewrite top_info_array. unfold requirement_set.
  cbn [milestones List.map obind assign_daily omapM].
  rewrite !nth_entry by lia.
  rewrite !Hnth by lia. reflexivity.
Qed.

Lemma calculate_entries (ew es : list (Z * Z)) (mc sr : value) (dw ds : Z * Z -> number) :
  (100 <= length ew)%nat -> (100 <= length es)%nat ->
  (forall e, In e ew -> weekly_daily (entry e) mc = Ok (dw e)) ->
  (forall e, In e es -> season_daily (entry e) sr mc = Ok (ds e)) ->
  calculate (VArr (List.map entry ew)) (VArr (List.map entry es)) mc sr =
  Ok (requirement_set ew dw, requirement_set es ds).
Proof.
  intros Hw Hs Hdw Hds. apply calculate_split. split.
  - apply (assign_requirements (fun v => weekly_daily v mc)); assumption.
  - apply (assign_requirements (fun v => season_daily v sr mc)); assumption.
Qed.

Lemma weekly_daily_entry (e : Z * Z) (m : Z) :
  safe (fst e) -> 0 < m < 2 ^ 53 ->
  weekly_daily (entry e) (VNum (Z2SF m)) = Ok (Z2SF (spec_weekly (fst e) m)).
Proof.
  intros Hp Hm. unfold weekly_daily, entry. cbn.
  rewrite ceil_div7_div by assumption.
  rewrite spec_weekly_ceil_div by lia. reflexivity.
Qed.

Lemma season_daily_entry (e : Z * Z) (s m : Z) :
  safe (fst e) -> safe s -> 0 < m < 2 ^ 53 ->
  season_daily (entry e) (VNum (Z2SF s)) (VNum (Z2SF m)) = Ok (season_double (fst e) s m).
Proof.
  intros Hp Hs Hm. unfold season_daily, entry. cbn.
  rewrite season_double_eq by assumption. reflexivity.
Qed.

Lemma widget_of_requirements (es : list (Z * Z)) (d : Z * Z -> number) (mc : value) :
  createTopTeamRequirementsWidget (requirement_set es d) mc =
  Ok (weekly_widget (requirement_rows es d) mc).
Proof. reflexivity. Qed.

(** ** Whole runs *)

Lemma strict_eq_same_tag tag : strict_eq (VStr (Raw tag)) (VStr (Raw tag)) = Ok true.
Proof. cbn. rewrite String.eqb_refl. reflexivity. Qed.


(** X8.  A visit while all three cache items are fresh (each written less
    than 20 minutes before the clock reading): the entry function issues no
    request at all, whatever the remote side would answer, leaves store and
    clock as they are, and builds the widget from the cached payloads.  The
    widget is inserted unless the next sibling of the leaderboard table's
    parent is a node outside the container, in which case [insertBefore]
    throws a [NotFoundError] and nothing is inserted. *)
Theorem X8_visit_with_fresh_cache (net : network) (href tag : string) (pg : page) (w : world)
    (payload : operation -> value) (t : operation -> Z)
    (results info : value) (m s : Z) (ew es : list (Z * Z)) :
  session_tag w = Ok (VStr (Raw tag)) ->
  teamPageTag_of href = VStr (Raw tag) ->
  safe (clock w) ->
  (forall op, storage w !! cache_key op = Some (cache_entry op (payload op) (t op)) /\
              serializable (payload op) /\ safe (t op) /\
              clock w - t op < twenty_minutes) ->
  get_field (payload TeamStats) "results" = Ok results ->
  get_field results "info" = Ok info ->
  get_field info "members" = Ok (VNum (Z2SF m)) ->
  season_played results = Ok (VNum (Z2SF s)) ->
  array_map project (payload WeeklyLeaderboard) = Ok (VArr (List.map entry ew)) ->
  array_map project (payload SeasonLeaderboard) = Ok (VArr (List.map entry es)) ->
  (100 <= length ew)%nat -> (100 <= length es)%nat ->
  Forall (fun e => safe (fst e)) ew -> Forall (fun e => safe (fst e)) es ->
  safe s -> 0 < m < 2 ^ 53 ->
  container_appears pg = true -> leaderboard_parent pg = true ->
  main net href pg w =
  match next_sibling pg with
  | OutsideContainer => Build_run (Throw NotFoundError) w []
  | _ =>
      Build_run (Ok Returned) w
        [EInsert (weekly_widget
                    (requirement_rows ew (fun e => Z2SF (spec_weekly (fst e) m)))
                    (VNum (Z2SF m)))]
  end.
Proof.
  intros Hu Htag Hclock Hcache Hres Hinfo Hmem Hsp Hwk Hse Hlw Hls Hsw Hss Hs Hm Hc Hl.
  destruct (Hcache TeamStats) as (Hc1 & Hp1 & Ht1 & Hf1).
  destruct (Hcache WeeklyLeaderboard) as (Hc2 & Hp2 & Ht2 & Hf2).
  destruct (Hcache SeasonLeaderboard) as (Hc3 & Hp3 & Ht3 & Hf3).
  pose proof (perform_hit TeamStats net tag w _ _ Hc1 Hp1 Ht1 Hclock Hf1) as Hteam.
  pose proof (perform_hit WeeklyLeaderboard net tag w _ _ Hc2 Hp2 Ht2 Hclock Hf2) as Hweekly.
  pose proof (perform_hit SeasonLeaderboard net tag w _ _ Hc3 Hp3 Ht3 Hclock Hf3) as Hseason.
  pose proof (load_team_fetched net (VStr (Raw tag)) w _ _ _ _ _ _ Hteam Hres Hinfo Hmem)
    as Hload.
  rewrite Hsp in Hload.
  pose proof (load_leaderboards_loaded net w _ _ _ _ _ _ _ _ Hweekly Hwk Hseason Hse)
    as Hboards.
  rewrite <- Htag in Hload.
  rewrite (main_run net href pg w _ _ _ _ _ _ _ _ _ Hu
             ltac:(rewrite Htag; apply strict_eq_same_tag) Hload Hboards).
  rewrite finish_run.
  rewrite (calculate_entries ew es _ _ (fun e => Z2SF (spec_weekly (fst e) m))
             (fun e => season_double (fst e) s m)); try assumption.
  - rewrite Hc, Hl. cbn [negb fst]. rewrite widget_of_requirements.
    destruct (next_sibling pg); reflexivity.
  - intros e He. apply weekly_daily_entry; [|exact Hm].
    rewrite List.Forall_forall in Hsw. apply Hsw. exact He.
  - intros e He. apply season_daily_entry; [|exact Hs|exact Hm].
    rewrite List.Forall_forall in Hss. apply Hss. exact He.
Qed.

(** X9.  A leaderboard that cannot be loaded ends the script.  On the own
    team page, if the weekly operation throws, or if it succeeds and the
    season operation throws, the error is logged, the board stays
    [undefined], and building the requirement sets then reads an index of
    [undefined]: the entry function throws a [TypeError] that nothing
    catches, and no widget is inserted. *)
Theorem X9_leaderboard_failure_ends_script (net : network) (href tag : string) (pg : page)
    (w w1 : world) (tm : value * value) (tr1 : list event) :
  session_tag w = Ok (VStr (Raw tag)) ->
  teamPageTag_of href = VStr (Raw tag) ->
  load_team net (VStr (Raw tag)) w = Build_run (Ok tm) w1 tr1 ->
  let weekly := getWeeklyLeaderBoardInfoStats net w1 in
  let season := getSeasonLeaderBoardInfoStats net (final weekly) in
  (forall e, res weekly = Throw e ->
     main net href pg w =
     Build_run (Throw TypeError) (final weekly)
       (tr1 ++ trace weekly ++ [ELog "Error retrieving leaderboard info: " e])) /\
  (forall board entries e,
     res weekly = Ok board ->
     array_map project board = Ok (VArr entries) ->
     res season = Throw e ->
     main net href pg w =
     Build_run (Throw TypeError) (final season)
       (tr1 ++ trace weekly ++ trace season ++
        [ELog "Error retrieving leaderboard info: " e])).
Proof.
  intros Hu Htag Hteam weekly season.
  assert (Heq : strict_eq (VStr (Raw tag)) (teamPageTag_of href) = Ok true)
    by (rewrite Htag; apply strict_eq_same_tag).
  destruct tm as [mc sr]. rewrite <- Htag in Hteam.
  split.
  - intros e He.
    assert (Hw : getWeeklyLeaderBoardInfoStats net w1 =
                 Build_run (Throw e) (final weekly) (trace weekly)).
    { fold weekly. rewrite <- He. destruct weekly; reflexivity. }
    rewrite (main_run net href pg w _ _ _ _ _ _ _ _ _ Hu Heq Hteam
               (load_leaderboards_weekly_failed net w1 _ _ _ Hw)).
    rewrite finish_run. cbn. rewrite ?app_nil_r, <- ?app_assoc. reflexivity.
  - intros board entries e Hb Hp He.
    assert (Hw : getWeeklyLeaderBoardInfoStats net w1 =
                 Build_run (Ok board) (final weekly) (trace weekly)).
    { fold weekly. rewrite <- Hb. destruct weekly; reflexivity. }
    assert (Hs : getSeasonLeaderBoardInfoStats net (final weekly) =
                 Build_run (Throw e) (final season) (trace season)).
    { fold season. rewrite <- He. destruct season; reflexivity. }
    rewrite (main_run net href pg w _ _ _ _ _ _ _ _ _ Hu Heq Hteam
               (load_leaderboards_season_failed net w1 _ _ _ _ _ _ _ Hw Hp Hs)).
    rewrite finish_run. unfold calculate. rewrite top_info_array.
    cbn. rewrite ?app_nil_r, <- ?app_assoc. reflexivity.
Qed.

Lemma weekly_daily_no_members (e : Z * Z) :
  weekly_daily (entry e) VUndefined = Ok S754_nan.
Proof.
  unfold weekly_daily, entry. cbn -[Z2SF js_div Math_ceil].
  destruct (js_div (Z2SF (fst e)) (Z2SF 7)); reflexivity.
Qed.

Lemma season_daily_no_members (e : Z * Z) :
  season_daily (entry e) VUndefined VUndefined = Ok S754_nan.
Proof.
  unfold season_daily, entry. cbn -[Z2SF js_div js_sub Math_ceil].
  destruct (Z2SF (fst e)); reflexivity.
Qed.

(** X10.  Team statistics that cannot be loaded do not stop the script.  If
    the team operation throws, the error is logged, member count and season
    races stay [undefined], and with two leaderboards of at least 100 entries
    the widget is built all the same: every daily requirement in it, weekly
    and season, is [NaN], and its footnote is written for [undefined]
    members.  It is inserted unless the next sibling of the leaderboard
    table's parent is a node outside the container, in which case
    [insertBefore] throws a [NotFoundError] and nothing is inserted. *)
Theorem X10_team_failure_gives_NaN_table (net : network) (href tag : string) (pg : page)
    (w w1 w2 : world) (e : error) (tr1 tr2 : list event) (ew es : list (Z * Z)) :
  session_tag w = Ok (VStr (Raw tag)) ->
  teamPageTag_of href = VStr (Raw tag) ->
  fetchTeamStats net (VStr (Raw tag)) w = Build_run (Throw e) w1 tr1 ->
  load_leaderboards net w1 =
    Build_run (Ok (VArr (List.map entry ew), VArr (List.map entry es))) w2 tr2 ->
  (100 <= length ew)%nat -> (100 <= length es)%nat ->
  container_appears pg = true -> leaderboard_parent pg = true ->
  calculate (VArr (List.map entry ew)) (VArr (List.map entry es)) VUndefined VUndefined =
    Ok (requirement_set ew (fun _ => S754_nan), requirement_set es (fun _ => S754_nan)) /\
  main net href pg w =
  Build_run
    (match next_sibling pg with
     | OutsideContainer => Throw NotFoundError
     | _ => Ok Returned
     end)
    w2
    (tr1 ++ [ELog "Error retrieving team stats: " e] ++ tr2 ++
     match next_sibling pg with
     | OutsideContainer => []
     | _ => [EInsert (weekly_widget (requirement_rows ew (fun _ => S754_nan)) VUndefined)]
     end).
Proof.
  intros Hu Htag Hteam Hboards Hlw Hls Hc Hl.
  assert (Heq : strict_eq (VStr (Raw tag)) (teamPageTag_of href) = Ok true)
    by (rewrite Htag; apply strict_eq_same_tag).
  assert (Hcalc : calculate (VArr (List.map entry ew)) (VArr (List.map entry es))
                    VUndefined VUndefined =
                  Ok (requirement_set ew (fun _ => S754_nan),
                      requirement_set es (fun _ => S754_nan))).
  { apply calculate_entries; try assumption.
    - intros e0 _. apply weekly_daily_no_members.
    - intros e0 _. apply season_daily_no_members. }
  split; [exact Hcalc|].
  pose proof (load_team_failed net _ w _ _ _ Hteam) as Hload.
  rewrite <- Htag in Hload.
  rewrite (main_run net href pg w _ _ _ _ _ _ _ _ _ Hu Heq Hload Hboards).
  rewrite finish_run, Hcalc, Hc, Hl. cbn [negb fst].
  rewrite widget_of_requirements.
  destruct (next_sibling pg); cbn [after]; rewrite <- ?app_assoc; reflexivity.
Qed.

(** X11.  The requests come before the page is looked at.  Once team and
    leaderboards are loaded and the requirement sets are built, a page whose
    container never appears leaves the entry function suspended for ever,
    with nothing inserted; a page with the container but without a
    leaderboard table gets the message [Could not find the container div or
    leaderboard table div.] logged and nothing inserted, and the widget is
    not even built. *)
Theorem X11_page_without_anchor (net : network) (href tag : string) (pg : page)
    (w w1 w2 : world) (mc sr wk se : value) (tr1 tr2 : list event)
    (infos : topinfo * topinfo) :
  session_tag w = Ok (VStr (Raw tag)) ->
  teamPageTag_of href = VStr (Raw tag) ->
  load_team net (VStr (Raw tag)) w = Build_run (Ok (mc, sr)) w1 tr1 ->
  load_leaderboards net w1 = Build_run (Ok (wk, se)) w2 tr2 ->
  calculate wk se mc sr = Ok infos ->
  (container_appears pg = false ->
     main net href pg w = Build_run (Ok Suspended) w2 (tr1 ++ tr2)) /\
  (container_appears pg = true -> leaderboard_parent pg = false ->
     main net href pg w =
     Build_run (Ok Returned) w2
       (tr1 ++ tr2 ++
        [ELogText "Could not find the container div or leaderboard table div."])).
Proof.
  intros Hu Htag Hteam Hboards Hcalc.
  assert (Heq : strict_eq (VStr (Raw tag)) (teamPageTag_of href) = Ok true)
    by (rewrite Htag; apply strict_eq_same_tag).
  rewrite <- Htag in Hteam.
  rewrite (main_run net href pg w _ _ _ _ _ _ _ _ _ Hu Heq Hteam Hboards).
  rewrite finish_run, Hcalc.
  split.
  - intros ->. cbn. rewrite ?app_nil_r. reflexivity.
  - intros -> ->. cbn. rewrite <- ?app_assoc. reflexivity.
Qed.

(** ** More on the cache *)

Lemma freshness_without_timestamp x now :
  truthy x = false \/ get_field x "timestamp" = Ok VUndefined ->
  freshness x now = Ok false.
Proof.
  unfold freshness. intros [Hf|Ht].
  - rewrite Hf. reflexivity.
  - destruct (truthy x); [|reflexivity].
    rewrite Ht. cbn -[Z2SF TTL js_sub js_lt]. unfold js_sub.
    destruct (Z2SF now); reflexivity.
Qed.

(** X12.  A stored cache item that parses to a falsy value ([null], [false],
    [0], the empty text) or to a value without a [timestamp] is never used:
    the operation issues its one request, with the result and the trace it
    has when the item is absent. *)
Theorem X12_item_without_timestamp_is_a_miss (op : operation) (net : network) (tag : string)
    (w : world) (x : value) :
  JSON_parse (match storage w !! cache_key op with
              | Some t => VStr t
              | None => VNull
              end) = Ok x ->
  truthy x = false \/ get_field x "timestamp" = Ok VUndefined ->
  let absent := {| storage := delete (cache_key op) (storage w); clock := clock w |} in
  requests (trace (perform op net tag w)) = 1%nat /\
  res (perform op net tag w) = res (perform op net tag absent) /\
  trace (perform op net tag w) = trace (perform op net tag absent).
Proof.
  intros Hx Hts absent.
  assert (Hmiss : cache_miss op w).
  { exists x. split; [exact Hx|]. apply freshness_without_timestamp. exact Hts. }
  rewrite !perform_cached_fetch.
  rewrite (cached_fetch_miss op net tag w Hmiss).
  rewrite (cached_fetch_absent op net tag absent) by apply lookup_delete_eq.
  split; [apply requests_network_run|].
  apply (network_run_storage op net tag absent w). reflexivity.
Qed.

(** X13.  The team operation stores whatever JSON a successful answer
    carries, without looking at it.  When the answer lacks the member count
    (reading [results.info.members] throws), the first try block logs the
    error and leaves both variables [undefined] - and the answer is cached,
    so every visit during the next 20 minutes fails in the same way without
    asking the remote side again. *)
Theorem X13_unusable_team_answer_is_cached (net : network) (tag : string) (w : world)
    (r : response) (json : value) (e : error) :
  storage w !! "teamStats" = None ->
  net (request_url TeamStats tag) = NetResp r ->
  ok r = true ->
  body r = Some json ->
  serializable json ->
  safe (received r) ->
  (let* results := get_field json "results" in
   let* info := get_field results "info" in
   get_field info "members") = Throw e ->
  let first := load_team net (VStr (Raw tag)) w in
  first =
    Build_run (Ok (VUndefined, VUndefined))
      {| storage := <["teamStats" := cache_entry TeamStats json (received r)]> (storage w);
         clock := received r |}
      [EFetch (request_url TeamStats tag); ELog "Error retrieving team stats: " e] /\
  forall net' w',
    storage w' !! "teamStats" = storage (final first) !! "teamStats" ->
    safe (clock w') ->
    clock w' - received r < twenty_minutes ->
    load_team net' (VStr (Raw tag)) w' =
    Build_run (Ok (VUndefined, VUndefined)) w' [ELog "Error retrieving team stats: " e].
Proof.
  intros Habs Hnet Hok Hbody Hser Hsafe Hread first.
  pose proof (perform_absent_ok TeamStats net tag w r json json Habs Hnet Hok Hbody eq_refl)
    as Hfetch.
  assert (Hfirst : first =
            Build_run (Ok (VUndefined, VUndefined))
              {| storage := <["teamStats" := cache_entry TeamStats json (received r)]>
                              (storage w);
                 clock := received r |}
              [EFetch (request_url TeamStats tag); ELog "Error retrieving team stats: " e]).
  { unfold first. exact (load_team_unreadable net _ w _ _ _ e Hfetch Hread). }
  split; [exact Hfirst|].
  intros net' w' Hst Hclock Hfresh.
  rewrite Hfirst in Hst. cbn [final storage] in Hst.
  rewrite lookup_insert_eq in Hst.
  pose proof (perform_hit TeamStats net' tag w' json (received r) Hst Hser Hsafe Hclock Hfresh)
    as Hhit.
  exact (load_team_unreadable net' _ w' _ _ _ e Hhit Hread).
Qed.

(** ** The season statistics of the team *)

Lemma find_season_skip pre rest :
  Forall (fun st => exists b, get_field st "board" = Ok b /\
                              strict_eq b (VStr (Raw "season")) = Ok false) pre ->
  find_season (pre ++ rest) = find_season rest.
Proof.
  induction 1 as [|st l (b & Hb & Hne) _ IH]; [reflexivity|].
  cbn [app find_season]. rewrite Hb. cbn [obind]. rewrite Hne. cbn [obind]. exact IH.
Qed.

(** X14.  The season races of the team are the [played] of the first
    statistics entry whose [board] is the text [season]: entries before it
    with another board are passed over and entries after it are not looked
    at.  If no entry has that board the season races are [undefined], and
    no exception is thrown. *)
Theorem X14_season_races_first_match (results s : value) (pre post : list value) :
  Forall (fun st => exists b, get_field st "board" = Ok b /\
                              strict_eq b (VStr (Raw "season")) = Ok false) pre ->
  (get_field results "stats" = Ok (VArr (pre ++ s :: post)) ->
   get_field s "board" = Ok (VStr (Raw "season")) ->
   season_played results = get_field s "played") /\
  (get_field results "stats" = Ok (VArr pre) ->
   season_played results = Ok VUndefined).
Proof.
  intros Hpre. split.
  - intros Hstats Hs. unfold season_played. rewrite Hstats. cbn [obind].
    rewrite (find_season_skip pre (s :: post) Hpre). cbn [find_season].
    rewrite Hs. cbn [obind strict_eq]. rewrite String.eqb_refl. cbn [obind].
    destruct s; cbn in Hs; try discriminate. reflexivity.
  - intros Hstats. unfold season_played. rewrite Hstats. cbn [obind].
    rewrite <- (app_nil_r pre), (find_season_skip pre [] Hpre). reflexivity.
Qed.

(** X15.  The two variables of the first try block are assigned one after
    the other.  When the team answer has a member count but its [stats] is
    not an array, reading the season races throws a [TypeError]: the error
    is logged, the season races stay [undefined], and the member count
    assigned just before is kept. *)
Theorem X15_member_count_survives (net : network) (tg : value) (w w1 : world)
    (tb results info mc st : value) (tr : list event) :
  fetchTeamStats net tg w = Build_run (Ok tb) w1 tr ->
  get_field tb "results" = Ok results ->
  get_field results "info" = Ok info ->
  get_field info "members" = Ok mc ->
  get_field results "stats" = Ok st ->
  (forall l, st <> VArr l) ->
  load_team net tg w =
  Build_run (Ok (mc, VUndefined)) w1 (tr ++ [ELog "Error retrieving team stats: " TypeError]).
Proof.
  intros Hf Hr Hi Hm Hst Hna.
  rewrite (load_team_fetched net tg w _ _ _ _ _ _ Hf Hr Hi Hm).
  unfold season_played. rewrite Hst. cbn [obind].
  destruct st as [| | | | | l |]; try reflexivity.
  exfalso. exact (Hna l eq_refl).
Qed.

(** ** The renderer *)

Lemma get_field_field v k :
  get_field v k = if nullish v then Throw TypeError else Ok (field v k).
Proof. destruct v; reflexivity. Qed.

Lemma toLocaleString_scalar v :
  scalar v = true ->
  toLocaleString v = if nullish v then Throw TypeError else Ok (Localized v).
Proof. destruct v; try reflexivity; discriminate. Qed.

Lemma render_row (kv : string * value) :
  scalar_fields kv ->
  (let '(key, value) := kv in
   let* played := get_field value "played" in
   let* racesText := toLocaleString played in
   let* points := get_field value "points" in
   let* pointsText := toLocaleString points in
   let* dailyMemberRaces := get_field value "dailyMemberRaces" in
   let* dailyText := toLocaleString dailyMemberRaces in
   Ok {| rank := replace_first "top" EmptyString key;
         races := racesText;
         experience := pointsText;
         daily := dailyText |}) =
  if printable kv then Ok (row_of kv) else Throw TypeError.
Proof.
  destruct kv as [key v]. unfold scalar_fields, printable, row_of. cbn [fst snd].
  intros (H1 & H2 & H3).
  rewrite !get_field_field.
  destruct (nullish v); [reflexivity|]. cbn [negb andb obind].
  rewrite (toLocaleString_scalar _ H1), (toLocaleString_scalar _ H2),
    (toLocaleString_scalar _ H3).
  destruct (nullish (field v "played")); [reflexivity|]. cbn [negb andb obind].
  destruct (nullish (field v "points")); [reflexivity|]. cbn [negb andb obind].
  destruct (nullish (field v "dailyMemberRaces")); reflexivity.
Qed.

(** X16.  On requirement sets whose values are scalars, the renderer makes
    one table row per entry, in the order of the entries, each showing the
    key without its [top] and the entry's [played], [points] and
    [dailyMemberRaces].  It does so only if every entry exists and has all
    three values: as soon as one is [undefined] or [null], calling
    [toLocaleString] on it throws a [TypeError] and no table body is made at
    all. *)
Theorem X16_renderer_rows_or_TypeError (topInfo : topinfo) :
  Forall scalar_fields topInfo ->
  createTopTeamRequirementsTableBody topInfo =
  if forallb printable topInfo then Ok (List.map row_of topInfo) else Throw TypeError.
Proof.
  unfold createTopTeamRequirementsTableBody.
  induction 1 as [|kv l Hkv _ IH]; [reflexivity|].
  cbn [omapM forallb List.map].
  pose proof (render_row kv Hkv) as Hrow. destruct kv as [key v]. cbn beta iota in Hrow.
  rewrite Hrow, IH.
  destruct (printable (key, v)); [|reflexivity]. cbn [obind andb].
  destruct (forallb printable l); reflexivity.
Qed.

(** ** Series of clicks *)

Lemma last_cons {A} (m : A) (ms : list A) (d : A) :
  List.last (m :: ms) d = List.last ms m.
Proof.
  revert m d. induction ms as [|m' l IH]; intros m d; [reflexivity|].
  change (List.last (m :: m' :: l) d) with (List.last (m' :: l) d).
  rewrite (IH m' d), (IH m' m). reflexivity.
Qed.

(** X17.  Clicks compose as follows.  From a page that shows some mode,
    after any series of clicks the table body and the footnote are those of
    the mode clicked last, while the styles of the two buttons depend only
    on how many clicks there were: after an even number each button has the
    style it started with, after an odd number the two styles are
    exchanged.  The highlighted button therefore need not be the one of the
    mode on display. *)
Theorem X17_series_of_clicks (c : context) (m0 : mode) (d0 : document) (ms : list mode) :
  shows c m0 d0 ->
  (forall m, exists body, createTopTeamRequirementsTableBody (info_of m c) = Ok body) ->
  let d := clicks c ms d0 in
  shows c (List.last ms m0) d /\
  weeklyClasses d = (if Nat.even (length ms) then weeklyClasses d0 else seasonClasses d0) /\
  seasonClasses d = (if Nat.even (length ms) then seasonClasses d0 else weeklyClasses d0).
Proof.
  intros Hshow Hrender. cbv zeta.
  revert m0 d0 Hshow. induction ms as [|m l IH]; intros m0 d0 Hshow.
  - cbn. repeat split; [exact Hshow..].
  - destruct (Hrender m) as [body Hbody].
    pose proof (click_preserves_shows c m0 m d0 body Hshow Hbody) as Hshow1.
    pose proof (click_shown c m0 m d0 body Hshow Hbody) as Hclick.
    destruct (IH m (fst (click m c d0)) Hshow1) as (H1 & H2 & H3).
    rewrite last_cons. change (clicks c (m :: l) d0) with (clicks c l (fst (click m c d0))).
    split; [exact H1|].
    rewrite H2, H3, Hclick. cbn [fst weeklyClasses seasonClasses length].
    rewrite Nat.even_succ, <- Nat.negb_even.
    destruct (Nat.even (length l)); split; reflexivity.
Qed.

(** ** A team without members *)

Lemma div_by_7_finite p :
  0 < p < 2 ^ 53 ->
  exists mz ez, js_div (Z2SF p) (Z2SF 7) = S754_finite false mz ez.
Proof.
  intros Hp. rewrite (Z2SF_pos p), (Z2SF_pos 7) by (simpl; lia).
  unfold canon, js_div.
  pose proof (canon_mantissa p ltac:(lia)) as Bp. pose proof (cexp_bounds p ltac:(lia)) as Ep.
  pose proof (canon_mantissa 7 ltac:(simpl; lia)) as B7.
  assert (E7 : cexp 7 = -50) by reflexivity.
  destruct (SFdiv_nearest false _ (cexp p) false _ (cexp 7) Bp B7 ltac:(lia) ltac:(lia))
    as (ma & ea & Ha & _).
  exists ma, ea. exact Ha.
Qed.

(** X18.  A member count of zero is divided by as it is.  For race counts
    that a double holds exactly, the weekly requirement is [Infinity], or
    [NaN] when the milestone team has played no race; the season
    requirement is [Infinity], [-Infinity] or [NaN] as the milestone team
    has played more races than the own team, fewer, or as many.  No
    exception is thrown. *)
Theorem X18_zero_members (e : Z * Z) (s : Z) :
  safe (fst e) -> safe s ->
  weekly_daily (entry e) (VNum (Z2SF 0)) =
    Ok (if fst e =? 0 then S754_nan else S754_infinity false) /\
  season_daily (entry e) (VNum (Z2SF s)) (VNum (Z2SF 0)) =
    Ok (match fst e ?= s with
        | Eq => S754_nan
        | Lt => S754_infinity true
        | Gt => S754_infinity false
        end).
Proof.
  intros Hp Hs. unfold safe in *. split.
  - unfold weekly_daily, entry. cbn -[Z2SF js_div Math_ceil]. f_equal.
    destruct (Z.eqb_spec (fst e) 0) as [->|Hne]; [reflexivity|].
    destruct (div_by_7_finite (fst e) ltac:(lia)) as (mz & ez & ->). reflexivity.
  - unfold season_daily, entry. cbn -[Z2SF js_div js_sub Math_ceil]. f_equal.
    rewrite js_sub_exact by assumption.
    destruct (Z.compare_spec (fst e) s) as [->|Hlt|Hgt].
    + rewrite Z.sub_diag. reflexivity.
    + replace (fst e - s) with (- (s - fst e)) by lia.
      rewrite Z2SF_neg by lia. reflexivity.
    + rewrite Z2SF_pos by lia. reflexivity.
Qed.

(** ** A click that cannot render *)

(** X19.  The listeners exchange the button styles before they build the
    table body.  In a page that shows a mode, a click on a control whose
    requirement set cannot be rendered ends the listener with that
    exception after the styles of both buttons have been exchanged: the
    table body and the footnote stay as they were, so the page goes on
    showing the old mode under the newly highlighted button. *)
Theorem X19_click_that_cannot_render (c : context) (m m' : mode) (d : document) (e : error) :
  shows c m d ->
  createTopTeamRequirementsTableBody (info_of m' c) = Throw e ->
  click m' c d =
  ({| weeklyClasses := seasonClasses d;
      seasonClasses := weeklyClasses d;
      bodyElement := bodyElement d;
      footnoteElement := footnoteElement d |}, Throw e).
Proof.
  intros Hshow Hbody. destruct (swap_styles_shown c m d Hshow) as [Hw Hs].
  destruct Hshow as (body0 & _ & Hb & Hf & _).
  rewrite click_rerender. unfold rerender.
  replace (bodyElement (swap_styles d)) with (Some body0) by (symmetry; exact Hb).
  rewrite Hbody. f_equal. unfold swap_styles at 1. cbn. f_equal; assumption.
Qed.

(** ** Counting requests and insertions *)

Section Counting.

Variable count : list event -> nat.
Variables nf ni : nat.
Hypothesis count_app : forall tr tr', count (tr ++ tr') = (count tr + count tr')%nat.
Hypothesis count_fetch : forall url, (count [EFetch url] <= nf)%nat.
Hypothesis count_insert : forall wd, (count [EInsert wd] <= ni)%nat.
Hypothesis count_log : forall p e, count [ELog p e] = 0%nat.
Hypothesis count_text : forall t, count [ELogText t] = 0%nat.

Lemma count_nil : count [] = 0%nat.
Proof. pose proof (count_app [] []) as H. cbn [app] in H. lia. Qed.

Lemma at_most_bind {A B} (n1 n2 n : nat) (m : M A) (k : A -> M B) :
  (n1 + n2 <= n)%nat ->
  at_most count n1 m -> (forall a, at_most count n2 (k a)) -> at_most count n (bind m k).
Proof.
  intros Hn Hm Hk w. unfold bind. specialize (Hm w).
  destruct (m w) as [o w' tr]. cbn [trace] in Hm.
  destruct o as [a| |]; cbn [trace]; try lia.
  rewrite after_trace, count_app. specialize (Hk a w'). lia.
Qed.

Lemma at_most_try_catch {A} (n1 n2 n : nat) (m : M A) (h : error -> M A) :
  (n1 + n2 <= n)%nat ->
  at_most count n1 m -> (forall e, at_most count n2 (h e)) ->
  at_most count n (try_catch m h).
Proof.
  intros Hn Hm Hh w. unfold try_catch. specialize (Hm w).
  destruct (m w) as [o w' tr]. cbn [trace] in Hm.
  destruct o as [a|e|]; cbn [trace]; try lia.
  rewrite after_trace, count_app. specialize (Hh e w'). lia.
Qed.

Lemma at_most_lift {A} (n : nat) (o : outcome A) : at_most count n (lift o).
Proof. intros w. cbn. rewrite count_nil. lia. Qed.

Lemma at_most_ret {A} (n : nat) (a : A) : at_most count n (ret a).
Proof. intros w. cbn. rewrite count_nil. lia. Qed.

Lemma at_most_throw {A} (n : nat) (e : error) : at_most count n (@throw A e).
Proof. intros w. cbn. rewrite count_nil. lia. Qed.

Lemma at_most_getItem (n : nat) key : at_most count n (getItem key).
Proof. intros w. cbn. rewrite count_nil. lia. Qed.

Lemma at_most_setItem (n : nat) key t : at_most count n (setItem key t).
Proof. intros w. cbn. rewrite count_nil. lia. Qed.

Lemma at_most_Date_now (n : nat) : at_most count n Date_now.
Proof. intros w. cbn. rewrite count_nil. lia. Qed.

Lemma at_most_response_json (n : nat) r : at_most count n (response_json r).
Proof. intros w. cbn. rewrite count_nil. lia. Qed.

Lemma at_most_is_fresh (n : nat) x : at_most count n (is_fresh x).
Proof. intros w. rewrite is_fresh_run. cbn. rewrite count_nil. lia. Qed.

Lemma at_most_userTeamTAG (n : nat) : at_most count n userTeamTAG.
Proof. intros w. rewrite userTeamTAG_run. cbn. rewrite count_nil. lia. Qed.

Lemma at_most_console_error (n : nat) p e : at_most count n (console_error p e).
Proof. intros w. cbn. rewrite count_log. lia. Qed.

Lemma at_most_console_error_text (n : nat) t : at_most count n (console_error_text t).
Proof. intros w. cbn. rewrite count_text. lia. Qed.

Lemma at_most_fetch net url : at_most count nf (fetch net url).
Proof. intros w. unfold fetch. destruct (net url); cbn; apply count_fetch. Qed.

Lemma at_most_insertBefore wd ref : at_most count ni (insertBefore wd ref).
Proof.
  intros w. destruct ref; cbn; try apply count_insert.
  rewrite count_nil. lia.
Qed.

(** Steps that count nothing. *)
Ltac silent :=
  repeat first
    [ apply at_most_lift | apply at_most_ret | apply at_most_throw | apply at_most_getItem
    | apply at_most_setItem | apply at_most_Date_now | apply at_most_response_json
    | apply at_most_is_fresh | apply at_most_userTeamTAG | apply at_most_console_error
    | apply at_most_console_error_text
    | apply (at_most_bind 0 0 0); [lia| |intro]
    | apply (at_most_try_catch 0 0 0); [lia| |intro] ].

Lemma at_most_fetchTeamStats net tg : at_most count nf (fetchTeamStats net tg).
Proof.
  unfold fetchTeamStats.
  apply (at_most_try_catch nf 0); [lia| |intros e; silent].
  apply (at_most_bind 0 nf); [lia|silent|]. intros item.
  apply (at_most_bind 0 nf); [lia|silent|]. intros x.
  apply (at_most_bind 0 nf); [lia|silent|]. intros fresh.
  destruct fresh; [silent|].
  apply (at_most_bind 0 nf); [lia|silent|]. intros url.
  apply (at_most_bind nf 0); [lia|apply at_most_fetch|]. intros response.
  destruct (negb (ok response)); silent.
Qed.

Lemma at_most_season net : at_most count nf (getSeasonLeaderBoardInfoStats net).
Proof.
  unfold getSeasonLeaderBoardInfoStats.
  apply (at_most_try_catch nf 0); [lia| |intros e; silent].
  apply (at_most_bind 0 nf); [lia|silent|]. intros item.
  apply (at_most_bind 0 nf); [lia|silent|]. intros x.
  apply (at_most_bind 0 nf); [lia|silent|]. intros fresh.
  destruct fresh; [silent|].
  apply (at_most_bind nf 0); [lia|apply at_most_fetch|]. intros response.
  destruct (negb (ok response)); silent.
Qed.

Lemma at_most_weekly net : at_most count nf (getWeeklyLeaderBoardInfoStats net).
Proof.
  unfold getWeeklyLeaderBoardInfoStats.
  apply (at_most_try_catch nf 0); [lia| |intros e; silent].
  apply (at_most_bind 0 nf); [lia|silent|]. intros item.
  apply (at_most_bind 0 nf); [lia|silent|]. intros x.
  apply (at_most_bind 0 nf); [lia|silent|]. intros fresh.
  destruct fresh; [silent|].
  apply (at_most_bind nf 0); [lia|apply at_most_fetch|]. intros response.
  destruct (negb (ok response)); silent.
Qed.

Lemma at_most_load_team net tg : at_most count nf (load_team net tg).
Proof.
  unfold load_team.
  apply (at_most_try_catch nf 0); [lia| |intros e; silent].
  apply (at_most_bind nf 0); [lia|apply at_most_fetchTeamStats|]. intros stats. silent.
Qed.

Lemma at_most_load_leaderboards net : at_most count (nf + nf) (load_leaderboards net).
Proof.
  unfold load_leaderboards.
  apply (at_most_try_catch (nf + nf) 0); [lia| |intros e; silent].
  apply (at_most_bind nf nf); [lia|apply at_most_weekly|]. intros weekly0.
  apply (at_most_try_catch nf 0); [lia| |intros e; silent].
  apply (at_most_bind 0 nf); [lia|silent|]. intros weekly.
  apply (at_most_try_catch nf 0); [lia| |intros e; silent].
  apply (at_most_bind nf 0); [lia|apply at_most_season|]. intros season0. silent.
Qed.

Lemma at_most_main net href pg : at_most count (nf + (nf + nf) + ni) (main net href pg).
Proof.
  set (n := (nf + (nf + nf) + ni)%nat). unfold main.
  apply (at_most_bind 0 n); [lia|silent|]. intros userTag.
  apply (at_most_bind 0 n); [lia|silent|]. intros same.
  destruct (negb same); [silent|].
  apply (at_most_bind nf (nf + nf + ni)); [unfold n; lia|apply at_most_load_team|].
  intros team.
  apply (at_most_bind (nf + nf) ni); [lia|apply at_most_load_leaderboards|].
  intros boards.
  apply (at_most_bind 0 ni); [lia|silent|]. intros infos.
  destruct (negb (container_appears pg)); [silent|].
  destruct (leaderboard_parent pg); [|silent].
  apply (at_most_bind 0 ni); [lia|silent|]. intros wd.
  apply (at_most_bind ni 0); [lia|apply at_most_insertBefore|]. intros _. silent.
Qed.

End Counting.

Lemma requests_app tr tr' : requests (tr ++ tr') = (requests tr + requests tr')%nat.
Proof. unfold requests. rewrite List.filter_app, length_app. reflexivity. Qed.

(** X20.  Whatever the address, the page, the store and the remote side
    are, one run of the entry function issues at most three requests and
    inserts at most one widget: nothing in the script asks again after a
    failure, and nothing inserts twice. *)
Theorem X20_at_most_three_requests (net : network) (href : string) (pg : page) (w : world) :
  (requests (trace (main net href pg w)) <= 3)%nat /\
  (inserts (trace (main net href pg w)) <= 1)%nat.
Proof.
  split.
  - apply (at_most_main requests 1 0 requests_app); intros; cbn; lia.
  - apply (at_most_main inserts 0 1 inserts_app); intros; cbn; lia.
Qed.

(** ** Logging of the operations *)

Lemma network_run_logs op net tag w :
  let r := network_run op net tag w in
  (forall e, res r = Throw e ->
     logs (trace r) = 1%nat /\ last (trace r) = Some (ELog (log_prefix op) e)) /\
  (forall v, res r = Ok v -> logs (trace r) = 0%nat).
Proof.
  unfold network_run. destruct (net (request_url op tag)) as [|r].
  { split; [intros e [= <-]; split; reflexivity|discriminate]. }
  destruct (ok r).
  - destruct (body r) as [json|].
    + destruct (payload_of op json) as [payload|e0|].
      * split; [discriminate|reflexivity].
      * split; [intros e [= <-]; split; reflexivity|discriminate].
      * split; discriminate.
    + split; [intros e [= <-]; split; reflexivity|discriminate].
  - split; [intros e [= <-]; split; reflexivity|discriminate].
Qed.

(** X21.  An exception never leaves a fetch operation unlogged, and is
    never logged twice by it: whenever an operation throws, its trace holds
    exactly one [console.error] of an exception, as its last event, with the
    operation's prefix and the very exception that is thrown; an operation
    that returns has logged nothing.  For the weekly operation the prefix
    is the one of the season operation, [Error fetching season
    leaderboard: ]. *)
Theorem X21_thrown_errors_are_logged_once (op : operation) (net : network) (tag : string)
    (w : world) :
  (forall e, res (perform op net tag w) = Throw e ->
     logs (trace (perform op net tag w)) = 1%nat /\
     last (trace (perform op net tag w)) = Some (ELog (log_prefix op) e)) /\
  (forall v, res (perform op net tag w) = Ok v ->
     logs (trace (perform op net tag w)) = 0%nat) /\
  (forall e, res (getWeeklyLeaderBoardInfoStats net w) = Throw e ->
     last (trace (getWeeklyLeaderBoardInfoStats net w)) =
     Some (ELog "Error fetching season leaderboard: " e)).
Proof.
  assert (H : forall op,
            (forall e, res (perform op net tag w) = Throw e ->
               logs (trace (perform op net tag w)) = 1%nat /\
               last (trace (perform op net tag w)) = Some (ELog (log_prefix op) e)) /\
            (forall v, res (perform op net tag w) = Ok v ->
               logs (trace (perform op net tag w)) = 0%nat)).
  { intros op'. rewrite perform_cached_fetch, cached_fetch_run.
    destruct (JSON_parse _) as [x|e0|].
    - destruct (freshness x (clock w)) as [[|]|e0|].
      + destruct (get_field x (payload_field op')) as [v|e0|].
        * split; [discriminate|reflexivity].
        * split; [intros e [= <-]; split; reflexivity|discriminate].
        * split; discriminate.
      + apply network_run_logs.
      + split; [intros e [= <-]; split; reflexivity|discriminate].
      + split; discriminate.
    - split; [intros e [= <-]; split; reflexivity|discriminate].
    - split; discriminate. }
  split; [apply H|]. split; [apply H|].
  intros e He. exact (proj2 (proj1 (H WeeklyLeaderboard) e He)).
Qed.

(** ** The further properties at concrete inputs *)

Lemma sample_entries_safe n :
  Z.of_nat n <= 7000 -> Forall (fun e => safe (fst e)) (sample_entries n).
Proof.
  intros Hn. apply List.Forall_forall. intros e He. unfold sample_entries in He.
  apply in_map_iff in He as (i & <- & Hi). apply in_seq in Hi.
  unfold safe. cbn [fst]. change (2 ^ 53) with 9007199254740992. lia.
Qed.

Lemma sample_entries_length n : length (sample_entries n) = n.
Proof. unfold sample_entries. rewrite length_map, length_seq. reflexivity. Qed.


Lemma X8_witness :
  main failing_net own_page whole_page (second_visit "XYZ") =
  Build_run (Ok Returned) (second_visit "XYZ")
    [EInsert (weekly_widget
                (requirement_rows (sample_entries 100)
                   (fun e => Z2SF (spec_weekly (fst e) 10)))
                (VNum (Z2SF 10)))].
Proof.
  eapply (X8_visit_with_fresh_cache failing_net own_page "XYZ" whole_page
            (second_visit "XYZ")
            (fun op => match op with
                       | TeamStats => team_body
                       | _ => remote_board 100
                       end)
            (fun op => match op with
                       | TeamStats => 1700000001000
                       | _ => 1700000002000
                       end)
            _ _ 10 3000 (sample_entries 100) (sample_entries 100)).
  - reflexivity.
  - reflexivity.
  - unfold safe. cbn [clock second_visit]. change (2 ^ 53) with 9007199254740992. lia.
  - intros []; (split; [vm_compute; reflexivity|]);
      (split; [split; [discriminate|vm_compute; reflexivity]|]);
      (split; [unfold safe; change (2 ^ 53) with 9007199254740992; lia|]);
      cbn [clock second_visit]; unfold twenty_minutes; lia.
  - reflexivity.
  - reflexivity.
  - reflexivity.
  - reflexivity.
  - vm_compute. reflexivity.
  - vm_compute. reflexivity.
  - rewrite sample_entries_length. lia.
  - rewrite sample_entries_length. lia.
  - apply sample_entries_safe. lia.
  - apply sample_entries_safe. lia.
  - unfold safe. change (2 ^ 53) with 9007199254740992. lia.
  - change (2 ^ 53) with 9007199254740992. lia.
  - reflexivity.
  - reflexivity.
Defined.

Lemma X9_witness :
  res (main failing_net own_page whole_page (first_visit "XYZ")) = Throw TypeError /\
  inserts (trace (main failing_net own_page whole_page (first_visit "XYZ"))) = 0%nat.
Proof.
  edestruct (X9_leaderboard_failure_ends_script failing_net own_page "XYZ" whole_page
               (first_visit "XYZ")) as [H _].
  - reflexivity.
  - reflexivity.
  - reflexivity.
  - rewrite (H (Error "Failed to fetch weekly leaderboard: 404") eq_refl).
    split; reflexivity.
Defined.

Lemma X10_witness :
  res (main (boards_only_net 100) own_page whole_page (first_visit "XYZ")) = Ok Returned /\
  last (trace (main (boards_only_net 100) own_page whole_page (first_visit "XYZ"))) =
    Some (EInsert (weekly_widget (requirement_rows (sample_entries 100) (fun _ => S754_nan))
                     VUndefined)).
Proof.
  edestruct X10_team_failure_gives_NaN_table
    with (net := boards_only_net 100) (href := own_page) (tag := "XYZ") (pg := whole_page)
         (w := first_visit "XYZ") (ew := sample_entries 100) (es := sample_entries 100)
    as [_ H].
  - reflexivity.
  - reflexivity.
  - reflexivity.
  - vm_compute. reflexivity.
  - rewrite sample_entries_length. lia.
  - rewrite sample_entries_length. lia.
  - reflexivity.
  - reflexivity.
  - rewrite H. split; reflexivity.
Defined.

Lemma X11_witness :
  let pg := {| container_appears := true; leaderboard_parent := false;
               next_sibling := NoNextSibling |} in
  res (main (sample_net 100) own_page pg (first_visit "XYZ")) = Ok Returned /\
  requests (trace (main (sample_net 100) own_page pg (first_visit "XYZ"))) = 3%nat /\
  last (trace (main (sample_net 100) own_page pg (first_visit "XYZ"))) =
    Some (ELogText "Could not find the container div or leaderboard table div.").
Proof.
  intros pg.
  edestruct (X11_page_without_anchor (sample_net 100) own_page "XYZ" pg (first_visit "XYZ"))
    as [_ H].
  - reflexivity.
  - reflexivity.
  - vm_compute. reflexivity.
  - vm_compute. reflexivity.
  - vm_compute. reflexivity.
  - rewrite (H eq_refl eq_refl). repeat split; reflexivity.
Defined.

Lemma X12_witness :
  let w := {| storage := {[ "teamStats" := Json (VObj [("data", team_body)]) ]};
              clock := 1700000000000 |} in
  requests (trace (perform TeamStats (sample_net 100) "XYZ" w)) = 1%nat.
Proof.
  intros w.
  apply (X12_item_without_timestamp_is_a_miss TeamStats (sample_net 100) "XYZ" w
           (VObj [("data", team_body)])).
  - reflexivity.
  - right. reflexivity.
Defined.

Lemma X13_witness :
  let first := load_team empty_team_net (VStr (Raw "XYZ")) (first_visit "XYZ") in
  res first = Ok (VUndefined, VUndefined) /\
  forall net' w',
    storage w' !! "teamStats" = storage (final first) !! "teamStats" ->
    safe (clock w') ->
    clock w' - 1700000001000 < twenty_minutes ->
    load_team net' (VStr (Raw "XYZ")) w' =
    Build_run (Ok (VUndefined, VUndefined)) w'
      [ELog "Error retrieving team stats: " TypeError].
Proof.
  intros first.
  destruct (X13_unusable_team_answer_is_cached empty_team_net "XYZ" (first_visit "XYZ")
              {| status := 200; body := Some (VObj [("status", VStr (Raw "OK"))]);
                 received := 1700000001000 |}
              (VObj [("status", VStr (Raw "OK"))]) TypeError) as [H1 H2].
  - reflexivity.
  - reflexivity.
  - reflexivity.
  - reflexivity.
  - split; [discriminate|reflexivity].
  - unfold safe. cbn [received]. change (2 ^ 53) with 9007199254740992. lia.
  - reflexivity.
  - fold first in H1, H2. split; [rewrite H1; reflexivity|exact H2].
Defined.

Lemma X14_witness :
  season_played
    (VObj [("stats", VArr [VObj [("board", VStr (Raw "daily")); ("played", VNum (Z2SF 40))];
                           VObj [("board", VStr (Raw "season"));
                                 ("played", VNum (Z2SF 3000))];
                           VObj [("board", VStr (Raw "season"));
                                 ("played", VNum (Z2SF 1))]])]) =
  Ok (VNum (Z2SF 3000)).
Proof.
  apply (proj1 (X14_season_races_first_match _
                  (VObj [("board", VStr (Raw "season")); ("played", VNum (Z2SF 3000))])
                  [VObj [("board", VStr (Raw "daily")); ("played", VNum (Z2SF 40))]]
                  [VObj [("board", VStr (Raw "season")); ("played", VNum (Z2SF 1))]]
                  ltac:(repeat constructor; eexists; split; reflexivity))).
  - reflexivity.
  - reflexivity.
Defined.

Lemma X15_witness :
  res (load_team no_stats_net (VStr (Raw "XYZ")) (first_visit "XYZ")) =
    Ok (VNum (Z2SF 10), VUndefined) /\
  last (trace (load_team no_stats_net (VStr (Raw "XYZ")) (first_visit "XYZ"))) =
    Some (ELog "Error retrieving team stats: " TypeError).
Proof.
  erewrite (X15_member_count_survives no_stats_net (VStr (Raw "XYZ")) (first_visit "XYZ"));
    cycle 1.
  - reflexivity.
  - reflexivity.
  - reflexivity.
  - reflexivity.
  - reflexivity.
  - intros l. discriminate.
  - split; reflexivity.
Defined.

Lemma X16_witness :
  createTopTeamRequirementsTableBody
    [("top1", requirement (700, 50000) (Z2SF 10));
     ("top3", VObj [("played", VNum (Z2SF 630))])] = Throw TypeError /\
  createTopTeamRequirementsTableBody
    [("top1", requirement (700, 50000) (Z2SF 10));
     ("top100", requirement (630, 40000) S754_nan)] =
    Ok [{| rank := "1";
           races := Localized (VNum (Z2SF 700));
           experience := Localized (VNum (Z2SF 50000));
           daily := Localized (VNum (Z2SF 10)) |};
        {| rank := "100";
           races := Localized (VNum (Z2SF 630));
           experience := Localized (VNum (Z2SF 40000));
           daily := Localized (VNum S754_nan) |}].
Proof.
  split.
  - rewrite X16_renderer_rows_or_TypeError; [reflexivity|].
    repeat constructor.
  - rewrite X16_renderer_rows_or_TypeError; [reflexivity|].
    repeat constructor.
Defined.

Lemma X17_witness :
  let d := clicks sample_context [Season; Season; Weekly] sample_document in
  shows sample_context Weekly d /\
  weeklyClasses d = ["link"; "link--s"; "link--h"] /\
  seasonClasses d = ["link"; "link--s"; "link--i"].
Proof.
  apply (X17_series_of_clicks sample_context Weekly sample_document
           [Season; Season; Weekly]).
  - eexists. split; [reflexivity|]. split; [reflexivity|]. split; [reflexivity|].
    left. split; reflexivity.
  - intros []; eexists; reflexivity.
Defined.

Lemma X18_witness :
  weekly_daily (entry (700, 50000)) (VNum (Z2SF 0)) = Ok (S754_infinity false) /\
  season_daily (entry (700, 50000)) (VNum (Z2SF 3000)) (VNum (Z2SF 0)) =
    Ok (S754_infinity true).
Proof.
  apply (X18_zero_members (700, 50000) 3000);
    unfold safe; cbn [fst]; change (2 ^ 53) with 9007199254740992; lia.
Defined.

Lemma X19_witness :
  click Season sample_context_without_points sample_document =
  ({| weeklyClasses := ["link"; "link--s"; "link--h"];
      seasonClasses := ["link"; "link--s"; "link--i"];
      bodyElement := bodyElement sample_document;
      footnoteElement := footnoteElement sample_document |}, Throw TypeError).
Proof.
  apply (X19_click_that_cannot_render sample_context_without_points Weekly Season
           sample_document TypeError).
  - eexists. split; [reflexivity|]. split; [reflexivity|]. split; [reflexivity|].
    left. split; reflexivity.
  - reflexivity.
Defined.
